(** * The download completion monitor of [urbanscene3d/download.py]

    A shallow embedding of [FileDownloader.get_download_status],
    [FileDownloader.monitor_download_progress] and
    [FileDownloader.wait_for_download_completion], together with the
    properties of the polling loop that the specification talks about.

    The Python methods read the wall clock, list a directory, sleep and
    print.  They are embedded as computations in a state-and-exception
    monad over a [world] that counts how many clock readings, directory
    listings and sleeps have been consumed, against an environment [env]
    that fixes what each of those calls answers.  The two [while] loops
    carry a fuel argument; running out of fuel is a result of its own
    ([Fuel]), so "the loop is still running" can be told apart from "the
    method returned" and from "the method raised".

    The transfer rate that the monitor prints is computed in Python
    floats; a float is modelled by the rational it denotes exactly, and
    every operation rounds to the nearest double.

    A second layer embeds [setup_driver], [download_file], [close] and
    [main]: the calls into the browser are answered by a record
    [externals], and the state of a run is a [session] around the world
    of the monitor. *)

From Stdlib Require Import ZArith QArith Qround Qabs Qpower Lqa.
From stdpp Require Import gmap strings list fin_maps pretty.

Local Open Scope string_scope.
Local Open Scope list_scope.
Local Open Scope Z_scope.

(** ** Python strings *)

Module PyStr.

(** [s.endswith(suf)] *)
Fixpoint endswith (s suf : string) : bool :=
  if String.eqb s suf then true
  else match s with
       | EmptyString => false
       | String _ s' => endswith s' suf
       end.

(** [s[:-k]] for a positive [k]: the first [len(s) - k] characters, the
    empty string when [s] has fewer than [k] characters. *)
Definition drop_last (k : nat) (s : string) : string :=
  String.substring 0 (String.length s - k) s.

End PyStr.

(** The suffix Chrome gives to a partial download, and its length (the
    literal [11] of [filename[:-11]]). *)
Definition crdownload : string := ".crdownload".

(** ** The download directory as the monitor sees it *)

(** One name returned by [os.listdir], with what the two calls made on
    its path answer: [os.path.isfile] (which is [False] on any stat
    error) and [os.path.getsize] ([None] when it raises [OSError]). *)
Record dirent := Dirent {
  d_name : string;
  d_isfile : bool;
  d_getsize : option Z
}.

(** What one look at [self.download_dir] gives: the path does not exist,
    it exists but [os.listdir] raises [OSError], or a listing. *)
Inductive dir_view :=
| Missing
| Unlistable
| Entries (l : list dirent).

(** ** The status dictionary *)

(** An element of [status['in_progress_files']]. *)
Record progress_info := ProgressInfo {
  p_name : string;
  p_temp_file : string;
  p_current_size : Z;
  p_size_mb : Q
}.

(** An element of [status['completed_files']]. *)
Record completed_info := CompletedInfo {
  c_name : string;
  c_size : Z;
  c_size_mb : Q
}.

Record status := Status {
  active_downloads : Z;
  completed_files : list completed_info;
  in_progress_files : list progress_info;
  file_sizes : gmap string Z;
  total_size : Z
}.

(** [round(x, 2)]: to the nearest hundredth, ties to the even hundredth.
    For a size below [2^53] the float quotient by [1024*1024] is exact,
    and [round] works from the exact value of its argument. *)
Definition py_round2 (x : Q) : Q :=
  let n := Qnum x * 100 in
  let d := Zpos (Qden x) in
  let fl := n / d in
  let r := n mod d in
  let h := if 2 * r <? d then fl
           else if d <? 2 * r then fl + 1
           else if Z.even fl then fl else fl + 1 in
  Qmake h 100.

Definition size_mb_of (file_size : Z) : Q :=
  py_round2 (Qmake file_size (1024 * 1024)).

(** ** Results of a call *)

Inductive exn := OSError | KeyboardInterrupt | ValueError.

(** A call returns a value, raises, or its loop is still running when the
    fuel is spent. *)
Inductive res (A : Type) :=
| Ret (a : A)
| Raise (e : exn)
| Fuel.
Arguments Ret {A} a.
Arguments Raise {A} e.
Arguments Fuel {A}.

(** ** [get_download_status] on one view of the directory *)

Definition empty_status : status :=
  {| active_downloads := 0;
     completed_files := [];
     in_progress_files := [];
     file_sizes := ∅;
     total_size := 0 |}.

(** The body of [for filename in os.listdir(self.download_dir)] for one
    name. *)
Definition scan_entry (st : status) (e : dirent) : res status :=
  let filename := d_name e in
  if PyStr.endswith filename crdownload then
    let original_name := PyStr.drop_last 11 filename in
    match d_getsize e with
    | None => Raise OSError
    | Some file_size =>
        Ret {| active_downloads := active_downloads st + 1;
               completed_files := completed_files st;
               in_progress_files :=
                 in_progress_files st ++
                 [ProgressInfo original_name filename file_size
                               (size_mb_of file_size)];
               file_sizes := file_sizes st;
               total_size := total_size st + file_size |}
    end
  else if d_isfile e then
    match d_getsize e with
    | None => Raise OSError
    | Some file_size =>
        Ret {| active_downloads := active_downloads st;
               completed_files :=
                 completed_files st ++
                 [CompletedInfo filename file_size (size_mb_of file_size)];
               in_progress_files := in_progress_files st;
               file_sizes := file_sizes st;
               total_size := total_size st + file_size |}
    end
  else Ret st.

Fixpoint scan (l : list dirent) (st : status) : res status :=
  match l with
  | [] => Ret st
  | e :: l' =>
      match scan_entry st e with
      | Ret st' => scan l' st'
      | Raise x => Raise x
      | Fuel => Fuel
      end
  end.

Definition status_of_view (v : dir_view) : res status :=
  match v with
  | Missing => Ret empty_status
  | Unlistable => Raise OSError
  | Entries l => scan l empty_status
  end.

(** ** The world: clock, directory, sleep, terminal *)

(** What the monitor prints, one constructor per [print] call of the two
    methods; numbers are kept as numbers, not as formatted text, except
    the transfer rate, which is kept as the text that its format
    specification [:.2f] produces. *)
Inductive event :=
| StartingMonitoring
| AllDownloadsCompleted
| CompletedLine (name : string) (size_mb : Q)
| NoActiveDownloadsYet
| ActiveDownloads (n : Z)
| SpeedLine (name : string) (current_mb : Q) (speed_mbps : string)
| CalculatingSpeedLine (name : string) (current_mb : Q)
| StartingLine (name : string) (current_mb : Q)
| UsingDetailedMonitoring
| DownloadCompleted
| MonitoringActive (n : Z)
| ProgressLine (name : string) (size_mb : Q)
| InterruptedByUser
| WaitingForCompletion
| DownloadInProgress (n : nat)
| TimeoutReached.

(** The environment answers the calls: the [n]-th call of [time.time()]
    reads [clock n] (seconds), the [n]-th look at the directory sees
    [dirs n], and the [n]-th [time.sleep] is cut short by Ctrl-C when
    [interrupt n] holds. *)
Record env := Env {
  clock : nat -> Q;
  dirs : nat -> dir_view;
  interrupt : nat -> bool
}.

Record world := World {
  clock_reads : nat;
  dir_reads : nat;
  sleeps : nat;
  output : list event
}.

Definition world0 : world := World 0 0 0 [].

(** The world after one more clock reading, directory look, sleep or
    printed line. *)
Definition read_clock (w : world) : world :=
  World (S (clock_reads w)) (dir_reads w) (sleeps w) (output w).

Definition looked (w : world) : world :=
  World (clock_reads w) (S (dir_reads w)) (sleeps w) (output w).

Definition slept (w : world) : world :=
  World (clock_reads w) (dir_reads w) (S (sleeps w)) (output w).

Definition printed (e : event) (w : world) : world :=
  World (clock_reads w) (dir_reads w) (sleeps w) (output w ++ [e]).

Definition M (A : Type) : Type := world -> res A * world.

Definition ret {A} (a : A) : M A := fun w => (Ret a, w).

Definition raise {A} (e : exn) : M A := fun w => (Raise e, w).

Definition out_of_fuel {A} : M A := fun w => (Fuel, w).

Definition bind {A B} (m : M A) (k : A -> M B) : M B :=
  fun w =>
    match m w with
    | (Ret a, w') => k a w'
    | (Raise e, w') => (Raise e, w')
    | (Fuel, w') => (Fuel, w')
    end.

(** [try: m except KeyboardInterrupt: h] *)
Definition try_except_interrupt {A} (m h : M A) : M A :=
  fun w =>
    match m w with
    | (Raise KeyboardInterrupt, w') => h w'
    | r => r
    end.

Declare Scope monad_scope.
Delimit Scope monad_scope with monad.
Notation "x <- m ;; k" := (bind m (fun x => k))
  (at level 100, m at next level, k at level 200, right associativity)
  : monad_scope.
Notation "m ;; k" := (bind m (fun _ => k))
  (at level 100, k at level 200, right associativity) : monad_scope.
Local Open Scope monad_scope.

(** [a < b] on clock values, as a boolean. *)
Definition Qltb (a b : Q) : bool := negb (Qle_bool b a).

(** ** Floating-point arithmetic *)

(** A Python [float] (an IEEE 754 double): a sign with a magnitude that
    is finite - kept as the rational it denotes exactly - or infinite,
    or a NaN. *)
Inductive pyfloat :=
| Finite (negative : bool) (magnitude : Q)
| Infinite (negative : bool)
| NaN.

(** The integer nearest to [x], the even one of the two when [x] lies
    halfway. *)
Definition nearest_even (x : Q) : Z :=
  let n := Qnum x in
  let d := Zpos (Qden x) in
  let fl := n / d in
  let r := n mod d in
  if 2 * r <? d then fl
  else if d <? 2 * r then fl + 1
  else if Z.even fl then fl else fl + 1.

(** [2^e], for any integer [e]. *)
Definition pow2 (e : Z) : Q := (2 ^ e)%Q.

(** For a positive [x], the [e] with [2^e <= x < 2^(e+1)]. *)
Definition binary_exponent (x : Q) : Z :=
  let e := Z.log2 (Qnum x) - Z.log2 (Zpos (Qden x)) in
  if Qltb x (pow2 e) then e - 1 else e.

(** Rounding of a magnitude to the nearest double, ties to even: 53
    significant bits, no bit below [2^-1074]; [None] when the result
    overflows. *)
Definition round_magnitude (x : Q) : option Q :=
  if Qle_bool x 0 then Some 0%Q
  else
    let e := Z.max (binary_exponent x - 52) (-1074) in
    let y := (inject_Z (nearest_even (x / pow2 e)) * pow2 e)%Q in
    if Qltb y (pow2 1024) then Some y else None.

(** The double nearest to a real number (an exact zero gets the sign
    [+]). *)
Definition round_binary64 (x : Q) : pyfloat :=
  match round_magnitude (Qabs x) with
  | Some m => Finite (Qltb x 0) m
  | None => Infinite (Qltb x 0)
  end.

(** [float(z)], as in [z / x] for a float [x].  (Python raises
    [OverflowError] for an int of [2^1024] or more, far above any file
    size.) *)
Definition float_of_int (z : Z) : pyfloat := round_binary64 (inject_Z z).

(** [a - b] for two doubles, here two readings of the clock: the double
    nearest to the exact difference. *)
Definition float_sub (a b : Q) : pyfloat := round_binary64 (a - b).

(** [x / y], the double nearest to the exact quotient, with the IEEE
    results for infinite operands and for a zero divisor.  (On a zero
    divisor Python raises [ZeroDivisionError] instead; both divisions of
    the monitor have a positive divisor.) *)
Definition float_div (x y : pyfloat) : pyfloat :=
  match x, y with
  | NaN, _ | _, NaN => NaN
  | Infinite _, Infinite _ => NaN
  | Infinite sx, Finite sy _ => Infinite (xorb sx sy)
  | Finite sx _, Infinite sy => Finite (xorb sx sy) 0
  | Finite sx mx, Finite sy my =>
      if Qle_bool my 0 then
        if Qle_bool mx 0 then NaN else Infinite (xorb sx sy)
      else
        match round_magnitude (mx / my) with
        | Some m => Finite (xorb sx sy) m
        | None => Infinite (xorb sx sy)
        end
  end.

(** The relative error of one rounding, away from underflow and
    overflow. *)
Definition eps : Q := pow2 (-53).

(** [x > 0] *)
Definition float_positive (x : pyfloat) : bool :=
  match x with
  | Finite false m => Qltb 0 m
  | Infinite false => true
  | _ => false
  end.

(** The number of hundredths that [:.2f] shows for a magnitude: the
    exact value of the double times 100, rounded to the nearest integer,
    ties to even. *)
Definition shown_hundredths (m : Q) : Z := nearest_even (m * 100).

(** [f"{x:.2f}"] *)
Definition format_2f (x : pyfloat) : string :=
  match x with
  | NaN => "nan"
  | Infinite s => if s then "-inf" else "inf"
  | Finite s m =>
      let h := shown_hundredths m in
      (if s then "-" else "")
      +:+ pretty (h / 100) +:+ "." +:+ pretty (h mod 100 / 10)
      +:+ pretty (h mod 10)
  end.

(** How a loop body ends: with a [return] of the method, or by going on
    to the next iteration with the loop's variables. *)
Inductive ctl (R S : Type) :=
| Return (r : R)
| Continue (s : S).
Arguments Return {R S} r.
Arguments Continue {R S} s.

(** The value of [last_sizes[filename]]. *)
Record sample := Sample { s_size : Z; s_time : Q }.

Section Monitor.

Variable E : env.

Definition time_time : M Q :=
  fun w => (Ret (clock E (clock_reads w)), read_clock w).

(** [time.sleep(secs)] raises [ValueError] on a negative length. *)
Definition time_sleep (secs : Q) : M unit :=
  fun w =>
    if Qltb secs 0 then (Raise ValueError, w)
    else if interrupt E (sleeps w) then (Raise KeyboardInterrupt, slept w)
    else (Ret tt, slept w).

Definition print (e : event) : M unit :=
  fun w => (Ret tt, printed e w).

Definition look : M dir_view :=
  fun w => (Ret (dirs E (dir_reads w)), looked w).

Definition lift {A} (r : res A) : M A := fun w => (r, w).

Definition get_download_status : M status :=
  v <- look ;; lift (status_of_view v).

(** [for x in l: body x] for a body that only prints. *)
Fixpoint for_each {A} (l : list A) (body : A -> M unit) : M unit :=
  match l with
  | [] => ret tt
  | x :: l' => body x ;; for_each l' body
  end.

(** *** [monitor_download_progress] *)

(** The body of [for file_info in status['in_progress_files']]. *)
Definition report_progress (last_sizes : gmap string sample)
    (file_info : progress_info) : M (gmap string sample) :=
  let filename := p_name file_info in
  let current_size := p_current_size file_info in
  let current_mb := p_size_mb file_info in
  match last_sizes !! filename with
  | Some last =>
      let bytes_downloaded := current_size - s_size last in
      now <- time_time ;;
      let time_elapsed := float_sub now (s_time last) in
      if float_positive time_elapsed then
        let speed_bps :=
          float_div (float_of_int bytes_downloaded) time_elapsed in
        let speed_mbps := float_div speed_bps (float_of_int (1024 * 1024)) in
        print (SpeedLine filename current_mb (format_2f speed_mbps))
      else print (CalculatingSpeedLine filename current_mb)
  | None => print (StartingLine filename current_mb)
  end ;;
  now <- time_time ;;
  ret (<[filename := Sample current_size now]> last_sizes).

Fixpoint report_all (l : list progress_info)
    (last_sizes : gmap string sample) : M (gmap string sample) :=
  match l with
  | [] => ret last_sizes
  | file_info :: l' =>
      last_sizes' <- report_progress last_sizes file_info ;;
      report_all l' last_sizes'
  end.

(** One pass through the body of [while True]. *)
Definition monitor_iteration (check_interval : Q)
    (last_sizes : gmap string sample) : M (ctl bool (gmap string sample)) :=
  st <- get_download_status ;;
  c <- (if active_downloads st =? 0 then
          match completed_files st with
          | _ :: _ =>
              print AllDownloadsCompleted ;;
              for_each (completed_files st)
                (fun file_info =>
                   print (CompletedLine (c_name file_info)
                                        (c_size_mb file_info))) ;;
              ret (Return true)
          | [] =>
              print NoActiveDownloadsYet ;;
              ret (Continue last_sizes)
          end
        else
          print (ActiveDownloads (active_downloads st)) ;;
          last_sizes' <- report_all (in_progress_files st) last_sizes ;;
          ret (Continue last_sizes')) ;;
  match c with
  | Return r => ret (Return r)
  | Continue last_sizes' =>
      time_sleep check_interval ;;
      ret (Continue last_sizes')
  end.

Fixpoint monitor_loop (fuel : nat) (check_interval : Q)
    (last_sizes : gmap string sample) : M bool :=
  match fuel with
  | O => out_of_fuel
  | S fuel' =>
      c <- monitor_iteration check_interval last_sizes ;;
      match c with
      | Return r => ret r
      | Continue last_sizes' => monitor_loop fuel' check_interval last_sizes'
      end
  end.

Definition monitor_download_progress (fuel : nat) (check_interval : Q)
    : M bool :=
  print StartingMonitoring ;;
  monitor_loop fuel check_interval ∅.

(** *** [wait_for_download_completion] *)

(** The [while time.time() - start_time < timeout] loop of the detailed
    branch; [None] means the condition became false and control falls
    through to the end of the method. *)
Fixpoint wait_detailed_loop (fuel : nat) (start_time timeout : Q)
    : M (option bool) :=
  match fuel with
  | O => out_of_fuel
  | S fuel' =>
      now <- time_time ;;
      if Qltb (now - start_time) timeout then
        st <- get_download_status ;;
        if (active_downloads st =? 0)
           && negb (bool_decide (completed_files st = [])) then
          print DownloadCompleted ;;
          ret (Some true)
        else if 0 <? active_downloads st then
          print (MonitoringActive (active_downloads st)) ;;
          for_each (in_progress_files st)
            (fun file_info =>
               print (ProgressLine (p_name file_info)
                                   (p_size_mb file_info))) ;;
          monitor_download_progress fuel' 5 ;;
          ret (Some true)
        else
          time_sleep 5 ;;
          wait_detailed_loop fuel' start_time timeout
      else ret None
  end.

(** The loop of the simple branch. *)
Fixpoint wait_simple_loop (fuel : nat) (start_time timeout : Q)
    : M (option bool) :=
  match fuel with
  | O => out_of_fuel
  | S fuel' =>
      now <- time_time ;;
      if Qltb (now - start_time) timeout then
        v <- look ;;
        match v with
        | Entries l =>
            let crdownload_files :=
              filter (fun f => PyStr.endswith f crdownload = true)
                     (map d_name l) in
            match crdownload_files with
            | [] =>
                print DownloadCompleted ;;
                ret (Some true)
            | _ :: _ =>
                print (DownloadInProgress (length crdownload_files)) ;;
                time_sleep 10 ;;
                wait_simple_loop fuel' start_time timeout
            end
        | Missing | Unlistable => raise OSError
        end
      else ret None
  end.

Definition wait_for_download_completion (fuel : nat) (timeout : Q)
    (detailed_monitoring : bool) : M bool :=
  r <- (if detailed_monitoring then
          print UsingDetailedMonitoring ;;
          start_time <- time_time ;;
          try_except_interrupt
            (wait_detailed_loop fuel start_time timeout)
            (print InterruptedByUser ;; ret (Some false))
        else
          print WaitingForCompletion ;;
          start_time <- time_time ;;
          wait_simple_loop fuel start_time timeout) ;;
  match r with
  | Some b => ret b
  | None => print TimeoutReached ;; ret false
  end.

End Monitor.

(** ** Vocabulary for the statements *)

(** The record that [scan_entry] appends to [in_progress_files] for an
    entry, if it appends one. *)
Definition partial_of (e : dirent) : option progress_info :=
  if PyStr.endswith (d_name e) crdownload then
    match d_getsize e with
    | Some file_size =>
        Some (ProgressInfo (PyStr.drop_last 11 (d_name e)) (d_name e)
                           file_size (size_mb_of file_size))
    | None => None
    end
  else None.

(** The record that [scan_entry] appends to [completed_files]. *)
Definition complete_of (e : dirent) : option completed_info :=
  if PyStr.endswith (d_name e) crdownload then None
  else if d_isfile e then
    match d_getsize e with
    | Some file_size =>
        Some (CompletedInfo (d_name e) file_size (size_mb_of file_size))
    | None => None
    end
  else None.

(** [os.path.getsize] is called on the entry and raises. *)
Definition unreadable (e : dirent) : bool :=
  (PyStr.endswith (d_name e) crdownload || d_isfile e)
  && negb (bool_decide (is_Some (d_getsize e))).

Definition Zsum (l : list Z) : Z := foldr Z.add 0 l.

(** The logical names a status reports, in progress or completed. *)
Definition known_names (st : status) : list string :=
  map p_name (in_progress_files st) ++ map c_name (completed_files st).

(** The view lists at least one name ending in [.crdownload]. *)
Definition shows_partial (v : dir_view) : bool :=
  match v with
  | Entries l => existsb (fun e => PyStr.endswith (d_name e) crdownload) l
  | Missing | Unlistable => false
  end.

(** The view shows no file at all to the scan: the directory is missing,
    or nothing listed is a partial download or a regular file. *)
Definition shows_nothing (v : dir_view) : bool :=
  match v with
  | Missing => true
  | Unlistable => false
  | Entries l =>
      forallb (fun e => negb (PyStr.endswith (d_name e) crdownload)
                        && negb (d_isfile e)) l
  end.

(** Every size the scan asks for is answered. *)
Definition readable (v : dir_view) : bool :=
  match v with
  | Missing => true
  | Unlistable => false
  | Entries l => forallb (fun e => negb (unreadable e)) l
  end.

(** ** Sample directories *)

(** A download under way next to the screenshot that [download_file]
    saves into the download directory, and a sub-directory. *)
Definition listing_downloading : list dirent :=
  [ Dirent "scene.zip.crdownload" true (Some 1000);
    Dirent "before_download.png" true (Some 131072);
    Dirent "cache" false (Some 4096) ].

Definition status_downloading : status :=
  {| active_downloads := 1;
     completed_files :=
       [CompletedInfo "before_download.png" 131072 (Qmake 12 100)];
     in_progress_files :=
       [ProgressInfo "scene.zip" "scene.zip.crdownload" 1000 (Qmake 0 100)];
     file_sizes := ∅;
     total_size := 132072 |}.

(** A clock that advances five seconds between two readings. *)
Definition clock5 (n : nat) : Q := inject_Z (5 * Z.of_nat n).

Definition never (n : nat) : bool := false.

(** A download under way next to a regular file whose size cannot be
    read. *)
Definition listing_unreadable : list dirent :=
  [ Dirent "scene.zip.crdownload" true (Some 1000);
    Dirent "notes.txt" true None ].

Definition env_unreadable : env :=
  Env clock5 (fun _ => Entries listing_unreadable) never.

(** The world after printing several lines in a row. *)
Definition printed_all (es : list event) (w : world) : world :=
  World (clock_reads w) (dir_reads w) (sleeps w) (output w ++ es).

(** The rate of a transfer between a sample and the present, in MB/s, as
    [monitor_download_progress] computes it, step by step in doubles. *)
Definition speed_mbps_of (current_size : Z) (last : sample) (now : Q)
    : pyfloat :=
  float_div
    (float_div (float_of_int (current_size - s_size last))
               (float_sub now (s_time last)))
    (float_of_int (1024 * 1024)).

(** The line [report_progress] prints for a transfer, given the previous
    sample of its name (if any) and the clock value it reads. *)
Definition progress_line (last : option sample) (now : Q)
    (file_info : progress_info) : event :=
  match last with
  | None => StartingLine (p_name file_info) (p_size_mb file_info)
  | Some s =>
      if float_positive (float_sub now (s_time s)) then
        SpeedLine (p_name file_info) (p_size_mb file_info)
          (format_2f (speed_mbps_of (p_current_size file_info) s now))
      else CalculatingSpeedLine (p_name file_info) (p_size_mb file_info)
  end.

(** The transfer rate a printed line shows, if it shows one. *)
Definition rate_reported (e : event) : option string :=
  match e with
  | SpeedLine _ _ speed_mbps => Some speed_mbps
  | _ => None
  end.

(** One MB, in bytes. *)
Definition mb : Q := Qmake (1024 * 1024) 1.

(** The exact rate between a sample and the present, in MB/s. *)
Definition exact_speed_mbps (current_size : Z) (last : sample) (now : Q)
    : Q :=
  (inject_Z (current_size - s_size last) / (now - s_time last) / mb)%Q.

(** The end of a loop body that did not return: sleep, then go on with
    the loop variables [s]. *)
Definition sleep_then_continue {R S : Type} (E : env) (secs : Q) (s : S)
    : M (ctl R S) :=
  time_sleep E secs ;; ret (Continue s).

(** The lines printed when the monitor finds the downloads completed. *)
Definition completion_report (st : status) : list event :=
  AllDownloadsCompleted
  :: map (fun file_info =>
            CompletedLine (c_name file_info) (c_size_mb file_info))
         (completed_files st).

(** The lines printed by the detailed wait when it hands over to
    [monitor_download_progress]. *)
Definition handover_report (st : status) : list event :=
  MonitoringActive (active_downloads st)
  :: map (fun file_info =>
            ProgressLine (p_name file_info) (p_size_mb file_info))
         (in_progress_files st).

(** A clock for a run of the wait loop: the start and the first check of
    the loop condition read the same second, and every later reading
    comes five seconds after the one before (one sleep). *)
Definition clock_poll (n : nat) : Q := inject_Z (5 * Z.of_nat (pred n)).

(** A directory that stays empty. *)
Definition env_empty : env := Env clock_poll (fun _ => Entries []) never.

(** A download that keeps growing and is never finished. *)
Definition env_stuck : env :=
  Env clock_poll
      (fun n => Entries [Dirent "scene.zip.crdownload" true
                                (Some (1000 * Z.of_nat (S n)))])
      never.

(** A directory that holds the screenshot of [download_file] and where
    no download ever appears. *)
Definition env_screenshot : env :=
  Env clock_poll
      (fun _ => Entries [Dirent "before_download.png" true (Some 131072)])
      never.

(** An empty directory, and Ctrl-C during the first sleep. *)
Definition env_interrupted : env :=
  Env clock_poll (fun _ => Entries []) (fun _ => true).

(** A partial download that is listed at the first look and gone at every
    later one. *)
Definition env_vanishing : env :=
  Env clock_poll
      (fun n => match n with
                | O => Entries [Dirent "scene.zip.crdownload" true
                                       (Some 1000)]
                | S _ => Entries []
                end)
      never.

(** A partial download listed together with a regular file of the same
    logical name. *)
Definition listing_both : list dirent :=
  [ Dirent "scene.zip.crdownload" true (Some 1000);
    Dirent "scene.zip" true (Some 5000) ].

(** A printed line reports no rate, or a rate of zero. *)
Definition no_progress_reported (e : event) : Prop :=
  match rate_reported e with
  | Some rate => rate = "0.00"
  | None => True
  end.

(** A partial download whose size no longer changes. *)
Definition listing_stalled : list dirent :=
  [ Dirent "scene.zip.crdownload" true (Some 1000) ].

Definition status_stalled : status :=
  {| active_downloads := 1;
     completed_files := [];
     in_progress_files :=
       [ProgressInfo "scene.zip" "scene.zip.crdownload" 1000 (Qmake 0 100)];
     file_sizes := ∅;
     total_size := 1000 |}.

Definition env_stalled : env :=
  Env clock_poll (fun _ => Entries listing_stalled) never.

(** ** The browser side: [download_file], [close] and [main] *)

(** What Selenium raises, as far as [download_file] tells its exceptions
    apart; [WebDriverException] stands for any other [Exception]. *)
Inductive browser_exn :=
| TimeoutException
| NoSuchElementException
| WebDriverException.

Inductive failure :=
| Selenium (b : browser_exn)
| Python (e : exn).

(** [isinstance(e, Exception)]: [KeyboardInterrupt] is the one failure
    here that derives from [BaseException] only. *)
Definition is_Exception (f : failure) : bool :=
  match f with
  | Python KeyboardInterrupt => false
  | _ => true
  end.

(** A value returned by [execute_script]: one with a length (list, string,
    dict), truthy when the length is not zero, or one without ([None], a
    number, a boolean), on which [len] raises [TypeError]. *)
Inductive js_value :=
| Sized (n : nat)
| Unsized (truthy : bool).

Definition truthy (v : js_value) : bool :=
  match v with
  | Sized n => negb (Nat.eqb n 0)
  | Unsized b => b
  end.

(** [os.path.join(a, b)] on a POSIX system. *)
Definition path_join (a b : string) : string :=
  if String.prefix "/" b then b
  else if String.eqb a "" || PyStr.endswith a "/" then a +:+ b
  else a +:+ "/" +:+ b.

(** The options [setup_driver] builds. *)
Record chrome_options := ChromeOptions {
  download_default_directory : string;
  arguments : list string
}.

Definition build_options (download_dir : string) (headless : bool)
    : chrome_options :=
  {| download_default_directory := download_dir;
     arguments :=
       (if headless then ["--headless"] else [])
       ++ ["--no-sandbox"; "--disable-dev-shm-usage"; "--disable-gpu";
           "--window-size=1920,1080"] |}.

(** What the calls outside the monitor answer in one run: [None] means
    the call succeeds. *)
Record externals := Externals {
  makedirs : string -> option failure;
  start_chrome : chrome_options -> option failure;
  driver_get : string -> option failure;
  body_present : option failure;
  save_screenshot : string -> option failure;
  button_clickable : string -> option failure;
  button_click : option failure;
  execute_script : failure + js_value;
  driver_quit : option failure
}.

(** The lines printed by [setup_driver], [download_file], [close] and
    [main]. *)
Inductive dl_event :=
| ChromeInitialized (download_dir : string)
| ChromeFailed (f : failure)
| NavigatingTo (url : string)
| ScreenshotSaved (path : string)
| LookingForButton (xpath : string)
| ButtonFoundClicking
| CheckingForInitiation
| PartialFilesDetected (files : gset string)
| NewFilesDetected (files : gset string)
| BrowserReportsDownloads (n : nat)
| NoDownloadActivity
| ButtonTimeout (wait_timeout : Z)
| ButtonNotFound
| ErrorDuringDownload (f : failure)
| FailedToInitiate
| InterruptedInMain
| UnexpectedError (f : failure)
| BrowserClosed.

(** The state of a run: the world of the monitor, whether [self.driver]
    is set, and the lines printed outside the monitor (the monitor's own
    lines stay in [output]). *)
Record session := Session {
  s_world : world;
  s_driver : bool;
  s_log : list dl_event
}.

Inductive outcome (A : Type) :=
| Done (a : A)
| Failed (f : failure)
| Running.
Arguments Done {A} a.
Arguments Failed {A} f.
Arguments Running {A}.

Definition D (A : Type) : Type := session -> outcome A * session.

Definition dret {A} (a : A) : D A := fun s => (Done a, s).

Definition dbind {A B} (m : D A) (k : A -> D B) : D B :=
  fun s =>
    match m s with
    | (Done a, s') => k a s'
    | (Failed f, s') => (Failed f, s')
    | (Running, s') => (Running, s')
    end.

Declare Scope session_scope.
Delimit Scope session_scope with session.
Notation "x <~ m ;;; k" := (dbind m (fun x => k))
  (at level 100, m at next level, k at level 200, right associativity)
  : session_scope.
Notation "m ;;; k" := (dbind m (fun _ => k))
  (at level 100, k at level 200, right associativity) : session_scope.
Local Open Scope session_scope.

(** A call answered by the externals. *)
Definition call (answer : option failure) : D unit :=
  fun s =>
    match answer with
    | None => (Done tt, s)
    | Some f => (Failed f, s)
    end.

Definition say (e : dl_event) : D unit :=
  fun s => (Done tt, Session (s_world s) (s_driver s) (s_log s ++ [e])).

Definition when (b : bool) (m : D unit) : D unit :=
  if b then m else dret tt.

Definition fail {A} (f : failure) : D A := fun s => (Failed f, s).

(** [self.driver], and its assignment in [setup_driver]. *)
Definition get_driver : D bool := fun s => (Done (s_driver s), s).

Definition set_driver : D unit :=
  fun s => (Done tt, Session (s_world s) true (s_log s)).

(** A method of the monitor, run on the world of the session. *)
Definition in_world {A} (m : M A) : D A :=
  fun s =>
    match m (s_world s) with
    | (Ret a, w') => (Done a, Session w' (s_driver s) (s_log s))
    | (Raise e, w') => (Failed (Python e), Session w' (s_driver s) (s_log s))
    | (Fuel, w') => (Running, Session w' (s_driver s) (s_log s))
    end.

(** [try: m except ... as e: handler e], where [handles] tells which
    failures the [except] clauses select. *)
Definition try_except {A} (m : D A) (handles : failure -> bool)
    (handler : failure -> D A) : D A :=
  fun s =>
    match m s with
    | (Failed f, s') => if handles f then handler f s' else (Failed f, s')
    | r => r
    end.

(** [try: m finally: cleanup] *)
Definition try_finally {A} (m : D A) (cleanup : D unit) : D A :=
  fun s =>
    match m s with
    | (Done a, s') =>
        match cleanup s' with
        | (Done _, s'') => (Done a, s'')
        | (Failed f, s'') => (Failed f, s'')
        | (Running, s'') => (Running, s'')
        end
    | (Failed f, s') =>
        match cleanup s' with
        | (Done _, s'') => (Failed f, s'')
        | (Failed f', s'') => (Failed f', s'')
        | (Running, s'') => (Running, s'')
        end
    | (Running, s') => (Running, s')
    end.

Section Downloader.

Variable X : externals.
Variable E : env.

(** [self.download_dir] and [self.headless]. *)
Variable download_dir : string.
Variable headless : bool.

(** [FileDownloader.__init__], after the attributes are set. *)
Definition init : D unit :=
  call (makedirs X download_dir).

Definition setup_driver : D unit :=
  let chrome_options := build_options download_dir headless in
  try_except
    (call (start_chrome X chrome_options) ;;;
     set_driver ;;;
     say (ChromeInitialized download_dir))
    is_Exception
    (fun e => say (ChromeFailed e) ;;; fail e).

(** [set(os.listdir(self.download_dir)) if
    os.path.exists(self.download_dir) else set()] *)
Definition listed_names : D (gset string) :=
  v <~ in_world (look E) ;;;
  match v with
  | Missing => dret ∅
  | Unlistable => fail (Python OSError)
  | Entries l => dret (list_to_set (map d_name l))
  end.

(** The [for i in range(10)] loop of [download_file]; [None] means the
    loop ran to its end. *)
Fixpoint poll_for_start (rounds : nat) (initial_files : gset string)
    : D (option bool) :=
  match rounds with
  | O => dret None
  | S rounds' =>
      in_world (time_sleep E 1) ;;;
      current_files <~ listed_names ;;;
      let new_files := current_files ∖ initial_files in
      let crdownload_files :=
        filter (fun f => PyStr.endswith f crdownload = true) current_files in
      if negb (bool_decide (new_files = ∅))
         || negb (bool_decide (crdownload_files = ∅)) then
        when (negb (bool_decide (crdownload_files = ∅)))
             (say (PartialFilesDetected crdownload_files)) ;;;
        when (negb (bool_decide (new_files = ∅)))
             (say (NewFilesDetected new_files)) ;;;
        dret (Some true)
      else poll_for_start rounds' initial_files
  end.

(** The last resort of [download_file]: ask the browser, inside a bare
    [except: pass]; [None] means control goes on to the warning. *)
Definition ask_browser : D (option bool) :=
  match execute_script X with
  | inl _ => dret None
  | inr downloads =>
      if truthy downloads then
        match downloads with
        | Sized n => say (BrowserReportsDownloads n) ;;; dret (Some true)
        | Unsized _ => dret None
        end
      else dret None
  end.

(** The body of the [try] of [download_file]. *)
Definition start_download (url download_btn_xpath : string) : D bool :=
  say (NavigatingTo url) ;;;
  call (driver_get X url) ;;;
  call (body_present X) ;;;
  let screenshot_path := path_join download_dir "before_download.png" in
  call (save_screenshot X screenshot_path) ;;;
  say (ScreenshotSaved screenshot_path) ;;;
  say (LookingForButton download_btn_xpath) ;;;
  call (button_clickable X download_btn_xpath) ;;;
  say ButtonFoundClicking ;;;
  initial_files <~ listed_names ;;;
  call (button_click X) ;;;
  say CheckingForInitiation ;;;
  started <~ poll_for_start 10 initial_files ;;;
  match started with
  | Some b => dret b
  | None =>
      reported <~ ask_browser ;;;
      match reported with
      | Some b => dret b
      | None => say NoDownloadActivity ;;; dret false
      end
  end.

(** The [except] clauses of [download_file]. *)
Definition download_failed (wait_timeout : Z) (e : failure) : D bool :=
  match e with
  | Selenium TimeoutException =>
      say (ButtonTimeout wait_timeout) ;;; dret false
  | Selenium NoSuchElementException =>
      say ButtonNotFound ;;; dret false
  | _ => say (ErrorDuringDownload e) ;;; dret false
  end.

Definition download_file (url download_btn_xpath : string)
    (wait_timeout : Z) : D bool :=
  has_driver <~ get_driver ;;;
  when (negb has_driver) setup_driver ;;;
  try_except (start_download url download_btn_xpath)
             is_Exception
             (download_failed wait_timeout).

Definition close : D unit :=
  has_driver <~ get_driver ;;;
  when has_driver (call (driver_quit X) ;;; say BrowserClosed).

End Downloader.

(** The configuration of [main]. *)
Definition DOWNLOAD_URL : string :=
  "https://syn4-rs3yjlbkqq3nv33cc6bsalm25e-103-40-249-227.szuvccnas.direct.quickconnect.to:5001/d/s/lT61obCnx48mOc1FrPtUiuZ8eNCOrEQd/27C8eKMNd1YBpLxJTbYY-jMWU7vRHhbs-5bHAJ9227Ag".

Definition DOWNLOAD_DIR : string :=
  "/tudelft.net/staff-umbrella/Deep3D/mingchiehhu".

Definition DOWNLOAD_BUTTON_XPATH : string := "//*[@id='ext-comp-1038']".

Definition main (X : externals) (E : env) (fuel : nat) : D unit :=
  init X DOWNLOAD_DIR ;;;
  try_finally
    (try_except
       (success <~ download_file X E DOWNLOAD_DIR true
                     DOWNLOAD_URL DOWNLOAD_BUTTON_XPATH 60 ;;;
        if success then
          in_world (wait_for_download_completion E fuel 7200 true) ;;;
          dret tt
        else say FailedToInitiate)
       (fun _ => true)
       (fun e =>
          match e with
          | Python KeyboardInterrupt => say InterruptedInMain
          | _ => say (UnexpectedError e)
          end))
    (close X).

(** The session in which [main] starts. *)
Definition session0 : session := Session world0 false [].

(** A download directory that has been removed. *)
Definition env_missing : env := Env clock_poll (fun _ => Missing) never.

(** The view lists no [.crdownload] name and at least one regular
    file. *)
Definition shows_completed (v : dir_view) : bool :=
  match v with
  | Entries l =>
      negb (existsb (fun e => PyStr.endswith (d_name e) crdownload) l)
      && existsb d_isfile l
  | Missing | Unlistable => false
  end.

(** A download seen twice as a growing partial file, then as the
    finished file. *)
Definition env_finishing : env :=
  Env clock_poll
      (fun n =>
         match n with
         | 0%nat => Entries [Dirent "scene.zip.crdownload" true (Some 1000)]
         | 1%nat => Entries [Dirent "scene.zip.crdownload" true (Some 5000)]
         | _ => Entries [Dirent "scene.zip" true (Some 5000)]
         end)
      never.

(** The names a look at the directory shows to [download_file]. *)
Definition names_of_view (v : dir_view) : gset string :=
  match v with
  | Entries l => list_to_set (map d_name l)
  | Missing | Unlistable => ∅
  end.

(** The test of the polling loop of [download_file] on one look: a name
    that was not there before the click, or a [.crdownload] name. *)
Definition start_detected (initial_files : gset string) (v : dir_view)
    : bool :=
  negb (bool_decide (names_of_view v ∖ initial_files = ∅))
  || negb (bool_decide
             (filter (fun f => PyStr.endswith f crdownload = true)
                     (names_of_view v) = ∅)).

(** A computation that always ends, does not read the clock, prints no
    line of the monitor, does not unset [self.driver], and sleeps at most
    [a] times and looks at the directory at most [b] times. *)
Definition quiet {A} (a b : nat) (m : D A) : Prop :=
  forall s r s',
    m s = (r, s') ->
    r <> Running
    /\ (s_driver s = true -> s_driver s' = true)
    /\ clock_reads (s_world s') = clock_reads (s_world s)
    /\ output (s_world s') = output (s_world s)
    /\ (sleeps (s_world s) <= sleeps (s_world s')
        <= sleeps (s_world s) + a)%nat
    /\ (dir_reads (s_world s) <= dir_reads (s_world s')
        <= dir_reads (s_world s) + b)%nat.

(** The session after some more lines of [download_file] or [main]. *)
Definition logged (es : list dl_event) (s : session) : session :=
  Session (s_world s) (s_driver s) (s_log s ++ es).

(** The session after the monitor's world moved on to [w]. *)
Definition in_the_world (w : world) (s : session) : session :=
  Session w (s_driver s) (s_log s).

(** The lines printed by the polling loop when it detects the start. *)
Definition detection_report (initial_files : gset string) (v : dir_view)
    : list dl_event :=
  let current_files := names_of_view v in
  let new_files := current_files ∖ initial_files in
  let crdownload_files :=
    filter (fun f => PyStr.endswith f crdownload = true) current_files in
  (if bool_decide (crdownload_files = ∅) then []
   else [PartialFilesDetected crdownload_files])
  ++ (if bool_decide (new_files = ∅) then []
      else [NewFilesDetected new_files]).

(** The first failure among the browser steps that [download_file] makes
    before it looks at the directory. *)
Definition prelude_failure (X : externals) (download_dir url xpath : string)
    : option failure :=
  match driver_get X url with
  | Some f => Some f
  | None =>
      match body_present X with
      | Some f => Some f
      | None =>
          match save_screenshot X
                  (path_join download_dir "before_download.png") with
          | Some f => Some f
          | None => button_clickable X xpath
          end
      end
  end.

(** The line that [download_failed] prints. *)
Definition failure_line (wait_timeout : Z) (e : failure) : dl_event :=
  match e with
  | Selenium TimeoutException => ButtonTimeout wait_timeout
  | Selenium NoSuchElementException => ButtonNotFound
  | _ => ErrorDuringDownload e
  end.

(** Browsers for the examples: one where every step succeeds and the
    script returns an empty list, and one whose download button never
    becomes clickable. *)
Definition browser_ok : externals :=
  Externals (fun _ => None) (fun _ => None) (fun _ => None) None
            (fun _ => None) (fun _ => None) None (inr (Sized 0)) None.

Definition browser_no_button : externals :=
  Externals (fun _ => None) (fun _ => None) (fun _ => None) None
            (fun _ => None) (fun _ => Some (Selenium TimeoutException))
            None (inr (Sized 0)) None.


(** The screenshot is there before the click; the partial download shows
    up at the third look after it. *)
Definition env_starting : env :=
  Env clock_poll
      (fun n =>
         if (n <? 3)%nat
         then Entries [Dirent "before_download.png" true (Some 131072)]
         else Entries [Dirent "before_download.png" true (Some 131072);
                       Dirent "scene.zip.crdownload" true (Some 1000)])
      never.

(** A session whose driver has been set up. *)
Definition session1 : session := Session world0 true [].

(** A partial download left over from an earlier run: it is listed before
    the click, and nothing changes afterwards. *)
Definition env_leftover : env :=
  Env clock_poll
      (fun _ => Entries [Dirent "before_download.png" true (Some 131072);
                         Dirent "old.zip.crdownload" true (Some 4096)])
      never.

(** The five lines [download_file] has printed when it starts polling. *)
Definition polling_lines (download_dir url xpath : string) : list dl_event :=
  [NavigatingTo url;
   ScreenshotSaved (path_join download_dir "before_download.png");
   LookingForButton xpath; ButtonFoundClicking; CheckingForInitiation].

(** The line [main] prints when [download_file] did not return [True]:
    its own message for [False], and the message of the [except] clause
    that catches the failure otherwise. *)
Definition main_line (r : outcome bool) : dl_event :=
  match r with
  | Failed (Python KeyboardInterrupt) => InterruptedInMain
  | Failed f => UnexpectedError f
  | _ => FailedToInitiate
  end.

(** A partial download that can be sized at the first two snapshots, and
    next to which a regular file that cannot be sized shows up at the
    third. *)
Definition env_failing_later : env :=
  Env clock_poll
      (fun n => match n with
                | O | S O => Entries listing_stalled
                | S (S _) => Entries listing_unreadable
                end)
      never.

(** An empty directory at the first two snapshots, then the regular
    file that cannot be sized. *)
Definition env_failing_idle : env :=
  Env clock_poll
      (fun n => match n with
                | O | S O => Entries []
                | S (S _) => Entries listing_unreadable
                end)
      never.
(** ** Facts about the string operations *)

Module PyStrFacts.
Import PyStr.

Lemma endswith_cons (a : Ascii.ascii) (s suf : string) :
  endswith (String a s) suf =
  if String.eqb (String a s) suf then true else endswith s suf.
Proof. reflexivity. Qed.

Lemma endswith_refl (s : string) : endswith s s = true.
Proof. destruct s; [done|]. by rewrite endswith_cons, String.eqb_refl. Qed.

Lemma endswith_app (p suf : string) : endswith (p +:+ suf) suf = true.
Proof.
  induction p as [|a p IH].
  - apply endswith_refl.
  - change (String a p +:+ suf) with (String a (p +:+ suf)).
    rewrite endswith_cons, IH. by destruct (String.eqb _ _).
Qed.

Lemma endswith_inv (s suf : string) :
  endswith s suf = true -> exists p, s = p +:+ suf.
Proof.
  induction s as [|a s IH].
  - destruct suf; [by exists ""|done].
  - rewrite endswith_cons.
    destruct (String.eqb (String a s) suf) eqn:Heq.
    + apply String.eqb_eq in Heq. intros _. by exists "".
    + intros H. destruct (IH H) as [p ->]. by exists (String a p).
Qed.

Lemma length_app (p q : string) :
  String.length (p +:+ q) = (String.length p + String.length q)%nat.
Proof. induction p as [|a p IH]; simpl; [done|by rewrite IH]. Qed.

Lemma substring_prefix (p q : string) :
  String.substring 0 (String.length p) (p +:+ q) = p.
Proof.
  induction p as [|a p IH]; simpl.
  - by destruct q.
  - by rewrite IH.
Qed.

Lemma drop_last_app (p suf : string) :
  drop_last (String.length suf) (p +:+ suf) = p.
Proof.
  unfold drop_last. rewrite length_app.
  replace (String.length p + String.length suf - String.length suf)%nat
    with (String.length p) by lia.
  apply substring_prefix.
Qed.

(** The two facts the scan relies on, for the Chrome suffix. *)
Lemma strip_crdownload (filename : string) :
  endswith filename crdownload = true ->
  drop_last 11 filename +:+ crdownload = filename.
Proof.
  intros H. destruct (endswith_inv _ _ H) as [p ->].
  change 11%nat with (String.length crdownload).
  by rewrite drop_last_app.
Qed.

End PyStrFacts.

(** ** The scan of one listing *)

Section Scan.

Lemma scan_entry_ret (st st' : status) (e : dirent) :
  scan_entry st e = Ret st' ->
  in_progress_files st' = in_progress_files st ++ option_list (partial_of e)
  /\ completed_files st' = completed_files st ++ option_list (complete_of e)
  /\ active_downloads st' =
     active_downloads st + Z.of_nat (length (option_list (partial_of e)))
  /\ total_size st' =
     total_size st
     + Zsum (map p_current_size (option_list (partial_of e)))
     + Zsum (map c_size (option_list (complete_of e)))
  /\ file_sizes st' = file_sizes st
  /\ unreadable e = false.
Proof.
  unfold scan_entry, partial_of, complete_of, unreadable.
  destruct (PyStr.endswith (d_name e) crdownload), (d_isfile e),
    (d_getsize e) as [sz|]; simpl; intros H; inversion H; subst; simpl;
    rewrite ?app_nil_r; repeat split; try done; lia.
Qed.

Lemma scan_entry_raise (st : status) (e : dirent) (x : exn) :
  scan_entry st e = Raise x -> x = OSError /\ unreadable e = true.
Proof.
  unfold scan_entry, unreadable.
  destruct (PyStr.endswith (d_name e) crdownload), (d_isfile e),
    (d_getsize e) as [sz|]; simpl; intros H; inversion H; done.
Qed.

Lemma scan_entry_not_fuel (st : status) (e : dirent) :
  scan_entry st e <> Fuel.
Proof.
  unfold scan_entry.
  destruct (PyStr.endswith (d_name e) crdownload), (d_isfile e),
    (d_getsize e) as [sz|]; done.
Qed.

Lemma scan_ret (l : list dirent) : forall st0 st,
  scan l st0 = Ret st ->
  in_progress_files st = in_progress_files st0 ++ omap partial_of l
  /\ completed_files st = completed_files st0 ++ omap complete_of l
  /\ active_downloads st =
     active_downloads st0 + Z.of_nat (length (omap partial_of l))
  /\ total_size st =
     total_size st0
     + Zsum (map p_current_size (omap partial_of l))
     + Zsum (map c_size (omap complete_of l))
  /\ file_sizes st = file_sizes st0
  /\ forallb (fun e => negb (unreadable e)) l = true.
Proof.
  induction l as [|e l IH]; intros st0 st H; simpl in H.
  - inversion H; subst; simpl. rewrite !app_nil_r. repeat split; lia.
  - destruct (scan_entry st0 e) as [st1| |] eqn:He; try done.
    apply scan_entry_ret in He as (Hp & Hc & Ha & Ht & Hf & Hr).
    apply IH in H as (Hp' & Hc' & Ha' & Ht' & Hf' & Hr').
    simpl. rewrite Hr, Hr'. simpl.
    rewrite Hp', Hc', Ha', Ht', Hf', Hp, Hc, Ha, Ht, Hf.
    destruct (partial_of e), (complete_of e); simpl;
      rewrite <- ?app_assoc; simpl; repeat split; try done;
      unfold omap; lia.
Qed.

Lemma scan_raise (l : list dirent) : forall st0 x,
  scan l st0 = Raise x ->
  x = OSError /\ existsb unreadable l = true.
Proof.
  induction l as [|e l IH]; intros st0 x H; simpl in H; [done|].
  destruct (scan_entry st0 e) as [st1|y|] eqn:He; try done.
  - apply IH in H as [-> Hex]. split; [done|].
    simpl. rewrite Hex. apply orb_true_r.
  - inversion H; subst. apply scan_entry_raise in He as [-> Hu].
    simpl. by rewrite Hu.
Qed.

Lemma scan_not_fuel (l : list dirent) : forall st0, scan l st0 <> Fuel.
Proof.
  induction l as [|e l IH]; intros st0; simpl; [done|].
  destruct (scan_entry st0 e) as [st1|y|] eqn:He; try done.
  by apply scan_entry_not_fuel in He.
Qed.

(** The scan of a listing returns a status exactly when no size it asks
    for is refused, and raises [OSError] otherwise. *)
Lemma scan_outcome (l : list dirent) (st0 : status) :
  if existsb unreadable l
  then scan l st0 = Raise OSError
  else exists st, scan l st0 = Ret st.
Proof.
  destruct (scan l st0) as [st|x|] eqn:H.
  - apply scan_ret in H as (_ & _ & _ & _ & _ & Hr).
    destruct (existsb unreadable l) eqn:Hex; [|by eexists].
    apply existsb_exists in Hex as (e & Hin & Hu).
    rewrite forallb_forall in Hr. specialize (Hr e Hin).
    by rewrite Hu in Hr.
  - apply scan_raise in H as [-> ->]. done.
  - by apply scan_not_fuel in H.
Qed.

Lemma partial_of_Some (e : dirent) (fi : progress_info) :
  partial_of e = Some fi ->
  PyStr.endswith (d_name e) crdownload = true
  /\ p_temp_file fi = d_name e
  /\ p_name fi +:+ crdownload = d_name e
  /\ d_getsize e = Some (p_current_size fi).
Proof.
  unfold partial_of.
  destruct (PyStr.endswith (d_name e) crdownload) eqn:Hs; [|done].
  destruct (d_getsize e) as [sz|]; [|done].
  intros [= <-]; simpl.
  by rewrite PyStrFacts.strip_crdownload.
Qed.

Lemma complete_of_Some (e : dirent) (ci : completed_info) :
  complete_of e = Some ci ->
  PyStr.endswith (d_name e) crdownload = false
  /\ d_isfile e = true
  /\ c_name ci = d_name e
  /\ d_getsize e = Some (c_size ci).
Proof.
  unfold complete_of.
  destruct (PyStr.endswith (d_name e) crdownload) eqn:Hs; [done|].
  destruct (d_isfile e); [|done].
  destruct (d_getsize e) as [sz|]; [|done].
  by intros [= <-].
Qed.

Lemma partial_of_is_Some (e : dirent) :
  PyStr.endswith (d_name e) crdownload = true ->
  unreadable e = false ->
  is_Some (partial_of e).
Proof.
  unfold partial_of, unreadable. intros ->. simpl.
  destruct (d_getsize e); [by eexists|].
  rewrite bool_decide_eq_false_2; [done|]. by intros [? ?].
Qed.

Lemma complete_of_is_Some (e : dirent) :
  PyStr.endswith (d_name e) crdownload = false ->
  d_isfile e = true ->
  unreadable e = false ->
  is_Some (complete_of e).
Proof.
  unfold complete_of, unreadable. intros -> ->. simpl.
  destruct (d_getsize e); [by eexists|].
  rewrite bool_decide_eq_false_2; [done|]. by intros [? ?].
Qed.

(** What a returned status lists, in terms of the listing it was
    scanned from. *)
Lemma status_of_entries (l : list dirent) (st : status) :
  status_of_view (Entries l) = Ret st ->
  in_progress_files st = omap partial_of l
  /\ completed_files st = omap complete_of l
  /\ forallb (fun e => negb (unreadable e)) l = true.
Proof.
  simpl. intros H. apply scan_ret in H as (Hp & Hc & _ & _ & _ & Hr).
  by rewrite Hp, Hc.
Qed.

End Scan.

(** ** When a status is returned *)

Lemma unreadable_view_raises (v : dir_view) :
  readable v = false -> status_of_view v = Raise OSError.
Proof.
  destruct v as [| |l]; simpl; [done|done|]. intros Hr.
  pose proof (scan_outcome l empty_status) as H.
  destruct (existsb unreadable l) eqn:Hex; [done|].
  destruct H as [st H]. apply scan_ret in H as (_ & _ & _ & _ & _ & H).
  congruence.
Qed.

Lemma readable_view_returns (v : dir_view) :
  readable v = true -> exists st, status_of_view v = Ret st.
Proof.
  destruct v as [| |l]; simpl; [by eexists|done|]. intros Hr.
  pose proof (scan_outcome l empty_status) as H.
  destruct (existsb unreadable l) eqn:Hex; [|done].
  apply existsb_exists in Hex as (e & Hin & Hu).
  rewrite forallb_forall in Hr. specialize (Hr e Hin). by rewrite Hu in Hr.
Qed.

Lemma status_of_view_not_fuel (v : dir_view) : status_of_view v <> Fuel.
Proof. destruct v; simpl; try done. apply scan_not_fuel. Qed.

(** ** Classification of directory entries *)

Example status_downloading_scanned :
  status_of_view (Entries listing_downloading) = Ret status_downloading.
Proof. reflexivity. Qed.

(** Claim C8.  A status is returned for a listing exactly when every
    size the scan asks for can be read (otherwise [OSError] is raised).
    In the status returned, every entry whose name ends in [.crdownload]
    is listed in progress under its name with exactly that suffix removed
    (and is not listed as completed), every other regular file is listed
    as completed under its own name (and not in progress), and nothing
    else is listed. *)
Theorem partial_named_by_stripping_suffix (l : list dirent) :
  (readable (Entries l) = true ->
   exists st, status_of_view (Entries l) = Ret st)
  /\ (readable (Entries l) = false ->
      status_of_view (Entries l) = Raise OSError)
  /\ forall st,
       status_of_view (Entries l) = Ret st ->
       (forall e, e ∈ l -> PyStr.endswith (d_name e) crdownload = true ->
          (exists fi, fi ∈ in_progress_files st
                      /\ p_temp_file fi = d_name e
                      /\ p_name fi +:+ crdownload = d_name e)
          /\ (forall ci, ci ∈ completed_files st -> c_name ci <> d_name e))
       /\ (forall e, e ∈ l -> PyStr.endswith (d_name e) crdownload = false ->
             d_isfile e = true ->
             (exists ci, ci ∈ completed_files st /\ c_name ci = d_name e)
             /\ (forall fi, fi ∈ in_progress_files st ->
                   p_temp_file fi <> d_name e))
       /\ (forall fi, fi ∈ in_progress_files st ->
             exists e, e ∈ l
                       /\ PyStr.endswith (d_name e) crdownload = true
                       /\ p_temp_file fi = d_name e
                       /\ p_name fi +:+ crdownload = d_name e)
       /\ (forall ci, ci ∈ completed_files st ->
             exists e, e ∈ l
                       /\ PyStr.endswith (d_name e) crdownload = false
                       /\ d_isfile e = true
                       /\ c_name ci = d_name e).
Proof.
  split; [apply readable_view_returns|].
  split; [apply unreadable_view_raises|].
  intros st H. apply status_of_entries in H as (Hp & Hc & Hr).
  rewrite Hp, Hc. rewrite forallb_forall in Hr.
  assert (Hread : forall e, e ∈ l -> unreadable e = false).
  { intros e He. apply list_elem_of_In in He. apply Hr in He.
    by destruct (unreadable e). }
  assert (Hfrom_p : forall fi, fi ∈ omap partial_of l ->
            exists e, e ∈ l /\ PyStr.endswith (d_name e) crdownload = true
                      /\ p_temp_file fi = d_name e
                      /\ p_name fi +:+ crdownload = d_name e).
  { intros fi Hfi. apply list_elem_of_omap in Hfi as (e & He & Hpe).
    apply partial_of_Some in Hpe as (? & ? & ? & _). by exists e. }
  assert (Hfrom_c : forall ci, ci ∈ omap complete_of l ->
            exists e, e ∈ l /\ PyStr.endswith (d_name e) crdownload = false
                      /\ d_isfile e = true /\ c_name ci = d_name e).
  { intros ci Hci. apply list_elem_of_omap in Hci as (e & He & Hce).
    apply complete_of_Some in Hce as (? & ? & ? & _). by exists e. }
  repeat split; try done.
  - destruct (partial_of_is_Some e) as [fi Hfi]; [done|by apply Hread|].
    exists fi. split; [apply list_elem_of_omap; by exists e|].
    by apply partial_of_Some in Hfi as (_ & ? & ? & _).
  - intros ci Hci Heq. apply Hfrom_c in Hci as (e' & _ & Hs & _ & Hn).
    congruence.
  - destruct (complete_of_is_Some e) as [ci Hci]; [done|done|by apply Hread|].
    exists ci. split; [apply list_elem_of_omap; by exists e|].
    by apply complete_of_Some in Hci as (_ & _ & ? & _).
  - intros fi Hfi Heq. apply Hfrom_p in Hfi as (e' & _ & Hs & Hn & _).
    congruence.
Qed.

Lemma partial_named_by_stripping_suffix_witness :
  readable (Entries listing_downloading) = true
  /\ status_of_view (Entries listing_downloading) = Ret status_downloading
  /\ (exists fi, fi ∈ in_progress_files status_downloading
                 /\ p_temp_file fi = "scene.zip.crdownload"
                 /\ p_name fi +:+ crdownload = "scene.zip.crdownload")
  /\ readable (Entries listing_unreadable) = false
  /\ status_of_view (Entries listing_unreadable) = Raise OSError.
Proof.
  split; [reflexivity|]. split; [reflexivity|]. split.
  - refine (proj1 (proj1 (proj2 (proj2 (partial_named_by_stripping_suffix
                                          listing_downloading))
                            status_downloading eq_refl)
                     (Dirent "scene.zip.crdownload" true (Some 1000)) _ _)).
    + apply list_elem_of_here.
    + reflexivity.
  - split; [reflexivity|].
    exact (proj1 (proj2 (partial_named_by_stripping_suffix
                           listing_unreadable)) eq_refl).
Defined.

(** ** Consistency of a returned status *)

Lemma Zsum_app (l1 l2 : list Z) : Zsum (l1 ++ l2) = Zsum l1 + Zsum l2.
Proof. induction l1 as [|x l1 IH]; simpl; [done|]. rewrite IH. lia. Qed.

(** Claim C9.  A missing directory gives the empty status, not an error;
    and in every status that [get_download_status] returns,
    [active_downloads] is the length of [in_progress_files], no file name
    of the directory is listed both in progress and completed (for a
    listing, each entry contributes at most one record), [total_size] is
    the sum of the sizes listed, and [file_sizes] is empty. *)
Theorem returned_status_consistent :
  status_of_view Missing = Ret empty_status
  /\ forall (v : dir_view) (st : status),
       status_of_view v = Ret st ->
       active_downloads st = Z.of_nat (length (in_progress_files st))
       /\ (forall f, ~ (f ∈ map p_temp_file (in_progress_files st)
                        /\ f ∈ map c_name (completed_files st)))
       /\ (forall l, v = Entries l ->
             Forall (fun e => partial_of e = None \/ complete_of e = None) l
             /\ in_progress_files st = omap partial_of l
             /\ completed_files st = omap complete_of l)
       /\ total_size st =
          Zsum (map p_current_size (in_progress_files st))
          + Zsum (map c_size (completed_files st))
       /\ file_sizes st = ∅.
Proof.
  split; [reflexivity|]. intros v st H.
  destruct v as [| |l]; simpl in H; [|done|].
  - inversion H; subst; simpl. repeat split; try done.
    intros f [Hf _]. by apply elem_of_nil in Hf.
  - pose proof (scan_ret _ _ _ H) as (Hp & Hc & Ha & Ht & Hf & _).
    simpl in *. rewrite Hp, Hc, Ha, Ht, Hf. repeat split; try done.
    all: try match goal with
             | Heq : Entries _ = Entries _ |- _ => injection Heq as <-
             end; try done.
    + intros f [Hfp Hfc].
      apply list_elem_of_fmap in Hfp as (fi & -> & Hfi).
      apply list_elem_of_fmap in Hfc as (ci & Heq & Hci).
      apply list_elem_of_omap in Hfi as (e1 & _ & He1).
      apply list_elem_of_omap in Hci as (e2 & _ & He2).
      apply partial_of_Some in He1 as (Hs1 & Hn1 & _).
      apply complete_of_Some in He2 as (Hs2 & _ & Hn2 & _).
      congruence.
    + apply Forall_forall. intros e _.
      unfold partial_of, complete_of.
      destruct (PyStr.endswith (d_name e) crdownload); auto.
Qed.

Lemma returned_status_consistent_witness :
  status_of_view (Entries listing_downloading) = Ret status_downloading
  /\ active_downloads status_downloading
     = Z.of_nat (length (in_progress_files status_downloading))
  /\ total_size status_downloading =
     Zsum (map p_current_size (in_progress_files status_downloading))
     + Zsum (map c_size (completed_files status_downloading)).
Proof.
  split; [reflexivity|].
  destruct (proj2 returned_status_consistent
              (Entries listing_downloading) status_downloading eq_refl)
    as (Ha & _ & _ & Ht & _).
  exact (conj Ha Ht).
Defined.

(** ** Running the primitives *)

Lemma Qltb_lt (a b : Q) : Qltb a b = true <-> (a < b)%Q.
Proof.
  unfold Qltb. rewrite negb_true_iff. split.
  - intros H. apply Qnot_le_lt. intros Hle.
    apply Qle_bool_iff in Hle. congruence.
  - intros H. destruct (Qle_bool b a) eqn:Hb; [|done].
    apply Qle_bool_iff in Hb. by apply Qlt_not_le in H.
Qed.

Lemma Qltb_ge (a b : Q) : Qltb a b = false <-> (b <= a)%Q.
Proof.
  unfold Qltb. rewrite negb_false_iff. apply Qle_bool_iff.
Qed.

Section Run.

Variable E : env.

Lemma get_download_status_run (w : world) :
  get_download_status E w
  = (status_of_view (dirs E (dir_reads w)), looked w).
Proof. reflexivity. Qed.

Lemma time_sleep_run (secs : Q) (w : world) :
  (0 <= secs)%Q ->
  interrupt E (sleeps w) = false ->
  time_sleep E secs w = (Ret tt, slept w).
Proof.
  intros Hs Hi. unfold time_sleep.
  apply Qltb_ge in Hs. by rewrite Hs, Hi.
Qed.

Lemma for_each_print {A} (f : A -> event) (l : list A) : forall w,
  for_each l (fun x => print (f x)) w = (Ret tt, printed_all (map f l) w).
Proof.
  induction l as [|x l IH]; intros w; simpl.
  - unfold ret, printed_all. rewrite app_nil_r. by destruct w.
  - unfold bind at 1. simpl. rewrite IH. unfold printed_all, printed; simpl.
    by rewrite <- app_assoc.
Qed.

(** One transfer of the progress report: the line printed and the
    sample stored. *)
Lemma report_progress_run (last_sizes : gmap string sample)
    (file_info : progress_info) (w : world) :
  report_progress E last_sizes file_info w =
  match last_sizes !! p_name file_info with
  | None =>
      (Ret (<[p_name file_info :=
                Sample (p_current_size file_info)
                       (clock E (clock_reads w))]> last_sizes),
       read_clock (printed (progress_line None 0 file_info) w))
  | Some last =>
      (Ret (<[p_name file_info :=
                Sample (p_current_size file_info)
                       (clock E (S (clock_reads w)))]> last_sizes),
       read_clock
         (printed (progress_line (Some last) (clock E (clock_reads w))
                                 file_info)
                  (read_clock w)))
  end.
Proof.
  unfold report_progress, progress_line.
  destruct (last_sizes !! p_name file_info) as [last|]; [|reflexivity].
  unfold bind, time_time, speed_mbps_of; simpl.
  by destruct (float_positive
                 (float_sub (clock E (clock_reads w)) (s_time last))).
Qed.

End Run.

(** ** One iteration of [monitor_download_progress] *)

Section Iteration.

Variable E : env.

Lemma report_all_ret (l : list progress_info) : forall ls w,
  exists ls' w',
    report_all E l ls w = (Ret ls', w')
    /\ dir_reads w' = dir_reads w
    /\ sleeps w' = sleeps w
    /\ (clock_reads w <= clock_reads w')%nat
    /\ dom ls' = dom ls ∪ list_to_set (map p_name l).
Proof.
  induction l as [|fi l IH]; intros ls w; simpl.
  - exists ls, w. repeat split; try done. by rewrite union_empty_r_L.
  - unfold bind at 1. rewrite report_progress_run.
    destruct (ls !! p_name fi) as [last|];
      match goal with |- context [report_all E l ?ls1 ?w1] =>
        destruct (IH ls1 w1) as (ls' & w' & -> & Hd & Hs & Hc & Hdom)
      end;
      exists ls', w'; simpl in *; repeat split; try done; try lia;
      rewrite Hdom, dom_insert_L;
      by rewrite (comm_L (∪) {[p_name fi]} (dom ls)), <- (assoc_L (∪)).
Qed.

Lemma monitor_iteration_run (check_interval : Q)
    (last_sizes : gmap string sample) (w : world) :
  monitor_iteration E check_interval last_sizes w =
  match status_of_view (dirs E (dir_reads w)) with
  | Ret st =>
      if active_downloads st =? 0 then
        match completed_files st with
        | _ :: _ =>
            (Ret (Return true),
             printed_all (completion_report st) (looked w))
        | [] =>
            sleep_then_continue E check_interval last_sizes
              (printed NoActiveDownloadsYet (looked w))
        end
      else
        match report_all E (in_progress_files st) last_sizes
                (printed (ActiveDownloads (active_downloads st))
                         (looked w)) with
        | (Ret last_sizes', w1) =>
            sleep_then_continue E check_interval last_sizes' w1
        | (Raise x, w1) => (Raise x, w1)
        | (Fuel, w1) => (Fuel, w1)
        end
  | Raise x => (Raise x, looked w)
  | Fuel => (Fuel, looked w)
  end.
Proof.
  unfold monitor_iteration. unfold bind at 1.
  rewrite get_download_status_run.
  destruct (status_of_view (dirs E (dir_reads w))) as [st|x|]; try done.
  destruct (active_downloads st =? 0).
  - destruct (completed_files st) as [|c cs] eqn:Hc.
    + reflexivity.
    + unfold bind at 1. unfold bind at 1. unfold bind at 1.
      unfold print at 1. rewrite for_each_print.
      unfold ret, completion_report, printed_all, printed; simpl.
      rewrite Hc. by rewrite <- app_assoc.
  - unfold bind at 1. unfold bind at 1. unfold bind at 1.
    unfold print at 1.
    destruct (report_all E (in_progress_files st) last_sizes _)
      as [[ls'|x|] w1]; reflexivity.
Qed.

End Iteration.

(** ** Unfolding the loops *)

Section Loops.

Variable E : env.

Lemma monitor_loop_S (fuel : nat) (check_interval : Q)
    (last_sizes : gmap string sample) (w : world) :
  monitor_loop E (S fuel) check_interval last_sizes w =
  match monitor_iteration E check_interval last_sizes w with
  | (Ret (Return r), w') => (Ret r, w')
  | (Ret (Continue last_sizes'), w') =>
      monitor_loop E fuel check_interval last_sizes' w'
  | (Raise x, w') => (Raise x, w')
  | (Fuel, w') => (Fuel, w')
  end.
Proof.
  simpl. unfold bind.
  destruct (monitor_iteration E check_interval last_sizes w)
    as [[[r|ls']|x|] w']; reflexivity.
Qed.

Lemma monitor_download_progress_run (fuel : nat) (check_interval : Q)
    (w : world) :
  monitor_download_progress E fuel check_interval w
  = monitor_loop E fuel check_interval ∅ (printed StartingMonitoring w).
Proof. reflexivity. Qed.

Lemma wait_detailed_loop_S (fuel : nat) (start_time timeout : Q)
    (w : world) :
  wait_detailed_loop E (S fuel) start_time timeout w =
  if Qltb (clock E (clock_reads w) - start_time) timeout then
    match status_of_view (dirs E (dir_reads w)) with
    | Ret st =>
        if (active_downloads st =? 0)
           && negb (bool_decide (completed_files st = [])) then
          (Ret (Some true), printed DownloadCompleted (looked (read_clock w)))
        else if 0 <? active_downloads st then
          match monitor_download_progress E fuel 5
                  (printed_all (handover_report st)
                               (looked (read_clock w))) with
          | (Ret _, w') => (Ret (Some true), w')
          | (Raise x, w') => (Raise x, w')
          | (Fuel, w') => (Fuel, w')
          end
        else
          match time_sleep E 5 (looked (read_clock w)) with
          | (Ret _, w') => wait_detailed_loop E fuel start_time timeout w'
          | (Raise x, w') => (Raise x, w')
          | (Fuel, w') => (Fuel, w')
          end
    | Raise x => (Raise x, looked (read_clock w))
    | Fuel => (Fuel, looked (read_clock w))
    end
  else (Ret None, read_clock w).
Proof.
  cbn [wait_detailed_loop]. unfold bind at 1. unfold time_time at 1.
  destruct (Qltb (clock E (clock_reads w) - start_time) timeout);
    [|reflexivity].
  unfold bind at 1. rewrite get_download_status_run.
  change (dir_reads (read_clock w)) with (dir_reads w).
  destruct (status_of_view (dirs E (dir_reads w))) as [st|x|]; try done.
  destruct ((active_downloads st =? 0)
            && negb (bool_decide (completed_files st = []))); [done|].
  destruct (0 <? active_downloads st); [|reflexivity].
  unfold bind at 1. unfold bind at 1. unfold print at 1.
  unfold bind at 1. rewrite for_each_print.
  unfold handover_report, printed_all, printed; simpl.
  rewrite <- app_assoc. reflexivity.
Qed.

Lemma wait_detailed_run (fuel : nat) (timeout : Q) (w : world) :
  wait_for_download_completion E fuel timeout true w =
  match wait_detailed_loop E fuel (clock E (clock_reads w)) timeout
          (read_clock (printed UsingDetailedMonitoring w)) with
  | (Ret (Some b), w') => (Ret b, w')
  | (Ret None, w') => (Ret false, printed TimeoutReached w')
  | (Raise KeyboardInterrupt, w') =>
      (Ret false, printed InterruptedByUser w')
  | (Raise x, w') => (Raise x, w')
  | (Fuel, w') => (Fuel, w')
  end.
Proof.
  unfold wait_for_download_completion, bind, try_except_interrupt; simpl.
  destruct (wait_detailed_loop E fuel _ timeout _) as [[[b|]|[]|] w'];
    reflexivity.
Qed.

Lemma wait_simple_run (fuel : nat) (timeout : Q) (w : world) :
  wait_for_download_completion E fuel timeout false w =
  match wait_simple_loop E fuel (clock E (clock_reads w)) timeout
          (read_clock (printed WaitingForCompletion w)) with
  | (Ret (Some b), w') => (Ret b, w')
  | (Ret None, w') => (Ret false, printed TimeoutReached w')
  | (Raise x, w') => (Raise x, w')
  | (Fuel, w') => (Fuel, w')
  end.
Proof.
  unfold wait_for_download_completion, bind; simpl.
  destruct (wait_simple_loop E fuel _ timeout _) as [[[b|]|x|] w'];
    reflexivity.
Qed.

End Loops.

(** ** Errors while taking a snapshot *)

(** Counterexample to claim C6: one regular file whose size cannot be
    read makes the status-taking operation raise, and the error leaves
    both monitoring methods. *)
Lemma stat_failure_aborts_monitor :
  status_of_view (Entries listing_unreadable) = Raise OSError
  /\ fst (get_download_status env_unreadable world0) = Raise OSError
  /\ fst (monitor_download_progress env_unreadable 4 5 world0)
     = Raise OSError
  /\ fst (wait_for_download_completion env_unreadable 4 3600 true world0)
     = Raise OSError.
Proof. repeat split; reflexivity. Qed.

(** ** Iterations that go on *)

Section GoesOn.

Variable E : env.

Lemma sleep_then_continue_ok {R S : Type} (secs : Q) (s : S) (w : world) :
  (0 <= secs)%Q ->
  interrupt E (sleeps w) = false ->
  @sleep_then_continue R S E secs s w = (Ret (Continue s), slept w).
Proof.
  intros Hs Hi. unfold sleep_then_continue, bind.
  by rewrite time_sleep_run.
Qed.

Lemma sleep_then_continue_negative {R S : Type} (secs : Q) (s : S)
    (w : world) :
  (secs < 0)%Q ->
  @sleep_then_continue R S E secs s w = (Raise ValueError, w).
Proof.
  intros Hs. unfold sleep_then_continue, bind, time_sleep.
  apply Qltb_lt in Hs. by rewrite Hs.
Qed.

Lemma sleep_then_continue_not_return {R S : Type} (secs : Q) (s : S)
    (w w' : world) (r : R) :
  @sleep_then_continue R S E secs s w <> (Ret (Return r), w').
Proof.
  unfold sleep_then_continue, bind, time_sleep.
  destruct (Qltb secs 0); [done|].
  by destruct (interrupt E (sleeps w)).
Qed.

Lemma scan_skips (l : list dirent) : forall st,
  forallb (fun e => negb (PyStr.endswith (d_name e) crdownload)
                    && negb (d_isfile e)) l = true ->
  scan l st = Ret st.
Proof.
  induction l as [|e l IH]; intros st H; simpl in *; [done|].
  apply andb_true_iff in H as [He Hl].
  apply andb_true_iff in He as [Hs Hf].
  apply negb_true_iff in Hs, Hf.
  unfold scan_entry. rewrite Hs, Hf. by apply IH.
Qed.

Lemma shows_nothing_status (v : dir_view) :
  shows_nothing v = true -> status_of_view v = Ret empty_status.
Proof.
  destruct v as [| |l]; simpl; [done|done|]. apply scan_skips.
Qed.

Lemma shows_partial_status (v : dir_view) (st : status) :
  shows_partial v = true ->
  status_of_view v = Ret st ->
  0 < active_downloads st.
Proof.
  destruct v as [| |l]; simpl; [done|done|]. intros Hex H.
  apply scan_ret in H as (_ & _ & Ha & _ & _ & Hr). simpl in Ha.
  apply existsb_exists in Hex as (e & Hin & Hs).
  rewrite forallb_forall in Hr. specialize (Hr e Hin).
  apply negb_true_iff in Hr.
  destruct (partial_of_is_Some e Hs Hr) as [fi Hfi].
  assert (Hel : fi ∈ omap partial_of l).
  { apply list_elem_of_omap. exists e. by rewrite list_elem_of_In. }
  destruct (omap partial_of l) as [|x xs]; [by apply elem_of_nil in Hel|].
  rewrite Ha. simpl. lia.
Qed.

(** An iteration whose status shows a transfer in progress, or no
    completed file, reaches the sleep at its end. *)
Lemma monitor_iteration_goes_on (check_interval : Q)
    (last_sizes : gmap string sample) (w : world) (st : status) :
  status_of_view (dirs E (dir_reads w)) = Ret st ->
  active_downloads st <> 0 \/ completed_files st = [] ->
  exists last_sizes' w1,
    monitor_iteration E check_interval last_sizes w
    = sleep_then_continue E check_interval last_sizes' w1
    /\ dir_reads w1 = S (dir_reads w)
    /\ sleeps w1 = sleeps w
    /\ (clock_reads w <= clock_reads w1)%nat
    /\ (active_downloads st = 0 -> last_sizes' = last_sizes)
    /\ (active_downloads st <> 0 ->
        dom last_sizes' =
        dom last_sizes ∪ list_to_set (map p_name (in_progress_files st))).
Proof.
  intros Hst Hgo. rewrite monitor_iteration_run, Hst.
  destruct (active_downloads st =? 0) eqn:Ha.
  - apply Z.eqb_eq in Ha. destruct Hgo as [Hgo|Hgo]; [done|].
    rewrite Hgo. eexists _, _. split; [reflexivity|].
    repeat split; simpl; try done.
  - apply Z.eqb_neq in Ha.
    destruct (report_all_ret E (in_progress_files st) last_sizes
                (printed (ActiveDownloads (active_downloads st))
                         (looked w)))
      as (ls' & w1 & -> & Hd & Hs & Hc & Hdom).
    exists ls', w1. split; [reflexivity|]. simpl in *.
    repeat split; try done.
Qed.

End GoesOn.

(** ** Configuration values *)

(** Counterexample to claim C7: a zero timeout gives the ordinary [False]
    result; a timeout below the poll interval of five seconds is accepted
    and a snapshot is taken; a negative check interval is noticed only by
    [time.sleep], after the first snapshot. *)
Lemma configuration_not_rejected :
  wait_for_download_completion env_empty 4 0 true world0
  = (Ret false, World 2 0 0 [UsingDetailedMonitoring; TimeoutReached])
  /\ wait_for_download_completion env_empty 4 3 true world0
     = (Ret false, World 3 1 1 [UsingDetailedMonitoring; TimeoutReached])
  /\ monitor_download_progress env_empty 4 (-1) world0
     = (Raise ValueError,
        World 0 1 0 [StartingMonitoring; NoActiveDownloadsYet]).
Proof. repeat split; reflexivity. Qed.

(** ** When [monitor_download_progress] returns *)

Section MonitorReturns.

Variable E : env.

Lemma sleep_then_continue_inv {R S : Type} (secs : Q) (s : S)
    (w w' : world) (c : ctl R S) :
  sleep_then_continue E secs s w = (Ret c, w') ->
  c = Continue s /\ w' = slept w.
Proof.
  unfold sleep_then_continue, bind, time_sleep.
  destruct (Qltb secs 0); [done|].
  destruct (interrupt E (sleeps w)); [done|].
  unfold ret. by intros [= <- <-].
Qed.

(** What is known when one iteration ends without raising. *)
Lemma monitor_iteration_inv (check_interval : Q)
    (last_sizes : gmap string sample) (w w' : world)
    (c : ctl bool (gmap string sample)) :
  monitor_iteration E check_interval last_sizes w = (Ret c, w') ->
  dir_reads w' = S (dir_reads w)
  /\ exists st,
       status_of_view (dirs E (dir_reads w)) = Ret st
       /\ match c with
          | Return r =>
              r = true /\ active_downloads st = 0
              /\ completed_files st <> []
          | Continue last_sizes' =>
              (active_downloads st <> 0 \/ completed_files st = [])
              /\ sleeps w' = S (sleeps w)
              /\ (active_downloads st = 0 -> last_sizes' = last_sizes)
              /\ (active_downloads st <> 0 ->
                  dom last_sizes' =
                  dom last_sizes
                  ∪ list_to_set (map p_name (in_progress_files st)))
          end.
Proof.
  intros H.
  destruct (status_of_view (dirs E (dir_reads w))) as [st|x|] eqn:Hst;
    [|by rewrite monitor_iteration_run, Hst in H
     |by rewrite monitor_iteration_run, Hst in H].
  destruct (decide (active_downloads st <> 0 \/ completed_files st = []))
    as [Hgo|Hstop].
  - destruct (monitor_iteration_goes_on E check_interval last_sizes w st
                Hst Hgo) as (ls' & w1 & Heq & Hd & Hs & _ & Hsame & Hdom).
    rewrite Heq in H. apply sleep_then_continue_inv in H as [-> ->].
    split; [done|]. exists st. split; [done|]. simpl.
    repeat split; try done. by rewrite Hs.
  - assert (Ha : active_downloads st = 0)
      by (destruct (decide (active_downloads st = 0)); tauto).
    assert (Hc : completed_files st <> []) by tauto.
    rewrite monitor_iteration_run, Hst, Ha in H. simpl in H.
    destruct (completed_files st) as [|c0 cs] eqn:Hcs; [done|].
    injection H as <- <-. split; [done|]. exists st.
    rewrite Hcs. done.
Qed.

Lemma monitor_loop_return (check_interval : Q) (fuel : nat) :
  forall (last_sizes : gmap string sample) (w w' : world) (b : bool),
    monitor_loop E fuel check_interval last_sizes w = (Ret b, w') ->
    b = true
    /\ exists k st,
         (dir_reads w <= k < dir_reads w')%nat
         /\ status_of_view (dirs E k) = Ret st
         /\ active_downloads st = 0
         /\ completed_files st <> [].
Proof.
  induction fuel as [|fuel IH]; intros ls w w' b H; [done|].
  rewrite monitor_loop_S in H.
  destruct (monitor_iteration E check_interval ls w)
    as [[[r|ls']|x|] w1] eqn:Hit; try done.
  - injection H as <- <-.
    apply monitor_iteration_inv in Hit as (Hd & st & Hst & -> & Ha & Hc).
    split; [done|]. exists (dir_reads w), st. repeat split; try done; lia.
  - apply monitor_iteration_inv in Hit as (Hd & _).
    apply IH in H as (-> & k & st & Hk & Hst & Ha & Hc).
    split; [done|]. exists k, st. repeat split; try done; lia.
Qed.

(** While every snapshot shows a partial download or no file, no
    error occurs and nobody interrupts, the loop uses all the fuel it
    is given, one snapshot per unit. *)
Lemma monitor_loop_runs_on (check_interval : Q) :
  (forall n, shows_partial (dirs E n) = true
             \/ shows_nothing (dirs E n) = true) ->
  (forall n, readable (dirs E n) = true) ->
  (forall n, interrupt E n = false) ->
  (0 <= check_interval)%Q ->
  forall (fuel : nat) (last_sizes : gmap string sample) (w : world),
    fst (monitor_loop E fuel check_interval last_sizes w) = Fuel
    /\ dir_reads (snd (monitor_loop E fuel check_interval last_sizes w))
       = (dir_reads w + fuel)%nat
    /\ sleeps (snd (monitor_loop E fuel check_interval last_sizes w))
       = (sleeps w + fuel)%nat.
Proof.
  intros Hshow Hread Hint Hci.
  induction fuel as [|fuel IH]; intros ls w;
    [simpl; split; [done|split; lia]|].
  rewrite monitor_loop_S.
  destruct (readable_view_returns _ (Hread (dir_reads w))) as [st Hst].
  assert (Hgo : active_downloads st <> 0 \/ completed_files st = []).
  { destruct (Hshow (dir_reads w)) as [Hp|Hn].
    - left. pose proof (shows_partial_status _ _ Hp Hst). lia.
    - right. rewrite (shows_nothing_status _ Hn) in Hst.
      by injection Hst as <-. }
  destruct (monitor_iteration_goes_on E check_interval ls w st Hst Hgo)
    as (ls' & w1 & -> & Hd & Hs & _).
  rewrite sleep_then_continue_ok by done.
  destruct (IH ls' (slept w1)) as (-> & -> & ->). simpl.
  split; [done|split; lia].
Qed.

End MonitorReturns.

(** Claim C10.  [monitor_download_progress] returns only [True], and only
    after a snapshot whose status has no active download and a non-empty
    list of completed files.  When every snapshot shows a partial
    [.crdownload] file or no file at all, it never returns; and unless a
    size read fails, the sleep is interrupted or the interval is negative
    (each of which raises), it is still looping after any number of
    iterations, having taken one snapshot per iteration. *)
Theorem monitor_progress_has_no_bound (E : env) (check_interval : Q) :
  (forall (fuel : nat) (w w' : world) (b : bool),
     monitor_download_progress E fuel check_interval w = (Ret b, w') ->
     b = true
     /\ exists k st,
          (dir_reads w <= k < dir_reads w')%nat
          /\ status_of_view (dirs E k) = Ret st
          /\ active_downloads st = 0
          /\ completed_files st <> [])
  /\ ((forall n, shows_partial (dirs E n) = true
                 \/ shows_nothing (dirs E n) = true) ->
      (forall (fuel : nat) (w : world) (b : bool),
         fst (monitor_download_progress E fuel check_interval w) <> Ret b)
      /\ ((forall n, readable (dirs E n) = true) ->
          (forall n, interrupt E n = false) ->
          (0 <= check_interval)%Q ->
          forall (fuel : nat) (w : world),
            fst (monitor_download_progress E fuel check_interval w) = Fuel
            /\ dir_reads
                 (snd (monitor_download_progress E fuel check_interval w))
               = (dir_reads w + fuel)%nat)).
Proof.
  assert (Hret : forall (fuel : nat) (w w' : world) (b : bool),
            monitor_download_progress E fuel check_interval w = (Ret b, w') ->
            b = true
            /\ exists k st,
                 (dir_reads w <= k < dir_reads w')%nat
                 /\ status_of_view (dirs E k) = Ret st
                 /\ active_downloads st = 0
                 /\ completed_files st <> []).
  { intros fuel w w' b H. rewrite monitor_download_progress_run in H.
    by apply monitor_loop_return in H. }
  split; [exact Hret|]. intros Hshow. split.
  - intros fuel w b Hb.
    destruct (monitor_download_progress E fuel check_interval w)
      as [r w'] eqn:Hrun. simpl in Hb. subst r.
    apply Hret in Hrun as (_ & k & st & _ & Hst & Ha & Hc).
    destruct (Hshow k) as [Hp|Hn].
    + pose proof (shows_partial_status _ _ Hp Hst). lia.
    + rewrite (shows_nothing_status _ Hn) in Hst. by injection Hst as <-.
  - intros Hread Hint Hci fuel w. rewrite monitor_download_progress_run.
    destruct (monitor_loop_runs_on E check_interval Hshow Hread Hint Hci
                fuel ∅ (printed StartingMonitoring w)) as (Hf & Hd & _).
    by split.
Qed.

Lemma monitor_progress_has_no_bound_witness :
  (monitor_download_progress env_screenshot 1 5 world0
   = (Ret true,
      World 0 1 0 [StartingMonitoring; AllDownloadsCompleted;
                   CompletedLine "before_download.png" (Qmake 12 100)])
   /\ exists k st,
        (0 <= k < 1)%nat
        /\ status_of_view (dirs env_screenshot k) = Ret st
        /\ active_downloads st = 0
        /\ completed_files st <> [])
  /\ ((forall n, shows_partial (dirs env_stuck n) = true
                 \/ shows_nothing (dirs env_stuck n) = true)
      /\ (forall n, readable (dirs env_stuck n) = true)
      /\ (forall n, interrupt env_stuck n = false)
      /\ (0 <= 5)%Q
      /\ fst (monitor_download_progress env_stuck 3 5 world0) = Fuel).
Proof.
  assert (H5 : (0 <= 5)%Q) by (vm_compute; discriminate).
  split.
  - split; [reflexivity|].
    exact (proj2 (proj1 (monitor_progress_has_no_bound env_screenshot 5)
                    1%nat world0 _ true eq_refl)).
  - split; [intros n; left; reflexivity|].
    split; [intros n; reflexivity|].
    split; [intros n; reflexivity|].
    split; [exact H5|].
    exact (proj1 (proj2 (proj2 (monitor_progress_has_no_bound env_stuck 5)
                           (fun n => or_introl eq_refl))
                    (fun n => eq_refl) (fun n => eq_refl) H5 3%nat world0)).
Defined.

(** ** The timeout of [wait_for_download_completion] *)

Section WaitDetailed.

Variable E : env.

(** Once the detailed wait sees a partial download before the timeout,
    it hands over to [monitor_download_progress] and the timeout is not
    looked at again. *)
Lemma wait_detailed_hands_over (timeout : Q) (fuel : nat) (w : world) :
  (forall n, shows_partial (dirs E n) = true) ->
  (forall n, readable (dirs E n) = true) ->
  (forall n, interrupt E n = false) ->
  (clock E (S (clock_reads w)) - clock E (clock_reads w) < timeout)%Q ->
  let r := wait_for_download_completion E (S fuel) timeout true w in
  fst r = Fuel
  /\ dir_reads (snd r) = (dir_reads w + S fuel)%nat
  /\ sleeps (snd r) = (sleeps w + fuel)%nat.
Proof.
  intros Hshow Hread Hint Hlt r. subst r. apply Qltb_lt in Hlt.
  rewrite wait_detailed_run, wait_detailed_loop_S.
  change (clock_reads (read_clock (printed UsingDetailedMonitoring w)))
    with (S (clock_reads w)).
  change (dir_reads (read_clock (printed UsingDetailedMonitoring w)))
    with (dir_reads w).
  rewrite Hlt.
  destruct (readable_view_returns _ (Hread (dir_reads w))) as [st Hst].
  pose proof (shows_partial_status _ _ (Hshow (dir_reads w)) Hst) as Ha.
  rewrite Hst.
  replace (active_downloads st =? 0) with false
    by (symmetry; apply Z.eqb_neq; lia).
  replace (0 <? active_downloads st) with true
    by (symmetry; apply Z.ltb_lt; lia).
  cbn [andb]. rewrite monitor_download_progress_run.
  assert (H5 : (0 <= 5)%Q) by (vm_compute; discriminate).
  match goal with |- context [monitor_loop E fuel 5 ∅ ?w1] =>
    destruct (monitor_loop_runs_on E 5
                (fun n => or_introl (Hshow n)) Hread Hint H5 fuel ∅ w1)
      as (Hf & Hd & Hs);
    destruct (monitor_loop E fuel 5 ∅ w1) as [res w2]
  end.
  simpl in *. subst res. simpl. split; [done|]. split; lia.
Qed.

(** The detailed loop while nothing shows up: it goes round until the
    first check that finds the timeout elapsed. *)
Lemma wait_detailed_loop_idle (start_time timeout : Q) :
  (forall n, shows_nothing (dirs E n) = true) ->
  (forall n, interrupt E n = false) ->
  forall (k fuel : nat) (w : world),
    (k < fuel)%nat ->
    (forall j, (j < k)%nat ->
       (clock E (clock_reads w + j) - start_time < timeout)%Q) ->
    (timeout <= clock E (clock_reads w + k) - start_time)%Q ->
    wait_detailed_loop E fuel start_time timeout w
    = (Ret None,
       World (clock_reads w + S k) (dir_reads w + k) (sleeps w + k)
             (output w)).
Proof.
  intros Hshow Hint. induction k as [|k IH]; intros fuel w Hk Hbefore Hat;
    (destruct fuel as [|fuel]; [lia|]); rewrite wait_detailed_loop_S.
  - rewrite Nat.add_0_r in Hat. apply Qltb_ge in Hat. rewrite Hat.
    unfold read_clock. f_equal. f_equal; lia.
  - pose proof (Hbefore 0%nat ltac:(lia)) as H0.
    rewrite Nat.add_0_r in H0. apply Qltb_lt in H0. rewrite H0.
    rewrite (shows_nothing_status _ (Hshow (dir_reads w))).
    cbn [empty_status active_downloads completed_files Z.eqb Z.ltb
         Z.compare andb negb].
    rewrite bool_decide_eq_true_2 by done. cbn [negb andb].
    assert (H5 : (0 <= 5)%Q) by (vm_compute; discriminate).
    rewrite (time_sleep_run E 5 _ H5 (Hint _)).
    rewrite (IH fuel (slept (looked (read_clock w)))).
    + simpl. f_equal. f_equal; lia.
    + lia.
    + intros j Hj. simpl. specialize (Hbefore (S j) ltac:(lia)).
      by replace (S (clock_reads w + j)) with (clock_reads w + S j)%nat
        by lia.
    + simpl.
      by replace (S (clock_reads w + k)) with (clock_reads w + S k)%nat
        by lia.
Qed.

(** Whatever the clock does, the detailed loop does not return a
    value from inside while nothing shows up. *)
Lemma wait_detailed_loop_idle_inv (start_time timeout : Q) :
  (forall n, shows_nothing (dirs E n) = true) ->
  forall (fuel : nat) (w w' : world) (r : option bool),
    wait_detailed_loop E fuel start_time timeout w = (Ret r, w') ->
    r = None
    /\ (timeout <= clock E (pred (clock_reads w')) - start_time)%Q.
Proof.
  intros Hshow. induction fuel as [|fuel IH]; intros w w' r H; [done|].
  rewrite wait_detailed_loop_S in H.
  destruct (Qltb (clock E (clock_reads w) - start_time) timeout) eqn:Hc.
  - rewrite (shows_nothing_status _ (Hshow (dir_reads w))) in H.
    cbn [empty_status active_downloads completed_files Z.eqb Z.ltb
         Z.compare andb negb] in H.
    rewrite bool_decide_eq_true_2 in H by done. cbn [negb andb] in H.
    destruct (time_sleep E 5 (looked (read_clock w))) as [[[]|x|] w1];
      try done.
    by apply IH in H.
  - injection H as <- <-. split; [done|]. simpl. by apply Qltb_ge.
Qed.

(** [k] rounds of the detailed loop in which nothing shows up, the
    timeout has not elapsed and nobody interrupts the sleep: the loop
    goes on from a world with [k] more clock readings, snapshots and
    sleeps, having printed nothing. *)
Lemma wait_detailed_loop_rounds (start_time timeout : Q) (k : nat) :
  forall (fuel : nat) (w : world),
    (forall j, (j < k)%nat ->
       shows_nothing (dirs E (dir_reads w + j)) = true
       /\ interrupt E (sleeps w + j) = false
       /\ (clock E (clock_reads w + j) - start_time < timeout)%Q) ->
    wait_detailed_loop E (k + fuel) start_time timeout w
    = wait_detailed_loop E fuel start_time timeout
        (World (clock_reads w + k) (dir_reads w + k) (sleeps w + k)
               (output w)).
Proof.
  induction k as [|k IH]; intros fuel w Hidle.
  - rewrite !Nat.add_0_r. by destruct w.
  - destruct (Hidle 0%nat ltac:(lia)) as (Hn & Hi & Hc).
    rewrite Nat.add_0_r in Hn, Hi, Hc. apply Qltb_lt in Hc.
    change (S k + fuel)%nat with (S (k + fuel)).
    rewrite wait_detailed_loop_S, Hc, (shows_nothing_status _ Hn).
    cbn [empty_status active_downloads completed_files Z.eqb Z.ltb
         Z.compare andb negb].
    rewrite bool_decide_eq_true_2 by done. cbn [negb andb].
    assert (H5 : (0 <= 5)%Q) by (vm_compute; discriminate).
    rewrite time_sleep_run; [|exact H5|exact Hi].
    rewrite (IH fuel (slept (looked (read_clock w)))).
    + cbn [clock_reads dir_reads sleeps output slept looked read_clock].
      f_equal. f_equal; lia.
    + intros j Hj. specialize (Hidle (S j) ltac:(lia)).
      cbn [clock_reads dir_reads sleeps slept looked read_clock].
      replace (S (dir_reads w) + j)%nat with (dir_reads w + S j)%nat by lia.
      replace (S (sleeps w) + j)%nat with (sleeps w + S j)%nat by lia.
      by replace (S (clock_reads w) + j)%nat with (clock_reads w + S j)%nat
        by lia.
Qed.

(** An idle round whose sleep is cut short by Ctrl-C. *)
Lemma wait_detailed_loop_interrupted (start_time timeout : Q) (fuel : nat)
    (w : world) :
  shows_nothing (dirs E (dir_reads w)) = true ->
  interrupt E (sleeps w) = true ->
  (clock E (clock_reads w) - start_time < timeout)%Q ->
  wait_detailed_loop E (S fuel) start_time timeout w
  = (Raise KeyboardInterrupt, slept (looked (read_clock w))).
Proof.
  intros Hn Hi Hc. apply Qltb_lt in Hc.
  rewrite wait_detailed_loop_S, Hc, (shows_nothing_status _ Hn).
  cbn [empty_status active_downloads completed_files Z.eqb Z.ltb
       Z.compare andb negb].
  rewrite bool_decide_eq_true_2 by done. cbn [negb andb].
  unfold time_sleep.
  replace (Qltb 5 0) with false by reflexivity.
  cbn [sleeps looked read_clock]. by rewrite Hi.
Qed.

End WaitDetailed.

Section WaitExit.

Variable E : env.

(** The detailed loop is left through its condition only by a check
    that reads an elapsed time of at least the timeout. *)
Lemma wait_detailed_loop_exit (start_time timeout : Q) :
  forall (fuel : nat) (w w' : world),
    wait_detailed_loop E fuel start_time timeout w = (Ret None, w') ->
    (timeout <= clock E (pred (clock_reads w')) - start_time)%Q.
Proof.
  induction fuel as [|fuel IH]; intros w w' H; [done|].
  rewrite wait_detailed_loop_S in H.
  destruct (Qltb (clock E (clock_reads w) - start_time) timeout) eqn:Hc.
  - destruct (status_of_view (dirs E (dir_reads w))) as [st|x|];
      try done.
    destruct ((active_downloads st =? 0)
              && negb (bool_decide (completed_files st = []))); [done|].
    destruct (0 <? active_downloads st).
    + by destruct (monitor_download_progress E fuel 5 _) as [[b|x|] w1].
    + destruct (time_sleep E 5 (looked (read_clock w))) as [[[]|x|] w1];
        try done.
      by apply IH in H.
  - injection H as <-. simpl. by apply Qltb_ge.
Qed.

End WaitExit.

(** Claim C1, at a failing input.  A partial download keeps growing and
    is never finished; the timeout is ten seconds.  The detailed wait
    sees the partial file at its first check and hands over to
    [monitor_download_progress]: after any number of five-second sleeps
    the call is still running, one snapshot per sleep, and the timeout is
    never looked at again. *)
Theorem wait_runs_past_timeout (fuel : nat) :
  let r := wait_for_download_completion env_stuck (S fuel) 10 true world0 in
  fst r = Fuel
  /\ dir_reads (snd r) = S fuel
  /\ sleeps (snd r) = fuel.
Proof.
  apply (wait_detailed_hands_over env_stuck 10 fuel world0).
  - intros n. reflexivity.
  - intros n. reflexivity.
  - intros n. reflexivity.
  - reflexivity.
Qed.

(** Claim C2, at a failing input.  The directory holds only the
    screenshot that [download_file] saved there and no download ever
    shows up; the detailed wait reports completion at its first check. *)
Theorem screenshot_reported_as_completed :
  wait_for_download_completion env_screenshot 1 3600 true world0
  = (Ret true, World 2 1 0 [UsingDetailedMonitoring; DownloadCompleted])
  /\ (forall n, shows_partial (dirs env_screenshot n) = false)
  /\ (forall n, dirs env_screenshot n = dirs env_screenshot 0).
Proof. repeat split. Qed.

(** ** A directory where nothing shows up *)

(** Counterexample to claim C3: with the simple method an empty
    directory is reported as completed at the first check, no time having
    passed; and with the detailed method the run that times out on an
    empty directory returns the very value of a run cut short by
    Ctrl-C. *)
Lemma empty_directory_reported_completed :
  (forall n, shows_nothing (dirs env_empty n) = true)
  /\ wait_for_download_completion env_empty 1 3600 false world0
     = (Ret true, World 2 1 0 [WaitingForCompletion; DownloadCompleted])
  /\ (clock env_empty 1 - clock env_empty 0 < 3600)%Q
  /\ fst (wait_for_download_completion env_empty 2 3 true world0)
     = fst (wait_for_download_completion env_interrupted 2 3600 true world0).
Proof. repeat split. Qed.

(** Claim C3, amended.  With detailed monitoring, when no snapshot ever
    shows a partial download or a regular file, the wait never returns
    [True], whatever the clock, the fuel and the interruptions.  When
    nobody interrupts the first [k] sleeps and the [k]-th check of the
    loop condition is the first to read an elapsed time of at least the
    timeout, it returns [False] at that check, after exactly [k]
    snapshots and [k] sleeps, having printed that the timeout was
    reached.  When Ctrl-C cuts the [k]-th sleep short before the timeout
    has been read, it returns the same [False], having printed that the
    monitoring was interrupted. *)
Theorem idle_directory_times_out (E : env) (timeout : Q) (w : world) :
  (forall n, shows_nothing (dirs E n) = true) ->
  (forall fuel,
     fst (wait_for_download_completion E fuel timeout true w) <> Ret true)
  /\ (forall k fuel,
        (forall j, (j < k)%nat -> interrupt E (sleeps w + j) = false) ->
        (forall j, (j < k)%nat ->
           (clock E (S (clock_reads w) + j) - clock E (clock_reads w)
            < timeout)%Q) ->
        (timeout
         <= clock E (S (clock_reads w) + k) - clock E (clock_reads w))%Q ->
        (k < fuel)%nat ->
        let r := wait_for_download_completion E fuel timeout true w in
        r = (Ret false,
             World (S (clock_reads w) + S k) (dir_reads w + k)
                   (sleeps w + k)
                   (output w ++ [UsingDetailedMonitoring; TimeoutReached]))
        /\ (timeout <= clock E (pred (clock_reads (snd r)))
                       - clock E (clock_reads w))%Q)
  /\ (forall k fuel,
        (forall j, (j < k)%nat -> interrupt E (sleeps w + j) = false) ->
        interrupt E (sleeps w + k) = true ->
        (forall j, (j <= k)%nat ->
           (clock E (S (clock_reads w) + j) - clock E (clock_reads w)
            < timeout)%Q) ->
        (k < fuel)%nat ->
        wait_for_download_completion E fuel timeout true w
        = (Ret false,
           World (S (clock_reads w) + S k) (dir_reads w + S k)
                 (sleeps w + S k)
                 (output w
                  ++ [UsingDetailedMonitoring; InterruptedByUser]))).
Proof.
  intros Hshow. split; [|split].
  - intros fuel. rewrite wait_detailed_run.
    destruct (wait_detailed_loop E fuel _ timeout _) as [[[b|]|x|] w'] eqn:Hl;
      try done.
    + by apply wait_detailed_loop_idle_inv in Hl as [? _].
    + by destruct x.
  - intros k fuel Hint Hbefore Hat Hk r. subst r.
    rewrite wait_detailed_run.
    replace fuel with (k + S (fuel - S k))%nat by lia.
    rewrite wait_detailed_loop_rounds.
    2:{ intros j Hj. split; [apply Hshow|]. split; [by apply Hint|].
        cbn [clock_reads read_clock printed]. by apply Hbefore. }
    rewrite wait_detailed_loop_S.
    cbn [clock_reads dir_reads sleeps output read_clock printed].
    apply Qltb_ge in Hat. rewrite Hat. simpl. split.
    + unfold printed; simpl. rewrite <- app_assoc. simpl.
      f_equal. f_equal; lia.
    + by apply Qltb_ge.
  - intros k fuel Hint Hat Hbefore Hk.
    rewrite wait_detailed_run.
    replace fuel with (k + S (fuel - S k))%nat by lia.
    rewrite wait_detailed_loop_rounds.
    2:{ intros j Hj. split; [apply Hshow|]. split; [by apply Hint|].
        cbn [clock_reads read_clock printed]. apply Hbefore. lia. }
    rewrite wait_detailed_loop_interrupted.
    + unfold printed, slept, looked, read_clock; simpl.
      rewrite <- app_assoc. simpl. f_equal. f_equal; lia.
    + apply Hshow.
    + exact Hat.
    + cbn [clock_reads read_clock printed]. apply Hbefore. lia.
Qed.

Lemma idle_directory_times_out_witness :
  (forall n, shows_nothing (dirs env_empty n) = true)
  /\ (clock env_empty 1 - clock env_empty 0 < 3)%Q
  /\ (3 <= clock env_empty 2 - clock env_empty 0)%Q
  /\ wait_for_download_completion env_empty 2 3 true world0
     = (Ret false, World 3 1 1 [UsingDetailedMonitoring; TimeoutReached])
  /\ (forall n, shows_nothing (dirs env_interrupted n) = true)
  /\ interrupt env_interrupted 0 = true
  /\ wait_for_download_completion env_interrupted 2 3600 true world0
     = (Ret false, World 2 1 1 [UsingDetailedMonitoring; InterruptedByUser])
  /\ fst (wait_for_download_completion env_empty 7 3600 true world0)
     <> Ret true.
Proof.
  assert (H1 : forall n, shows_nothing (dirs env_empty n) = true)
    by (intros n; reflexivity).
  assert (H1' : forall n, shows_nothing (dirs env_interrupted n) = true)
    by (intros n; reflexivity).
  assert (H2 : forall j, (j < 1)%nat ->
            interrupt env_empty (sleeps world0 + j) = false)
    by (intros j _; reflexivity).
  assert (H3 : forall j, (j < 1)%nat ->
            (clock env_empty (S (clock_reads world0) + j)
             - clock env_empty (clock_reads world0) < 3)%Q).
  { intros j Hj. assert (j = 0%nat) as -> by lia. reflexivity. }
  assert (H4 : (3 <= clock env_empty (S (clock_reads world0) + 1)
                     - clock env_empty (clock_reads world0))%Q)
    by (vm_compute; discriminate).
  assert (H5 : forall j, (j < 0)%nat ->
            interrupt env_interrupted (sleeps world0 + j) = false)
    by (intros j Hj; lia).
  assert (H6 : forall j, (j <= 0)%nat ->
            (clock env_interrupted (S (clock_reads world0) + j)
             - clock env_interrupted (clock_reads world0) < 3600)%Q).
  { intros j Hj. assert (j = 0%nat) as -> by lia. reflexivity. }
  split; [exact H1|].
  split; [exact (H3 0%nat (Nat.lt_0_succ 0))|]. split; [exact H4|].
  split.
  { exact (proj1 (proj1 (proj2 (idle_directory_times_out env_empty 3
                                   world0 H1))
                    1%nat 2%nat H2 H3 H4 (Nat.lt_succ_diag_r 1))). }
  split; [exact H1'|]. split; [reflexivity|].
  split.
  { exact (proj2 (proj2 (idle_directory_times_out env_interrupted 3600
                           world0 H1'))
             0%nat 2%nat H5 eq_refl H6 ltac:(lia)). }
  exact (proj1 (idle_directory_times_out env_empty 3600 world0 H1) 7%nat).
Defined.

(** ** What the monitor remembers from one tick to the next *)

Lemma status_active_length (v : dir_view) (st : status) :
  status_of_view v = Ret st ->
  active_downloads st = Z.of_nat (length (in_progress_files st)).
Proof.
  destruct v as [| |l]; simpl; [by intros [= <-]|done|]. intros H.
  apply scan_ret in H as (Hp & _ & Ha & _). simpl in *. by rewrite Hp, Ha.
Qed.

Lemma append_inv_tail (p q s : string) : p +:+ s = q +:+ s -> p = q.
Proof.
  intros H. rewrite <- (PyStrFacts.drop_last_app p s).
  rewrite H. apply PyStrFacts.drop_last_app.
Qed.

Lemma entry_readable (l : list dirent) (e : dirent) :
  forallb (fun e => negb (unreadable e)) l = true ->
  e ∈ l -> unreadable e = false.
Proof.
  rewrite forallb_forall. intros Hr He.
  apply negb_true_iff, Hr. by apply list_elem_of_In.
Qed.

(** The names a returned status lists, read off the listing. *)
Lemma in_progress_names_of_listing (l : list dirent) (st : status) :
  status_of_view (Entries l) = Ret st ->
  forall name,
    name ∈ map p_name (in_progress_files st)
    <-> exists e, e ∈ l /\ d_name e = name +:+ crdownload.
Proof.
  intros H name. apply status_of_entries in H as (Hp & _ & Hr).
  rewrite Hp. split.
  - intros Hn. apply list_elem_of_fmap in Hn as (fi & -> & Hfi).
    apply list_elem_of_omap in Hfi as (e & He & Hpe).
    apply partial_of_Some in Hpe as (_ & _ & Hn & _). by exists e.
  - intros (e & He & Hn).
    assert (Hs : PyStr.endswith (d_name e) crdownload = true)
      by (rewrite Hn; apply PyStrFacts.endswith_app).
    destruct (partial_of_is_Some e Hs (entry_readable l e Hr He))
      as [fi Hfi].
    apply list_elem_of_fmap. exists fi. split.
    + apply partial_of_Some in Hfi as (_ & _ & Hn' & _).
      rewrite Hn in Hn'. symmetry. by apply append_inv_tail in Hn'.
    + apply list_elem_of_omap. by exists e.
Qed.

Lemma completed_names_of_listing (l : list dirent) (st : status) :
  status_of_view (Entries l) = Ret st ->
  forall name,
    name ∈ map c_name (completed_files st)
    <-> exists e, e ∈ l /\ d_name e = name
                  /\ PyStr.endswith name crdownload = false
                  /\ d_isfile e = true.
Proof.
  intros H name. apply status_of_entries in H as (_ & Hc & Hr).
  rewrite Hc. split.
  - intros Hn. apply list_elem_of_fmap in Hn as (ci & -> & Hci).
    apply list_elem_of_omap in Hci as (e & He & Hce).
    apply complete_of_Some in Hce as (Hs & Hf & Hn & _).
    exists e. rewrite Hn. done.
  - intros (e & He & Hn & Hs & Hf). rewrite <- Hn in Hs.
    destruct (complete_of_is_Some e Hs Hf (entry_readable l e Hr He))
      as [ci Hci].
    apply list_elem_of_fmap. exists ci. split.
    + apply complete_of_Some in Hci as (_ & _ & Hn' & _). congruence.
    + apply list_elem_of_omap. by exists e.
Qed.

Lemma no_file_name_in_both_lists (v : dir_view) (st : status) :
  status_of_view v = Ret st ->
  forall f, ~ (f ∈ map p_temp_file (in_progress_files st)
               /\ f ∈ map c_name (completed_files st)).
Proof.
  destruct v as [| |l]; [|done|].
  - intros [= <-] f [Hf _]. by apply elem_of_nil in Hf.
  - intros H f [Hfp Hfc].
    apply status_of_entries in H as (Hp & Hc & _). rewrite Hp in Hfp.
    rewrite Hc in Hfc.
    apply list_elem_of_fmap in Hfp as (fi & -> & Hfi).
    apply list_elem_of_fmap in Hfc as (ci & Heq & Hci).
    apply list_elem_of_omap in Hfi as (e1 & _ & He1).
    apply list_elem_of_omap in Hci as (e2 & _ & He2).
    apply partial_of_Some in He1 as (Hs1 & Hn1 & _).
    apply complete_of_Some in He2 as (Hs2 & _ & Hn2 & _).
    congruence.
Qed.

(** Counterexample to claim C4: the transfer listed at the first look is
    not in the status of the second look, once its file is gone; and a
    partial file listed together with a regular file of the same logical
    name puts that name in both lists of one status. *)
Lemma transfer_dropped_and_listed_twice :
  (exists st0 st1,
     status_of_view (dirs env_vanishing 0) = Ret st0
     /\ status_of_view (dirs env_vanishing 1) = Ret st1
     /\ known_names st0 = ["scene.zip"]
     /\ known_names st1 = [])
  /\ (exists st,
        status_of_view (Entries listing_both) = Ret st
        /\ map p_name (in_progress_files st) = ["scene.zip"]
        /\ map c_name (completed_files st) = ["scene.zip"]).
Proof.
  split.
  - eexists _, _. repeat split.
  - eexists. repeat split.
Qed.

(** Claim C4, amended.  Over a tick of [monitor_download_progress] that
    goes on to the next, the names for which a sample is kept (the keys
    of [last_sizes]) only grow, and they include every transfer that the
    tick's status lists in progress.  The status itself is rebuilt from
    the tick's listing: a name is listed in progress exactly when its
    [.crdownload] file is listed, and completed exactly when a regular
    file of that name, not ending in [.crdownload], is listed; so no
    file name of the directory is in both lists, while a logical name is
    in both exactly when both files are there. *)
Theorem sampled_names_only_grow (E : env) (check_interval : Q)
    (last_sizes last_sizes' : gmap string sample) (w w' : world) :
  monitor_iteration E check_interval last_sizes w
  = (Ret (Continue last_sizes'), w') ->
  exists st,
    status_of_view (dirs E (dir_reads w)) = Ret st
    /\ dom last_sizes ⊆ dom last_sizes'
    /\ (forall fi, fi ∈ in_progress_files st -> p_name fi ∈ dom last_sizes')
    /\ (forall f, ~ (f ∈ map p_temp_file (in_progress_files st)
                     /\ f ∈ map c_name (completed_files st)))
    /\ (forall l, dirs E (dir_reads w) = Entries l ->
          forall name,
            (name ∈ map p_name (in_progress_files st)
             <-> exists e, e ∈ l /\ d_name e = name +:+ crdownload)
            /\ (name ∈ map c_name (completed_files st)
                <-> exists e, e ∈ l /\ d_name e = name
                              /\ PyStr.endswith name crdownload = false
                              /\ d_isfile e = true)).
Proof.
  intros H. apply monitor_iteration_inv in H
    as (_ & st & Hst & _ & _ & Hsame & Hdom).
  exists st. split; [done|].
  pose proof (status_active_length _ _ Hst) as Hlen.
  assert (Hgrow : dom last_sizes' =
                  dom last_sizes
                  ∪ list_to_set (map p_name (in_progress_files st))).
  { destruct (decide (active_downloads st = 0)) as [Ha|Ha].
    - rewrite (Hsame Ha).
      destruct (in_progress_files st); [|simpl in Hlen; lia].
      simpl. by rewrite union_empty_r_L.
    - by apply Hdom. }
  rewrite Hgrow. split; [apply union_subseteq_l|]. split.
  { intros fi Hfi. apply elem_of_union_r, elem_of_list_to_set.
    apply list_elem_of_fmap. by exists fi. }
  split; [by apply (no_file_name_in_both_lists _ _ Hst)|].
  intros l Hl name. rewrite Hl in Hst. split.
  - by apply in_progress_names_of_listing.
  - by apply completed_names_of_listing.
Qed.

Lemma sampled_names_only_grow_witness :
  monitor_iteration env_stuck 5 ∅ world0
  = (Ret (Continue {[ "scene.zip" := Sample 1000 0 ]}),
     World 1 1 1 [ActiveDownloads 1; StartingLine "scene.zip" (Qmake 0 100)])
  /\ exists st,
       status_of_view (dirs env_stuck 0) = Ret st
       /\ dom (∅ : gmap string sample)
          ⊆ dom ({[ "scene.zip" := Sample 1000 0 ]} : gmap string sample).
Proof.
  assert (Hrun : monitor_iteration env_stuck 5 ∅ world0
                 = (Ret (Continue {[ "scene.zip" := Sample 1000 0 ]}),
                    World 1 1 1 [ActiveDownloads 1;
                                 StartingLine "scene.zip" (Qmake 0 100)]))
    by reflexivity.
  split; [exact Hrun|].
  destruct (sampled_names_only_grow env_stuck 5 ∅ _ world0 _ Hrun)
    as (st & Hst & Hsub & _).
  exists st. exact (conj Hst Hsub).
Defined.

(** ** Floating-point facts *)

Lemma pow2_pos (e : Z) : (0 < pow2 e)%Q.
Proof. apply Qpower_0_lt. reflexivity. Qed.

Lemma pow2_add (a b : Z) : (pow2 (a + b) == pow2 a * pow2 b)%Q.
Proof. apply Qpower_plus. discriminate. Qed.

Lemma pow2_le (a b : Z) : a <= b -> (pow2 a <= pow2 b)%Q.
Proof. intros H. apply Qpower_le_compat_l; [done|]. discriminate. Qed.

Lemma pow2_lt_inv (a b : Z) : (pow2 a < pow2 b)%Q -> a < b.
Proof. intros H. apply (Qpower_lt_compat_l_inv 2); [done|reflexivity]. Qed.

Lemma pow2_inject (k : Z) : 0 <= k -> (pow2 k == inject_Z (2 ^ k))%Q.
Proof. intros H. unfold pow2. by rewrite Zpower_Qpower. Qed.

Lemma nearest_even_error (x : Q) :
  (Qabs (inject_Z (nearest_even x) - x) <= 1 # 2)%Q.
Proof.
  destruct x as [n d]. unfold nearest_even. cbn [Qnum Qden].
  pose proof (Z.div_mod n (Z.pos d) ltac:(lia)) as Hdm.
  pose proof (Z.mod_pos_bound n (Z.pos d) ltac:(lia)) as Hr.
  set (fl := n / Z.pos d) in *. set (r := n mod Z.pos d) in *.
  apply Qabs_Qle_condition.
  assert (Hcases : forall m, (m = fl /\ 2 * r <= Z.pos d) \/ (m = fl + 1 /\ Z.pos d <= 2 * r) ->
            (- (1 # 2) <= inject_Z m - (n # d) <= 1 # 2)%Q).
  { intros m Hm. unfold Qle, Qminus, Qplus, Qopp, inject_Z. simpl.
    destruct Hm as [[-> H]|[-> H]]; split; nia. }
  destruct (2 * r <? Z.pos d) eqn:H1; [apply Hcases; left; split; [done|lia]|].
  destruct (Z.pos d <? 2 * r) eqn:H2; [apply Hcases; right; split; [done|lia]|].
  destruct (Z.even fl); apply Hcases; [left|right]; split; try done; lia.
Qed.

Lemma binary_exponent_spec (x : Q) :
  (0 < x)%Q ->
  (pow2 (binary_exponent x) <= x)%Q /\ (x < pow2 (binary_exponent x + 1))%Q.
Proof.
  intros Hx. unfold binary_exponent.
  destruct x as [n d]. cbn [Qnum Qden].
  assert (Hn : 0 < n) by (unfold Qlt in Hx; simpl in Hx; lia).
  pose proof (Z.log2_spec n Hn) as [Ha1 Ha2].
  pose proof (Z.log2_spec (Z.pos d) ltac:(lia)) as [Hb1 Hb2].
  pose proof (Z.log2_nonneg n) as Ha0.
  pose proof (Z.log2_nonneg (Z.pos d)) as Hb0.
  set (a := Z.log2 n) in *. set (b := Z.log2 (Z.pos d)) in *.
  assert (Hxd : (n # d == inject_Z n / inject_Z (Z.pos d))%Q).
  { rewrite Qmake_Qdiv. reflexivity. }
  assert (Hdpos : (0 < inject_Z (Z.pos d))%Q) by reflexivity.
  (* pow2 (a - b - 1) <= x *)
  assert (Hlow : (pow2 (a - b - 1) <= n # d)%Q).
  { rewrite Hxd. apply Qle_shift_div_l; [done|].
    apply Qle_trans with (pow2 (a - b - 1) * pow2 (b + 1))%Q.
    - apply Qmult_le_l; [apply pow2_pos|].
      rewrite pow2_inject by lia. rewrite <- Zle_Qle.
      replace (Z.succ b) with (b + 1) in Hb2 by lia. lia.
    - rewrite <- pow2_add. replace (a - b - 1 + (b + 1)) with a by lia.
      rewrite pow2_inject by lia. by rewrite <- Zle_Qle. }
  assert (Hhigh : (n # d < pow2 (a - b + 1))%Q).
  { rewrite Hxd. apply Qlt_shift_div_r; [done|].
    apply Qlt_le_trans with (pow2 (a - b + 1) * pow2 b)%Q.
    - rewrite <- pow2_add. replace (a - b + 1 + b) with (a + 1) by lia.
      rewrite pow2_inject by lia. rewrite <- Zlt_Qlt.
      replace (Z.succ a) with (a + 1) in Ha2 by lia. lia.
    - apply Qmult_le_l; [apply pow2_pos|].
      rewrite pow2_inject by lia. by rewrite <- Zle_Qle. }
  destruct (Qltb (n # d) (pow2 (a - b))) eqn:Hc.
  - apply Qltb_lt in Hc. split; [done|].
    by replace (a - b - 1 + 1) with (a - b) by lia.
  - apply Qltb_ge in Hc. split; done.
Qed.

Lemma round_magnitude_error (x : Q) :
  (pow2 (-1022) <= x)%Q -> (x < pow2 1023)%Q ->
  exists y, round_magnitude x = Some y
            /\ (Qabs (y - x) <= x * pow2 (-53))%Q.
Proof.
  intros Hlo Hhi.
  assert (Hx : (0 < x)%Q).
  { apply Qlt_le_trans with (pow2 (-1022)); [apply pow2_pos|done]. }
  unfold round_magnitude.
  replace (Qle_bool x 0) with false.
  2:{ symmetry. apply Qltb_lt in Hx. unfold Qltb in Hx.
      by apply negb_true_iff in Hx. }
  destruct (binary_exponent_spec x Hx) as [He1 He2].
  set (e := binary_exponent x) in *.
  assert (He_lo : -1022 <= e).
  { assert (H : (pow2 (-1022) < pow2 (e + 1))%Q)
      by (eapply Qle_lt_trans; [exact Hlo|exact He2]).
    apply pow2_lt_inv in H. lia. }
  assert (He_hi : e < 1023).
  { apply pow2_lt_inv. eapply Qle_lt_trans; [exact He1|exact Hhi]. }
  rewrite Z.max_l by lia.
  set (q := e - 52).
  pose proof (nearest_even_error (x / pow2 q)) as Herr.
  set (m := nearest_even (x / pow2 q)) in *.
  pose proof (pow2_pos q) as Hq.
  assert (Hyx : (Qabs (inject_Z m * pow2 q - x) <= x * pow2 (-53))%Q).
  { assert (Heq : (inject_Z m * pow2 q - x
                   == (inject_Z m - x / pow2 q) * pow2 q)%Q).
    { field. intros H0. rewrite H0 in Hq. by apply Qlt_irrefl in Hq. }
    rewrite Heq, Qabs_Qmult, (Qabs_pos (pow2 q)) by (by apply Qlt_le_weak).
    apply Qle_trans with ((1 # 2) * pow2 q)%Q.
    - apply Qmult_le_compat_r; [done|by apply Qlt_le_weak].
    - apply Qle_trans with (pow2 e * pow2 (-53))%Q.
      + rewrite <- pow2_add. replace (e + -53) with (-1 + q) by (unfold q; lia).
        rewrite pow2_add. apply Qmult_le_compat_r; [|by apply Qlt_le_weak].
        vm_compute. discriminate.
      + apply Qmult_le_compat_r; [done|]. apply Qlt_le_weak, pow2_pos. }
  exists (inject_Z m * pow2 q)%Q. split; [|done].
  replace (Qltb (inject_Z m * pow2 q) (pow2 1024)) with true; [done|].
  symmetry. apply Qltb_lt.
  apply Qabs_Qle_condition in Hyx as [_ Hup].
  assert (H53 : (pow2 (-53) <= 1)%Q) by (vm_compute; discriminate).
  assert (H1024 : (pow2 1024 == 2 * pow2 1023)%Q).
  { change 1024 with (1 + 1023). rewrite pow2_add. reflexivity. }
  rewrite H1024.
  assert (Hxp : (x * pow2 (-53) <= x)%Q).
  { rewrite <- (Qmult_1_r x) at 2. apply Qmult_le_l; [done|done]. }
  lra.
Qed.

Lemma round_step (X lo hi x : Q) :
  (0 <= X)%Q -> (0 <= lo)%Q ->
  (X * lo <= x)%Q -> (x <= X * hi)%Q ->
  (pow2 (-1022) <= x)%Q -> (x < pow2 1023)%Q ->
  exists y, round_magnitude x = Some y
            /\ (X * (lo * (1 - eps)) <= y)%Q /\ (y <= X * (hi * (1 + eps)))%Q.
Proof.
  intros HX Hlo H1 H2 Hr1 Hr2.
  destruct (round_magnitude_error x Hr1 Hr2) as (y & Hy & Herr).
  exists y. split; [done|].
  apply Qabs_Qle_condition in Herr as [Hd Hu]. fold eps in Hd, Hu.
  assert (He : (0 <= eps)%Q) by (vm_compute; discriminate).
  assert (He1 : (0 <= 1 - eps)%Q) by (vm_compute; discriminate).
  split.
  - apply Qle_trans with (x * (1 - eps))%Q; [|lra].
    rewrite Qmult_assoc. apply Qmult_le_compat_r; done.
  - apply Qle_trans with (x * (1 + eps))%Q; [lra|].
    rewrite Qmult_assoc. apply Qmult_le_compat_r; [done|lra].
Qed.

Lemma div_step (X Y lo hi lo' hi' x y : Q) :
  (0 <= X)%Q -> (0 < Y)%Q -> (0 <= lo)%Q -> (0 < lo')%Q -> (0 < hi')%Q ->
  (X * lo <= x)%Q -> (x <= X * hi)%Q ->
  (Y * lo' <= y)%Q -> (y <= Y * hi')%Q ->
  (X / Y * (lo / hi') <= x / y)%Q /\ (x / y <= X / Y * (hi / lo'))%Q.
Proof.
  intros HX HY Hlo Hlo' Hhi' H1 H2 H3 H4.
  assert (Hy : (0 < y)%Q).
  { apply Qlt_le_trans with (Y * lo')%Q; [|done].
    apply Qmult_lt_0_compat; done. }
  assert (HYn : ~ (Y == 0)%Q) by (intros E; rewrite E in HY; by apply Qlt_irrefl in HY).
  assert (Hyn : ~ (y == 0)%Q) by (intros E; rewrite E in Hy; by apply Qlt_irrefl in Hy).
  assert (Hln : ~ (lo' == 0)%Q) by (intros E; rewrite E in Hlo'; by apply Qlt_irrefl in Hlo').
  assert (Hhn : ~ (hi' == 0)%Q) by (intros E; rewrite E in Hhi'; by apply Qlt_irrefl in Hhi').
  split.
  - apply Qle_shift_div_l; [done|].
    assert (Heq : (X / Y * (lo / hi') * y == X * lo * y / (Y * hi'))%Q)
      by (field; done).
    rewrite Heq. apply Qle_shift_div_r; [by apply Qmult_lt_0_compat|].
    apply Qmult_le_compat_nonneg.
    + split; [by apply Qmult_le_0_compat|done].
    + split; [by apply Qlt_le_weak|done].
  - apply Qle_shift_div_r; [done|].
    assert (Heq : (X / Y * (hi / lo') * y == X * hi * y / (Y * lo'))%Q)
      by (field; done).
    rewrite Heq. apply Qle_shift_div_l; [by apply Qmult_lt_0_compat|].
    assert (Hx0 : (0 <= x)%Q).
    { apply Qle_trans with (X * lo)%Q; [by apply Qmult_le_0_compat|done]. }
    apply Qmult_le_compat_nonneg.
    + split; done.
    + split; [apply Qlt_le_weak; by apply Qmult_lt_0_compat|done].
Qed.

Lemma Qle_bool_false (x : Q) : (0 < x)%Q -> Qle_bool x 0 = false.
Proof.
  intros Hx. apply Qltb_lt in Hx. unfold Qltb in Hx.
  by apply negb_true_iff in Hx.
Qed.

(** The magnitude of the double rate, against the exact rate [B / d / mb]
    of [B] bytes in [d] seconds. *)
Lemma rate_magnitude (B : Z) (d : Q) :
  1 <= B < 2 ^ 63 ->
  (pow2 (-900) <= d)%Q -> (d <= pow2 900)%Q ->
  exists te bf s v,
    round_magnitude d = Some te
    /\ (0 < te)%Q
    /\ round_magnitude (inject_Z B) = Some bf
    /\ round_magnitude (bf / te) = Some s
    /\ round_magnitude (s / ((4503599627370496 # 4294967296))) = Some v
    /\ (Qabs (v - inject_Z B / d / mb)
        <= inject_Z B / d / mb * (1 # 2 ^ 50))%Q.
Proof.
  intros [HB1 HB2] Hd1 Hd2.
  assert (Hd : (0 < d)%Q)
    by (apply Qlt_le_trans with (pow2 (-900)); [apply pow2_pos|done]).
  assert (Hdn : ~ (d == 0)%Q)
    by (intros E; rewrite E in Hd; by apply Qlt_irrefl in Hd).
  assert (HBq1 : (1 <= inject_Z B)%Q) by (rewrite Zle_Qle in HB1; done).
  assert (HBq2 : (inject_Z B <= pow2 63)%Q).
  { rewrite pow2_inject by lia. rewrite <- Zle_Qle. lia. }
  assert (HBq0 : (0 <= inject_Z B)%Q) by lra.
  set (Bq := inject_Z B) in *.
  assert (He0 : (0 <= 1 * (1 - eps))%Q) by (vm_compute; discriminate).
  assert (He0' : (0 < 1 * (1 - eps))%Q) by reflexivity.
  assert (He1' : (0 < 1 * (1 + eps))%Q) by reflexivity.
  (* the difference of the clock readings *)
  destruct (round_step d 1 1 d) as (te & Hte & Hte1 & Hte2);
    [lra|lra|lra|lra| | |].
  { apply Qle_trans with (pow2 (-900)); [by apply pow2_le|done]. }
  { apply Qle_lt_trans with (pow2 900); [done|reflexivity]. }
  assert (Htepos : (0 < te)%Q).
  { apply Qlt_le_trans with (d * (1 * (1 - eps)))%Q; [|done].
    by apply Qmult_lt_0_compat. }
  (* the number of bytes *)
  destruct (round_step Bq 1 1 Bq) as (bf & Hbf & Hbf1 & Hbf2);
    [lra|lra|lra|lra| | |].
  { apply Qle_trans with 1%Q; [vm_compute; discriminate|done]. }
  { apply Qle_lt_trans with (pow2 63); [done|reflexivity]. }
  (* bytes per second *)
  assert (Hr1 : (pow2 (-900) <= Bq / d)%Q).
  { apply Qle_shift_div_l; [done|].
    apply Qle_trans with (pow2 (-900) * pow2 900)%Q.
    - apply Qmult_le_l; [apply pow2_pos|done].
    - rewrite <- pow2_add. simpl. done. }
  assert (Hr2 : (Bq / d <= pow2 963)%Q).
  { apply Qle_shift_div_r; [done|].
    apply Qle_trans with (pow2 963 * pow2 (-900))%Q.
    - rewrite <- pow2_add. simpl. done.
    - apply Qmult_le_l; [apply pow2_pos|done]. }
  assert (Hr0 : (0 <= Bq / d)%Q).
  { apply Qle_trans with (pow2 (-900)); [apply Qlt_le_weak, pow2_pos|done]. }
  destruct (div_step Bq d (1 * (1 - eps)) (1 * (1 + eps))
              (1 * (1 - eps)) (1 * (1 + eps)) bf te HBq0 Hd He0 He0' He1'
              Hbf1 Hbf2 Hte1 Hte2)
    as [Hq1 Hq2].
  set (c1 := (1 * (1 - eps) / (1 * (1 + eps)))%Q) in *.
  set (c2 := (1 * (1 + eps) / (1 * (1 - eps)))%Q) in *.
  assert (Hc1 : (0 <= c1)%Q) by (vm_compute; discriminate).
  assert (Hc2 : (0 <= c2)%Q) by (vm_compute; discriminate).
  destruct (round_step (Bq / d) c1 c2 (bf / te) Hr0 Hc1 Hq1 Hq2)
    as (s & Hs & Hs1 & Hs2).
  { apply Qle_trans with (pow2 (-900) * c1)%Q; [vm_compute; discriminate|].
    apply Qle_trans with (Bq / d * c1)%Q; [|done].
    by apply Qmult_le_compat_r. }
  { apply Qle_lt_trans with (pow2 963 * c2)%Q; [|reflexivity].
    apply Qle_trans with (Bq / d * c2)%Q; [done|].
    by apply Qmult_le_compat_r. }
  (* megabytes per second *)
  set (M := (4503599627370496 # 4294967296)%Q).
  set (c3 := (c1 * (1 - eps))%Q) in *.
  set (c4 := (c2 * (1 + eps))%Q) in *.
  assert (Hc3 : (0 <= c3)%Q) by (vm_compute; discriminate).
  assert (HM1 : (mb * 1 <= M)%Q) by (vm_compute; discriminate).
  assert (HM2 : (M <= mb * 1)%Q) by (vm_compute; discriminate).
  destruct (div_step (Bq / d) mb c3 c4 1 1 s M Hr0 ltac:(reflexivity) Hc3
              ltac:(reflexivity) ltac:(reflexivity) Hs1 Hs2 HM1 HM2)
    as [Hp1 Hp2].
  set (c5 := (c3 / 1)%Q) in *. set (c6 := (c4 / 1)%Q) in *.
  assert (Hc5 : (0 <= c5)%Q) by (vm_compute; discriminate).
  assert (Hc6 : (0 <= c6)%Q) by (vm_compute; discriminate).
  assert (Hm1 : (pow2 (-920) <= Bq / d / mb)%Q).
  { apply Qle_shift_div_l; [reflexivity|].
    apply Qle_trans with (pow2 (-900))%Q; [vm_compute; discriminate|done]. }
  assert (Hm2 : (Bq / d / mb <= pow2 943)%Q).
  { apply Qle_shift_div_r; [reflexivity|].
    apply Qle_trans with (pow2 963)%Q; [done|vm_compute; discriminate]. }
  assert (Hm0 : (0 <= Bq / d / mb)%Q).
  { apply Qle_trans with (pow2 (-920)); [apply Qlt_le_weak, pow2_pos|done]. }
  destruct (round_step (Bq / d / mb) c5 c6 (s / M) Hm0 Hc5 Hp1 Hp2)
    as (v & Hv & Hv1 & Hv2).
  { apply Qle_trans with (pow2 (-920) * c5)%Q; [vm_compute; discriminate|].
    apply Qle_trans with (Bq / d / mb * c5)%Q; [|done].
    by apply Qmult_le_compat_r. }
  { apply Qle_lt_trans with (pow2 943 * c6)%Q; [|reflexivity].
    apply Qle_trans with (Bq / d / mb * c6)%Q; [done|].
    by apply Qmult_le_compat_r. }
  exists te, bf, s, v.
  split; [exact Hte|]. split; [exact Htepos|]. split; [exact Hbf|].
  split; [exact Hs|]. split; [exact Hv|].
  apply Qabs_Qle_condition.
  assert (Hlo : (1 - (1 # 2 ^ 50) <= c5 * (1 - eps))%Q)
    by (vm_compute; discriminate).
  assert (Hhi : (c6 * (1 + eps) <= 1 + (1 # 2 ^ 50))%Q)
    by (vm_compute; discriminate).
  assert (Hmpos : (0 < Bq / d / mb)%Q)
    by (apply Qlt_le_trans with (pow2 (-920)); [apply pow2_pos|done]).
  set (r := (Bq / d / mb)%Q) in *.
  assert (Hl : (r * (1 - (1 # 2 ^ 50)) <= r * (c5 * (1 - eps)))%Q)
    by (apply Qmult_le_l; [exact Hmpos|exact Hlo]).
  assert (Hh : (r * (c6 * (1 + eps)) <= r * (1 + (1 # 2 ^ 50)))%Q)
    by (apply Qmult_le_l; [exact Hmpos|exact Hhi]).
  split.
  - apply Qle_trans with (r * (1 - (1 # 2 ^ 50)) - r)%Q; [|lra].
    clear. lra.
  - apply Qle_trans with (r * (1 + (1 # 2 ^ 50)) - r)%Q; [lra|].
    clear. lra.
Qed.

Lemma Qabs_nonneg_eq (x : Q) : (0 <= x)%Q -> Qabs x = x.
Proof.
  destruct x as [n d]. unfold Qle. simpl. intros H. unfold Qabs.
  f_equal. lia.
Qed.

Lemma Qltb_inject_Z (b : Z) : Qltb (inject_Z b) 0 = (b <? 0).
Proof.
  destruct (b <? 0) eqn:Hb.
  - apply Qltb_lt. apply Z.ltb_lt in Hb. by rewrite Zlt_Qlt in Hb.
  - apply Qltb_ge. apply Z.ltb_ge in Hb. by rewrite Zle_Qle in Hb.
Qed.

Lemma Qabs_rate (b : Z) (d : Q) :
  (0 < d)%Q ->
  (Qabs (inject_Z b / d / mb) == inject_Z (Z.abs b) / d / mb)%Q.
Proof.
  intros Hd. unfold Qdiv.
  rewrite !Qabs_Qmult, !Qabs_Qinv.
  rewrite (Qabs_pos d) by (by apply Qlt_le_weak).
  rewrite (Qabs_pos mb) by discriminate.
  reflexivity.
Qed.

Lemma round_magnitude_zero (x : Q) :
  (x <= 0)%Q -> round_magnitude x = Some 0%Q.
Proof.
  intros Hx. unfold round_magnitude.
  apply Qle_bool_iff in Hx. by rewrite Hx.
Qed.

(** A difference that is not positive does not pass the test
    [time_elapsed > 0]. *)
Lemma float_sub_not_positive (a b : Q) :
  (a - b <= 0)%Q -> float_positive (float_sub a b) = false.
Proof.
  intros Hle. unfold float_sub, round_binary64.
  destruct (Qltb (a - b) 0) eqn:Hs.
  - by destruct (round_magnitude (Qabs (a - b))).
  - apply Qltb_ge in Hs.
    assert (H0 : (Qabs (a - b) <= 0)%Q).
    { rewrite Qabs_pos by done. done. }
    by rewrite (round_magnitude_zero _ H0).
Qed.

(** A difference that passes the test is positive. *)
Lemma float_sub_positive (a b : Q) :
  float_positive (float_sub a b) = true -> (0 < a - b)%Q.
Proof.
  intros Hp. destruct (Qlt_le_dec 0 (a - b)) as [|Hle]; [done|].
  by rewrite (float_sub_not_positive _ _ Hle) in Hp.
Qed.

(** Zero bytes over a positive time is the rate [0.0]. *)
Lemma float_div_zero (y : pyfloat) :
  float_positive y = true ->
  float_div (Finite false 0) y = Finite false 0.
Proof.
  destruct y as [[] m|[]|]; try done.
  cbn [float_positive float_div xorb].
  intros Hm. unfold Qltb in Hm. apply negb_true_iff in Hm. rewrite Hm.
  rewrite round_magnitude_zero; [done|].
  unfold Qdiv. rewrite Qmult_0_l. apply Qle_refl.
Qed.

(** The rate computed in doubles against the exact rate: same sign, and
    a magnitude within a relative error of [2^-50]. *)
Lemma rate_accuracy (b : Z) (d : Q) :
  Z.abs b < 2 ^ 63 ->
  (pow2 (-900) <= d)%Q -> (d <= pow2 900)%Q ->
  float_positive (round_binary64 d) = true
  /\ exists m,
       float_div (float_div (float_of_int b) (round_binary64 d))
                 (float_of_int (1024 * 1024))
       = Finite (b <? 0) m
       /\ (Qabs (m - Qabs (inject_Z b / d / mb))
           <= Qabs (inject_Z b / d / mb) * (1 # 2 ^ 50))%Q.
Proof.
  intros Hb Hd1 Hd2.
  assert (Hd : (0 < d)%Q)
    by (apply Qlt_le_trans with (pow2 (-900)); [apply pow2_pos|done]).
  assert (HM : float_of_int (1024 * 1024)
               = Finite false (4503599627370496 # 4294967296))
    by (vm_compute; reflexivity).
  assert (Hsd : Qltb d 0 = false) by (apply Qltb_ge; by apply Qlt_le_weak).
  destruct (Z.eq_dec b 0) as [->|Hb0].
  - (* no byte *)
    destruct (rate_magnitude 1 d ltac:(lia) Hd1 Hd2)
      as (te & _ & _ & _ & Hte & Htepos & _).
    assert (Hrd : round_binary64 d = Finite false te).
    { unfold round_binary64.
      by rewrite (Qabs_nonneg_eq d (Qlt_le_weak _ _ Hd)), Hte, Hsd. }
    assert (Hp : float_positive (round_binary64 d) = true).
    { rewrite Hrd. by apply Qltb_lt. }
    split; [exact Hp|]. exists 0%Q. split.
    + change (float_of_int 0) with (Finite false 0).
      rewrite (float_div_zero _ Hp), HM. reflexivity.
    + assert (H0 : (Qabs (inject_Z 0 / d / mb) == 0)%Q).
      { rewrite Qabs_rate by done. change (inject_Z (Z.abs 0)) with 0%Q.
        unfold Qdiv. ring. }
      rewrite H0. vm_compute. discriminate.
  - destruct (rate_magnitude (Z.abs b) d ltac:(lia) Hd1 Hd2)
      as (te & bf & s & v & Hte & Htepos & Hbf & Hs & Hv & Herr).
    assert (Hrd : round_binary64 d = Finite false te).
    { unfold round_binary64.
      by rewrite (Qabs_nonneg_eq d (Qlt_le_weak _ _ Hd)), Hte, Hsd. }
    split; [rewrite Hrd; by apply Qltb_lt|].
    exists v. split.
    + rewrite Hrd, HM. unfold float_of_int, round_binary64.
      change (Qabs (inject_Z b)) with (inject_Z (Z.abs b)).
      rewrite Hbf, Qltb_inject_Z. cbn [float_div].
      rewrite (Qle_bool_false _ Htepos), Hs. cbn [float_div].
      replace (Qle_bool (4503599627370496 # 4294967296) 0) with false
        by reflexivity.
      rewrite Hv. by destruct (b <? 0).
    + by rewrite Qabs_rate.
Qed.

Lemma shown_hundredths_error (m r e : Q) :
  (Qabs (m - r) <= e)%Q ->
  (Qabs (inject_Z (shown_hundredths m) / 100 - r) <= (1 # 200) + e)%Q.
Proof.
  intros Hm. pose proof (nearest_even_error (m * 100)) as Hh.
  fold (shown_hundredths m) in Hh.
  apply Qabs_Qle_condition in Hm as [Hm1 Hm2].
  apply Qabs_Qle_condition in Hh as [Hh1 Hh2].
  apply Qabs_Qle_condition.
  assert (Heq : (inject_Z (shown_hundredths m) / 100
                 == inject_Z (shown_hundredths m) * (1 # 100))%Q)
    by (unfold Qdiv; reflexivity).
  rewrite Heq. split; lra.
Qed.

Lemma unchanged_size_speed (size : Z) (t now : Q) :
  float_positive (float_sub now t) = true ->
  speed_mbps_of size (Sample size t) now = Finite false 0.
Proof.
  intros Hp. unfold speed_mbps_of. cbn [s_size s_time].
  rewrite Z.sub_diag.
  change (float_of_int 0) with (Finite false 0).
  by rewrite (float_div_zero _ Hp).
Qed.

(** ** Transfer rates *)

Section Rates.

Variable E : env.

Lemma report_all_other (l : list progress_info) (name : string) :
  name ∉ map p_name l ->
  forall ls w ls' w',
    report_all E l ls w = (Ret ls', w') -> ls' !! name = ls !! name.
Proof.
  induction l as [|fi l IH]; intros Hn ls w ls' w' H; simpl in H.
  - by injection H as <- _.
  - apply not_elem_of_cons in Hn as [Hne Hn].
    unfold bind at 1 in H. rewrite report_progress_run in H.
    destruct (ls !! p_name fi) as [last|];
      apply (IH Hn) in H; rewrite H; by apply lookup_insert_ne.
Qed.

(** After a report, every transfer of the list has a sample of its
    current size. *)
Lemma report_all_samples (l : list progress_info) :
  NoDup (map p_name l) ->
  forall ls w ls' w',
    report_all E l ls w = (Ret ls', w') ->
    forall fi, fi ∈ l ->
      exists t, ls' !! p_name fi = Some (Sample (p_current_size fi) t).
Proof.
  induction l as [|fi0 l IH]; intros Hnd ls w ls' w' H fi Hfi.
  - by apply elem_of_nil in Hfi.
  - simpl in Hnd. apply NoDup_cons in Hnd as [Hnotin Hnd].
    simpl in H. unfold bind at 1 in H. rewrite report_progress_run in H.
    apply elem_of_cons in Hfi as [->|Hfi].
    + destruct (ls !! p_name fi0) as [last|];
        apply (report_all_other l _ Hnotin) in H; rewrite H;
        rewrite lookup_insert_eq; by eexists.
    + destruct (ls !! p_name fi0) as [last|]; by eapply IH.
Qed.

Lemma same_size_no_progress (last : sample) (now : Q)
    (fi : progress_info) :
  p_current_size fi = s_size last ->
  no_progress_reported (progress_line (Some last) now fi).
Proof.
  intros Hsize. unfold no_progress_reported, progress_line.
  destruct (float_positive (float_sub now (s_time last))) eqn:Hp; [|done].
  simpl. destruct last as [size t]. simpl in *. subst size.
  by rewrite (unchanged_size_speed _ _ _ Hp).
Qed.

(** A report over transfers whose samples already have their current
    sizes prints one line each, none with a rate other than zero. *)
Lemma report_all_unchanged (l : list progress_info) :
  forall ls w,
    (forall fi, fi ∈ l ->
       exists t, ls !! p_name fi = Some (Sample (p_current_size fi) t)) ->
    exists ls' w' es,
      report_all E l ls w = (Ret ls', w')
      /\ output w' = output w ++ es
      /\ length es = length l
      /\ Forall no_progress_reported es.
Proof.
  induction l as [|fi0 l IH]; intros ls w Hls; simpl.
  - exists ls, w, []. by rewrite app_nil_r.
  - destruct (Hls fi0) as [t0 Ht0]; [apply elem_of_cons; by left|].
    unfold bind at 1. rewrite report_progress_run, Ht0.
    match goal with |- context [report_all E l ?ls1 ?w1] =>
      destruct (IH ls1 w1) as (ls' & w' & es & -> & Hout & Hlen & Hes)
    end.
    { intros fi Hfi.
      destruct (Hls fi) as [t Ht]; [apply elem_of_cons; by right|].
      destruct (decide (p_name fi0 = p_name fi)) as [Heq|Hne].
      - rewrite Heq, lookup_insert_eq. rewrite Heq in Ht0.
        rewrite Ht in Ht0. injection Ht0 as -> _. by eexists.
      - rewrite lookup_insert_ne by done. by eexists. }
    eexists ls', w', (_ :: es). split; [reflexivity|].
    simpl in Hout. rewrite <- app_assoc in Hout. simpl in Hout.
    split; [exact Hout|]. split; [simpl; by rewrite Hlen|].
    apply Forall_cons. split; [|done].
    exact (same_size_no_progress (Sample (p_current_size fi0) t0)
             (clock E (clock_reads w)) fi0 eq_refl).
Qed.

Lemma sleep_then_continue_output {R S : Type} (secs : Q) (s : S)
    (w : world) :
  output (snd (@sleep_then_continue R S E secs s w)) = output w.
Proof.
  unfold sleep_then_continue, bind, time_sleep.
  destruct (Qltb secs 0); [done|].
  by destruct (interrupt E (sleeps w)).
Qed.

End Rates.

Lemma partial_names_NoDup (l : list dirent) :
  NoDup (map d_name l) -> NoDup (map p_name (omap partial_of l)).
Proof.
  induction l as [|e l IH]; simpl; [constructor|].
  intros Hnd. apply NoDup_cons in Hnd as [Hnotin Hnd].
  destruct (partial_of e) as [fi|] eqn:Hfi; [|by apply IH].
  simpl. apply NoDup_cons. split; [|by apply IH].
  intros Hin. apply Hnotin.
  apply list_elem_of_fmap in Hin as (fi' & Heq & Hfi').
  apply list_elem_of_omap in Hfi' as (e' & He' & Hpe').
  apply partial_of_Some in Hfi as (_ & _ & Hn & _).
  apply partial_of_Some in Hpe' as (_ & _ & Hn' & _).
  apply list_elem_of_fmap. exists e'. split; [congruence|done].
Qed.

(** Two ticks on the same listing, the first one going on: the second
    one goes on too (or raises in its sleep), and the lines it prints for
    the transfers report no progress. *)
Lemma identical_snapshot_no_progress (E : env) (check_interval : Q)
    (last_sizes : gmap string sample) (w : world) (l : list dirent)
    (st : status) :
  dirs E (dir_reads w) = Entries l ->
  dirs E (S (dir_reads w)) = Entries l ->
  NoDup (map d_name l) ->
  status_of_view (Entries l) = Ret st ->
  active_downloads st <> 0 ->
  (0 <= check_interval)%Q ->
  interrupt E (sleeps w) = false ->
  exists last_sizes1 w1 es,
    monitor_iteration E check_interval last_sizes w
    = (Ret (Continue last_sizes1), w1)
    /\ (forall b, fst (monitor_iteration E check_interval last_sizes1 w1)
                  <> Ret (Return b))
    /\ output (snd (monitor_iteration E check_interval last_sizes1 w1))
       = output w1 ++ ActiveDownloads (active_downloads st) :: es
    /\ length es = length (in_progress_files st)
    /\ Forall no_progress_reported es.
Proof.
  intros Hd1 Hd2 Hnd Hst Ha Hci Hint.
  assert (Hz : (active_downloads st =? 0) = false) by by apply Z.eqb_neq.
  destruct (report_all_ret E (in_progress_files st) last_sizes
              (printed (ActiveDownloads (active_downloads st)) (looked w)))
    as (ls1 & wa & Hra & Hdr & Hsl & _ & _).
  simpl in Hdr, Hsl.
  assert (Hsamples : forall fi, fi ∈ in_progress_files st ->
            exists t, ls1 !! p_name fi
                      = Some (Sample (p_current_size fi) t)).
  { assert (Hnd' : NoDup (map p_name (in_progress_files st))).
    { destruct (status_of_entries _ _ Hst) as (-> & _).
      by apply partial_names_NoDup. }
    exact (report_all_samples E (in_progress_files st) Hnd' _ _ _ _ Hra). }
  destruct (report_all_unchanged E (in_progress_files st) ls1
              (printed (ActiveDownloads (active_downloads st))
                       (looked (slept wa))) Hsamples)
    as (ls2 & wb & es & Hrb & Hout & Hlen & Hes).
  exists ls1, (slept wa), es. split.
  { rewrite monitor_iteration_run, Hd1, Hst, Hz, Hra.
    apply sleep_then_continue_ok; [done|]. by rewrite Hsl. }
  rewrite monitor_iteration_run.
  change (dir_reads (slept wa)) with (dir_reads wa).
  rewrite Hdr, Hd2, Hst, Hz, Hrb.
  split.
  { intros b Hb.
    destruct (sleep_then_continue E check_interval ls2 wb) as [r2 w2] eqn:Hs2.
    simpl in Hb. subst r2.
    by apply sleep_then_continue_not_return in Hs2. }
  split; [|done].
  rewrite sleep_then_continue_output, Hout. simpl.
  by rewrite <- app_assoc.
Qed.

(** Counterexample to claim C5: at the first sample of a transfer the
    monitor prints its "Starting..." line; no rate is computed, so none
    of the lines printed by the first tick reports a rate, let alone a
    rate of zero. *)
Lemma first_sample_reports_no_rate :
  output (snd (monitor_download_progress env_stuck 1 5 world0))
  = [StartingMonitoring; ActiveDownloads 1;
     StartingLine "scene.zip" (Qmake 0 100)]
  /\ map rate_reported
         (output (snd (monitor_download_progress env_stuck 1 5 world0)))
     = [None; None; None].
Proof. split; reflexivity. Qed.

(** Claim C5, amended.  For a transfer in progress with a prior sample,
    when the double difference between the clock reading and the time of
    that sample passes the test [> 0], the rate printed is
    [(newSize - lastSize)] (an int that [float] accepts) divided by that
    difference and by [1024 * 1024], computed in doubles and shown with
    two decimals: [0.00] when the size is unchanged.  Its sign is that of
    the size difference, and for a size difference below [2^63] in
    magnitude and a clock difference between [2^-900] and [2^900]
    seconds, the number shown is within [0.005 + 2^-50 * rate] of the
    exact rate [(newSize - lastSize) / elapsed] in MB/s.  For the first
    sample, and when the clock difference is not positive, a line
    without a rate is printed.  Consequently, when a tick that lists
    partial downloads is followed by a tick on the identical listing, the
    second tick does not report completion and prints one line per
    transfer, none with a rate other than [0.00]. *)
Theorem rate_between_samples (E : env) :
  (forall (last_sizes : gmap string sample) (fi : progress_info)
          (w : world),
     let now := clock E (clock_reads w) in
     let r := report_progress E last_sizes fi w in
     (last_sizes !! p_name fi = None ->
      output (snd r)
      = output w ++ [StartingLine (p_name fi) (p_size_mb fi)]
      /\ fst r = Ret (<[p_name fi := Sample (p_current_size fi) now]>
                        last_sizes))
     /\ (forall last,
           last_sizes !! p_name fi = Some last ->
           (now - s_time last <= 0)%Q ->
           output (snd r)
           = output w ++ [CalculatingSpeedLine (p_name fi) (p_size_mb fi)])
     /\ (forall last,
           last_sizes !! p_name fi = Some last ->
           float_positive (float_sub now (s_time last)) = true ->
           Z.abs (p_current_size fi - s_size last) < 2 ^ 1023 ->
           (0 < now - s_time last)%Q
           /\ output (snd r)
              = output w
                ++ [SpeedLine (p_name fi) (p_size_mb fi)
                      (format_2f
                         (float_div
                            (float_div
                               (float_of_int
                                  (p_current_size fi - s_size last))
                               (float_sub now (s_time last)))
                            (float_of_int (1024 * 1024))))]
           /\ (p_current_size fi = s_size last ->
               output (snd r)
               = output w ++ [SpeedLine (p_name fi) (p_size_mb fi) "0.00"])
           /\ fst r = Ret (<[p_name fi :=
                               Sample (p_current_size fi)
                                      (clock E (S (clock_reads w)))]>
                             last_sizes))
     /\ (forall last,
           last_sizes !! p_name fi = Some last ->
           (pow2 (-900) <= now - s_time last)%Q ->
           (now - s_time last <= pow2 900)%Q ->
           Z.abs (p_current_size fi - s_size last) < 2 ^ 63 ->
           let exact := exact_speed_mbps (p_current_size fi) last now in
           exists m,
             output (snd r)
             = output w
               ++ [SpeedLine (p_name fi) (p_size_mb fi)
                     (format_2f
                        (Finite (p_current_size fi - s_size last <? 0) m))]
             /\ (Qabs (m - Qabs exact) <= Qabs exact * (1 # 2 ^ 50))%Q
             /\ (Qabs (inject_Z (shown_hundredths m) / 100 - Qabs exact)
                 <= (1 # 200) + Qabs exact * (1 # 2 ^ 50))%Q))
  /\ (forall (check_interval : Q) (last_sizes : gmap string sample)
             (w : world) (l : list dirent) (st : status),
        dirs E (dir_reads w) = Entries l ->
        dirs E (S (dir_reads w)) = Entries l ->
        NoDup (map d_name l) ->
        status_of_view (Entries l) = Ret st ->
        active_downloads st <> 0 ->
        (0 <= check_interval)%Q ->
        interrupt E (sleeps w) = false ->
        exists last_sizes1 w1 es,
          monitor_iteration E check_interval last_sizes w
          = (Ret (Continue last_sizes1), w1)
          /\ (forall b,
                fst (monitor_iteration E check_interval last_sizes1 w1)
                <> Ret (Return b))
          /\ output (snd (monitor_iteration E check_interval last_sizes1 w1))
             = output w1 ++ ActiveDownloads (active_downloads st) :: es
          /\ length es = length (in_progress_files st)
          /\ Forall no_progress_reported es).
Proof.
  split; [|apply identical_snapshot_no_progress].
  intros ls fi w now r. subst r. rewrite report_progress_run.
  split; [|split; [|split]].
  - by intros ->.
  - intros last -> Hle. simpl. unfold progress_line. fold now.
    by rewrite (float_sub_not_positive _ _ Hle).
  - intros last -> Hp _. simpl. unfold progress_line. fold now.
    rewrite Hp. split; [by apply float_sub_positive|].
    split; [reflexivity|]. split; [|reflexivity].
    intros Hsize. destruct last as [size t]. simpl in *. subst size.
    by rewrite (unchanged_size_speed _ _ _ Hp).
  - intros last -> Hd1 Hd2 Hb exact.
    destruct (rate_accuracy _ _ Hb Hd1 Hd2) as (Hp & m & Hm & Herr).
    exists m. split; [|split].
    + simpl. unfold progress_line, speed_mbps_of, float_sub. fold now.
      unfold float_sub in Hp. by rewrite Hp, Hm.
    + exact Herr.
    + by apply shown_hundredths_error.
Qed.

Lemma rate_between_samples_witness :
  (let fi := ProgressInfo "scene.zip" "scene.zip.crdownload" 10486760
                          (Qmake 1000 100) in
   let last := Sample 1000 0 in
   let w := World 2 1 1 [] in
   ({[ "scene.zip" := last ]} : gmap string sample) !! p_name fi = Some last
   /\ float_positive (float_sub (clock env_stalled (clock_reads w))
                                (s_time last)) = true
   /\ output (snd (report_progress env_stalled
                     {[ "scene.zip" := last ]} fi w))
      = [SpeedLine "scene.zip" (Qmake 1000 100) "2.00"]
   /\ (pow2 (-900) <= clock env_stalled (clock_reads w) - s_time last)%Q
   /\ (clock env_stalled (clock_reads w) - s_time last <= pow2 900)%Q
   /\ Z.abs (p_current_size fi - s_size last) < 2 ^ 63
   /\ exists m,
        (Qabs (inject_Z (shown_hundredths m) / 100 - 2)
         <= (1 # 200) + 2 * (1 # 2 ^ 50))%Q)
  /\ (dirs env_stalled 0 = Entries listing_stalled
      /\ NoDup (map d_name listing_stalled)
      /\ status_of_view (Entries listing_stalled) = Ret status_stalled
      /\ exists last_sizes1 w1 es,
           monitor_iteration env_stalled 5 ∅ world0
           = (Ret (Continue last_sizes1), w1)
           /\ Forall no_progress_reported es
           /\ output (snd (monitor_iteration env_stalled 5 last_sizes1 w1))
              = output w1 ++ ActiveDownloads 1 :: es).
Proof.
  split.
  - intros fi last w.
    assert (H1 : ({[ "scene.zip" := last ]} : gmap string sample)
                 !! p_name fi = Some last) by reflexivity.
    assert (H2 : float_positive
                   (float_sub (clock env_stalled (clock_reads w))
                              (s_time last)) = true)
      by (vm_compute; reflexivity).
    split; [exact H1|]. split; [exact H2|].
    assert (H3 : (pow2 (-900)
                  <= clock env_stalled (clock_reads w) - s_time last)%Q)
      by (vm_compute; discriminate).
    assert (H4 : (clock env_stalled (clock_reads w) - s_time last
                  <= pow2 900)%Q)
      by (vm_compute; discriminate).
    assert (H5 : Z.abs (p_current_size fi - s_size last) < 2 ^ 63)
      by reflexivity.
    destruct (proj1 (proj2 (proj2 (proj1 (rate_between_samples env_stalled)
                                     {[ "scene.zip" := last ]} fi w)))
                last H1 H2 ltac:(reflexivity)) as (_ & Hout & _).
    destruct (proj2 (proj2 (proj2 (proj1 (rate_between_samples env_stalled)
                                     {[ "scene.zip" := last ]} fi w)))
                last H1 H3 H4 H5) as (m & _ & _ & Hshown).
    split; [rewrite Hout; vm_compute; reflexivity|].
    split; [exact H3|]. split; [exact H4|]. split; [exact H5|].
    exists m.
    assert (Hex : (Qabs (exact_speed_mbps (p_current_size fi) last
                           (clock env_stalled (clock_reads w))) == 2)%Q)
      by reflexivity.
    by rewrite Hex in Hshown.
  - assert (Hnd : NoDup (map d_name listing_stalled)).
    { apply NoDup_cons. split; [apply not_elem_of_nil|constructor]. }
    assert (H5 : (0 <= 5)%Q) by (vm_compute; discriminate).
    split; [reflexivity|]. split; [exact Hnd|]. split; [reflexivity|].
    destruct (proj2 (rate_between_samples env_stalled) 5%Q ∅ world0
                listing_stalled status_stalled eq_refl eq_refl Hnd eq_refl
                ltac:(discriminate) H5 eq_refl)
      as (ls1 & w1 & es & Hrun & _ & Hout & _ & Hes).
    exists ls1, w1, es. split; [exact Hrun|]. split; [exact Hes|exact Hout].
Defined.

(** ** A snapshot that fails at any tick *)

Section Failures.

Variable E : env.

Lemma sleep_then_continue_dir_reads {R S : Type} (secs : Q) (s : S)
    (w : world) :
  dir_reads (snd (@sleep_then_continue R S E secs s w)) = dir_reads w.
Proof.
  unfold sleep_then_continue, bind, time_sleep.
  destruct (Qltb secs 0); [done|].
  by destruct (interrupt E (sleeps w)).
Qed.

(** Every iteration takes exactly one snapshot. *)
Lemma monitor_iteration_dir_reads (check_interval : Q)
    (last_sizes : gmap string sample) (w : world) :
  dir_reads (snd (monitor_iteration E check_interval last_sizes w))
  = S (dir_reads w).
Proof.
  rewrite monitor_iteration_run.
  destruct (status_of_view (dirs E (dir_reads w))) as [st|x|]; try done.
  destruct (active_downloads st =? 0).
  - destruct (completed_files st); [|done].
    by rewrite sleep_then_continue_dir_reads.
  - destruct (report_all_ret E (in_progress_files st) last_sizes
                (printed (ActiveDownloads (active_downloads st))
                         (looked w)))
      as (ls' & w1 & -> & Hd & _).
    by rewrite sleep_then_continue_dir_reads, Hd.
Qed.

Lemma monitor_iteration_unreadable (check_interval : Q)
    (last_sizes : gmap string sample) (w : world) :
  readable (dirs E (dir_reads w)) = false ->
  monitor_iteration E check_interval last_sizes w
  = (Raise OSError, looked w).
Proof.
  intros Hr. by rewrite monitor_iteration_run, (unreadable_view_raises _ Hr).
Qed.

(** A snapshot that cannot be taken is the last thing the loop of the
    monitor does. *)
Lemma monitor_loop_failure (check_interval : Q) :
  forall (fuel : nat) (last_sizes : gmap string sample) (w w' : world)
         (r : res bool),
    monitor_loop E fuel check_interval last_sizes w = (r, w') ->
    forall n, (dir_reads w <= n < dir_reads w')%nat ->
      readable (dirs E n) = false ->
      r = Raise OSError /\ dir_reads w' = S n.
Proof.
  induction fuel as [|fuel IH]; intros ls w w' r H n Hn Hr.
  { injection H as <- <-. lia. }
  rewrite monitor_loop_S in H.
  pose proof (monitor_iteration_dir_reads check_interval ls w) as Hd.
  destruct (decide (n = dir_reads w)) as [->|Hne].
  - rewrite monitor_iteration_unreadable in H by done.
    by injection H as <- <-.
  - destruct (monitor_iteration E check_interval ls w)
      as [[[b|ls']|x|] w1]; simpl in Hd.
    + injection H as <- <-. lia.
    + apply (IH _ _ _ _ H); [lia|done].
    + injection H as <- <-. lia.
    + injection H as <- <-. lia.
Qed.

Lemma wait_detailed_loop_failure (start_time timeout : Q) :
  forall (fuel : nat) (w w' : world) (r : res (option bool)),
    wait_detailed_loop E fuel start_time timeout w = (r, w') ->
    forall n, (dir_reads w <= n < dir_reads w')%nat ->
      readable (dirs E n) = false ->
      r = Raise OSError /\ dir_reads w' = S n.
Proof.
  induction fuel as [|fuel IH]; intros w w' r H n Hn Hr.
  { injection H as <- <-. lia. }
  rewrite wait_detailed_loop_S in H.
  destruct (Qltb (clock E (clock_reads w) - start_time) timeout);
    [|injection H as <- <-; simpl in Hn; lia].
  destruct (decide (n = dir_reads w)) as [->|Hne].
  { rewrite (unreadable_view_raises _ Hr) in H. by injection H as <- <-. }
  destruct (status_of_view (dirs E (dir_reads w))) as [st|x|];
    [|injection H as <- <-; simpl in Hn; lia
     |injection H as <- <-; simpl in Hn; lia].
  destruct ((active_downloads st =? 0)
            && negb (bool_decide (completed_files st = [])));
    [injection H as <- <-; simpl in Hn; lia|].
  destruct (0 <? active_downloads st).
  - rewrite monitor_download_progress_run in H.
    destruct (monitor_loop E fuel 5 ∅ _) as [rm w1] eqn:Hm.
    assert (Hw : w' = w1) by (destruct rm; by injection H).
    subst w1.
    destruct (monitor_loop_failure 5 _ _ _ _ _ Hm n) as [-> Hd];
      [simpl; lia|done|].
    by injection H as <-.
  - destruct (time_sleep E 5 (looked (read_clock w))) as [rs w1] eqn:Hs.
    assert (Hd : dir_reads w1 = S (dir_reads w)).
    { unfold time_sleep in Hs.
      destruct (Qltb 5 0); [by injection Hs as _ <-|].
      destruct (interrupt E _); by injection Hs as _ <-. }
    destruct rs as [[]|x|].
    + apply (IH _ _ _ H); [lia|done].
    + injection H as <- <-. lia.
    + injection H as <- <-. lia.
Qed.

(** [k] ticks of the monitor that go on: the snapshot shows a partial
    download or nothing, its sizes can be read, and the sleep is not
    interrupted. *)
Lemma monitor_loop_rounds (check_interval : Q) :
  (0 <= check_interval)%Q ->
  forall (k fuel : nat) (last_sizes : gmap string sample) (w : world),
    (forall j, (j < k)%nat ->
       (shows_partial (dirs E (dir_reads w + j)) = true
        \/ shows_nothing (dirs E (dir_reads w + j)) = true)
       /\ readable (dirs E (dir_reads w + j)) = true
       /\ interrupt E (sleeps w + j) = false) ->
    exists last_sizes' w',
      monitor_loop E (k + fuel) check_interval last_sizes w
      = monitor_loop E fuel check_interval last_sizes' w'
      /\ dir_reads w' = (dir_reads w + k)%nat
      /\ sleeps w' = (sleeps w + k)%nat.
Proof.
  intros Hci. induction k as [|k IH]; intros fuel ls w Hbusy.
  - exists ls, w. split; [done|]. split; lia.
  - destruct (Hbusy 0%nat ltac:(lia)) as (Hshow & Hr0 & Hi).
    rewrite Nat.add_0_r in Hshow, Hr0, Hi.
    destruct (readable_view_returns _ Hr0) as [st Hst].
    assert (Hgo : active_downloads st <> 0 \/ completed_files st = []).
    { destruct Hshow as [Hp|Hn].
      - left. pose proof (shows_partial_status _ _ Hp Hst). lia.
      - right. rewrite (shows_nothing_status _ Hn) in Hst.
        by injection Hst as <-. }
    change (S k + fuel)%nat with (S (k + fuel)).
    rewrite monitor_loop_S.
    destruct (monitor_iteration_goes_on E check_interval ls w st Hst Hgo)
      as (ls' & w1 & -> & Hd & Hs & _).
    rewrite <- Hs in Hi.
    rewrite (sleep_then_continue_ok E check_interval ls' w1 Hci Hi).
    destruct (IH fuel ls' (slept w1)) as (ls2 & w2 & -> & Hd2 & Hs2).
    + intros j Hj. specialize (Hbusy (S j) ltac:(lia)).
      cbn [dir_reads sleeps slept]. rewrite Hd, Hs.
      replace (S (dir_reads w) + j)%nat with (dir_reads w + S j)%nat by lia.
      by replace (S (sleeps w) + j)%nat with (sleeps w + S j)%nat by lia.
    + exists ls2, w2. split; [done|]. simpl in *. split; lia.
Qed.

End Failures.

(** Claim C6, amended.  When a size that the scan asks for cannot be read
    (or the directory cannot be listed), [get_download_status] raises
    [OSError].  Whenever a call of [monitor_download_progress] or of
    [wait_for_download_completion] takes such a snapshot, at whichever
    tick, the call ends there with that [OSError]: it is the last
    snapshot of the call, so nothing is skipped and nothing is retried.
    And the failing snapshot is reached: after [k] ticks of the monitor
    that went on, or [k] polls of the wait that saw nothing before the
    timeout, the next snapshot being unreadable makes the call raise
    after [k + 1] snapshots and [k] sleeps. *)
Theorem stat_failure_propagates (E : env) :
  (forall w,
     readable (dirs E (dir_reads w)) = false ->
     get_download_status E w = (Raise OSError, looked w))
  /\ (forall fuel check_interval w r w',
        monitor_download_progress E fuel check_interval w = (r, w') ->
        forall n, (dir_reads w <= n < dir_reads w')%nat ->
          readable (dirs E n) = false ->
          r = Raise OSError /\ dir_reads w' = S n)
  /\ (forall fuel timeout w r w',
        wait_for_download_completion E fuel timeout true w = (r, w') ->
        forall n, (dir_reads w <= n < dir_reads w')%nat ->
          readable (dirs E n) = false ->
          r = Raise OSError /\ dir_reads w' = S n)
  /\ (forall check_interval k fuel w,
        (0 <= check_interval)%Q ->
        (forall j, (j < k)%nat ->
           (shows_partial (dirs E (dir_reads w + j)) = true
            \/ shows_nothing (dirs E (dir_reads w + j)) = true)
           /\ readable (dirs E (dir_reads w + j)) = true
           /\ interrupt E (sleeps w + j) = false) ->
        readable (dirs E (dir_reads w + k)) = false ->
        (k < fuel)%nat ->
        let r := monitor_download_progress E fuel check_interval w in
        fst r = Raise OSError
        /\ dir_reads (snd r) = (dir_reads w + S k)%nat
        /\ sleeps (snd r) = (sleeps w + k)%nat)
  /\ (forall timeout k fuel w,
        (forall j, (j < k)%nat ->
           shows_nothing (dirs E (dir_reads w + j)) = true
           /\ interrupt E (sleeps w + j) = false) ->
        (forall j, (j <= k)%nat ->
           (clock E (S (clock_reads w) + j) - clock E (clock_reads w)
            < timeout)%Q) ->
        readable (dirs E (dir_reads w + k)) = false ->
        (k < fuel)%nat ->
        let r := wait_for_download_completion E fuel timeout true w in
        fst r = Raise OSError
        /\ dir_reads (snd r) = (dir_reads w + S k)%nat
        /\ sleeps (snd r) = (sleeps w + k)%nat).
Proof.
  split; [|split; [|split; [|split]]].
  - intros w Hr.
    by rewrite get_download_status_run, (unreadable_view_raises _ Hr).
  - intros fuel ci w r w' H n Hn Hr.
    rewrite monitor_download_progress_run in H.
    exact (monitor_loop_failure E ci _ _ _ _ _ H n Hn Hr).
  - intros fuel timeout w r w' H n Hn Hr.
    rewrite wait_detailed_run in H.
    destruct (wait_detailed_loop E fuel _ timeout _) as [rl wl] eqn:Hl.
    assert (Hd : dir_reads w' = dir_reads wl).
    { destruct rl as [[b|]|[]|]; by injection H as _ <-. }
    destruct (wait_detailed_loop_failure E _ _ _ _ _ _ Hl n) as [-> Hdl];
      [simpl; lia|done|].
    injection H as <- <-. done.
  - intros ci k fuel w Hci Hbusy Hr Hk r. subst r.
    rewrite monitor_download_progress_run.
    replace fuel with (k + S (fuel - S k))%nat by lia.
    destruct (monitor_loop_rounds E ci Hci k (S (fuel - S k)) ∅
                (printed StartingMonitoring w) Hbusy)
      as (ls' & w1 & -> & Hd & Hs).
    simpl in Hd, Hs.
    rewrite monitor_loop_S, monitor_iteration_unreadable
      by (by rewrite Hd).
    simpl. split; [done|]. split; lia.
  - intros timeout k fuel w Hidle Hbefore Hr Hk r. subst r.
    rewrite wait_detailed_run.
    replace fuel with (k + S (fuel - S k))%nat by lia.
    rewrite wait_detailed_loop_rounds.
    2:{ intros j Hj. destruct (Hidle j Hj) as [Hn Hi].
        split; [exact Hn|]. split; [exact Hi|].
        cbn [clock_reads read_clock printed]. apply Hbefore. lia. }
    rewrite wait_detailed_loop_S.
    cbn [clock_reads dir_reads sleeps output read_clock printed].
    pose proof (Hbefore k ltac:(lia)) as Hc. apply Qltb_lt in Hc.
    rewrite Hc, (unreadable_view_raises _ Hr). simpl.
    split; [done|]. split; lia.
Qed.

Lemma stat_failure_propagates_witness :
  readable (dirs env_failing_later 0) = true
  /\ readable (dirs env_failing_later 1) = true
  /\ readable (dirs env_failing_later 2) = false
  /\ fst (monitor_download_progress env_failing_later 7 5 world0)
     = Raise OSError
  /\ dir_reads (snd (monitor_download_progress env_failing_later 7 5 world0))
     = 3%nat
  /\ sleeps (snd (monitor_download_progress env_failing_later 7 5 world0))
     = 2%nat
  /\ fst (wait_for_download_completion env_failing_idle 7 3600 true world0)
     = Raise OSError
  /\ dir_reads
       (snd (wait_for_download_completion env_failing_idle 7 3600 true
               world0)) = 3%nat.
Proof.
  assert (H5 : (0 <= 5)%Q) by (vm_compute; discriminate).
  assert (Hbusy : forall j, (j < 2)%nat ->
            (shows_partial (dirs env_failing_later (dir_reads world0 + j))
             = true
             \/ shows_nothing (dirs env_failing_later (dir_reads world0 + j))
                = true)
            /\ readable (dirs env_failing_later (dir_reads world0 + j))
               = true
            /\ interrupt env_failing_later (sleeps world0 + j) = false).
  { intros j Hj. destruct j as [|[|j]]; [| |lia];
      (split; [left; reflexivity|split; reflexivity]). }
  assert (Hidle : forall j, (j < 2)%nat ->
            shows_nothing (dirs env_failing_idle (dir_reads world0 + j))
            = true
            /\ interrupt env_failing_idle (sleeps world0 + j) = false).
  { intros j Hj. destruct j as [|[|j]]; [| |lia]; split; reflexivity. }
  assert (Hbefore : forall j, (j <= 2)%nat ->
            (clock env_failing_idle (S (clock_reads world0) + j)
             - clock env_failing_idle (clock_reads world0) < 3600)%Q).
  { intros j Hj. destruct j as [|[|[|j]]]; [| | |lia]; reflexivity. }
  destruct (proj1 (proj2 (proj2 (proj2 (stat_failure_propagates
                                          env_failing_later))))
              5%Q 2%nat 7%nat world0 H5 Hbusy eq_refl ltac:(lia))
    as (Hm1 & Hm2 & Hm3).
  destruct (proj2 (proj2 (proj2 (proj2 (stat_failure_propagates
                                          env_failing_idle))))
              3600%Q 2%nat 7%nat world0 Hidle Hbefore eq_refl ltac:(lia))
    as (Hw1 & Hw2 & _).
  split; [reflexivity|]. split; [reflexivity|]. split; [reflexivity|].
  split; [exact Hm1|]. split; [exact Hm2|]. split; [exact Hm3|].
  split; [exact Hw1|exact Hw2].
Defined.

(** * Further properties of the downloader *)

(** ** The order of the listing *)

Lemma Zsum_Permutation (l1 l2 : list Z) : l1 ≡ₚ l2 -> Zsum l1 = Zsum l2.
Proof.
  induction 1 as [|x l1 l2 _ IH|x y l|l1 l2 l3 _ IH1 _ IH2]; simpl;
    [done|by rewrite IH|lia|congruence].
Qed.

Lemma existsb_Permutation {A} (f : A -> bool) (l1 l2 : list A) :
  l1 ≡ₚ l2 -> existsb f l1 = existsb f l2.
Proof.
  induction 1 as [|x l1 l2 _ IH|x y l|l1 l2 l3 _ IH1 _ IH2]; simpl;
    [done|by rewrite IH| |congruence].
  by destruct (f x), (f y).
Qed.

(** [os.listdir] returns the names in arbitrary order.  The order does
    not matter to the status: two listings that are permutations of each
    other either both make [get_download_status] raise, or give the same
    number of active downloads, the same total size and the same records
    up to order. *)
Theorem status_independent_of_listing_order (l1 l2 : list dirent) :
  l1 ≡ₚ l2 ->
  match status_of_view (Entries l1), status_of_view (Entries l2) with
  | Ret st1, Ret st2 =>
      active_downloads st1 = active_downloads st2
      /\ total_size st1 = total_size st2
      /\ in_progress_files st1 ≡ₚ in_progress_files st2
      /\ completed_files st1 ≡ₚ completed_files st2
  | Raise x1, Raise x2 => x1 = x2
  | _, _ => False
  end.
Proof.
  intros Hp. simpl.
  pose proof (scan_outcome l1 empty_status) as H1.
  pose proof (scan_outcome l2 empty_status) as H2.
  rewrite (existsb_Permutation unreadable l1 l2 Hp) in H1.
  destruct (existsb unreadable l2).
  - by rewrite H1, H2.
  - destruct H1 as [st1 H1], H2 as [st2 H2]. rewrite H1, H2.
    apply scan_ret in H1 as (Hp1 & Hc1 & Ha1 & Ht1 & _).
    apply scan_ret in H2 as (Hp2 & Hc2 & Ha2 & Ht2 & _).
    simpl in *.
    assert (Hpp : omap partial_of l1 ≡ₚ omap partial_of l2) by by rewrite Hp.
    assert (Hcc : omap complete_of l1 ≡ₚ omap complete_of l2)
      by by rewrite Hp.
    rewrite Hp1, Hp2, Hc1, Hc2, Ha1, Ha2, Ht1, Ht2.
    repeat split; try done.
    + by rewrite Hpp.
    + rewrite (Zsum_Permutation _ _ (Permutation_map p_current_size Hpp)).
      by rewrite (Zsum_Permutation _ _ (Permutation_map c_size Hcc)).
Qed.

Lemma status_independent_of_listing_order_witness :
  listing_downloading ≡ₚ rev listing_downloading
  /\ match status_of_view (Entries listing_downloading),
           status_of_view (Entries (rev listing_downloading)) with
     | Ret st1, Ret st2 =>
         active_downloads st1 = active_downloads st2
         /\ total_size st1 = total_size st2
     | _, _ => False
     end.
Proof.
  assert (Hp : listing_downloading ≡ₚ rev listing_downloading)
    by apply Permutation_rev.
  split; [exact Hp|].
  generalize (status_independent_of_listing_order _ _ Hp).
  simpl. intros (Ha & Ht & _). exact (conj Ha Ht).
Defined.

(** ** The simple branch of [wait_for_download_completion] *)

Lemma partial_names_nil (l : list dirent) :
  filter (fun f => PyStr.endswith f crdownload = true) (map d_name l) = []
  <-> shows_partial (Entries l) = false.
Proof.
  simpl. induction l as [|e l IH]; simpl; [done|].
  rewrite filter_cons.
  destruct (PyStr.endswith (d_name e) crdownload) eqn:Hs.
  - rewrite decide_True by done. simpl. split; done.
  - rewrite decide_False by done. simpl. exact IH.
Qed.

Lemma time_sleep_inv (E : env) (secs : Q) (w w' : world) (r : res unit) :
  (0 <= secs)%Q ->
  time_sleep E secs w = (r, w') ->
  w' = slept w
  /\ (r = Ret tt /\ interrupt E (sleeps w) = false
      \/ r = Raise KeyboardInterrupt /\ interrupt E (sleeps w) = true).
Proof.
  intros Hs. unfold time_sleep. apply Qltb_ge in Hs. rewrite Hs.
  destruct (interrupt E (sleeps w)); intros [= <- <-]; auto.
Qed.

Section SimpleWait.

Variable E : env.

Lemma wait_simple_loop_S (fuel : nat) (start_time timeout : Q) (w : world) :
  wait_simple_loop E (S fuel) start_time timeout w =
  if Qltb (clock E (clock_reads w) - start_time) timeout then
    match dirs E (dir_reads w) with
    | Entries l =>
        if shows_partial (Entries l) then
          match time_sleep E 10
                  (printed
                     (DownloadInProgress
                        (length (filter
                                   (fun f =>
                                      PyStr.endswith f crdownload = true)
                                   (map d_name l))))
                     (looked (read_clock w))) with
          | (Ret _, w') => wait_simple_loop E fuel start_time timeout w'
          | (Raise x, w') => (Raise x, w')
          | (Fuel, w') => (Fuel, w')
          end
        else (Ret (Some true),
              printed DownloadCompleted (looked (read_clock w)))
    | Missing | Unlistable => (Raise OSError, looked (read_clock w))
    end
  else (Ret None, read_clock w).
Proof.
  cbn [wait_simple_loop]. unfold bind at 1. unfold time_time at 1.
  destruct (Qltb (clock E (clock_reads w) - start_time) timeout);
    [|reflexivity].
  unfold bind at 1. unfold look at 1.
  change (dir_reads (read_clock w)) with (dir_reads w).
  destruct (dirs E (dir_reads w)) as [| |l]; try reflexivity.
  destruct (shows_partial (Entries l)) eqn:Hp.
  - destruct (filter _ (map d_name l)) as [|c cs] eqn:Hf.
    + apply partial_names_nil in Hf. congruence.
    + unfold bind at 1. unfold print at 1. unfold bind at 1.
      destruct (time_sleep E 10 _) as [[[]|x|] w']; reflexivity.
  - apply partial_names_nil in Hp. rewrite Hp. reflexivity.
Qed.

(** What is known when the simple loop stops, whichever way. *)
Lemma wait_simple_loop_inv (start_time timeout : Q) :
  forall (fuel : nat) (w w' : world) (r : res (option bool)),
    wait_simple_loop E fuel start_time timeout w = (r, w') ->
    match r with
    | Ret (Some b) =>
        b = true
        /\ (clock E (pred (clock_reads w')) - start_time < timeout)%Q
        /\ (dir_reads w < dir_reads w')%nat
        /\ exists l, dirs E (pred (dir_reads w')) = Entries l
                     /\ shows_partial (Entries l) = false
    | Ret None =>
        (timeout <= clock E (pred (clock_reads w')) - start_time)%Q
    | Raise x =>
        x = OSError /\ (dir_reads w < dir_reads w')%nat
        /\ (dirs E (pred (dir_reads w')) = Missing
            \/ dirs E (pred (dir_reads w')) = Unlistable)
        \/ x = KeyboardInterrupt /\ (sleeps w < sleeps w')%nat
           /\ interrupt E (pred (sleeps w')) = true
    | Fuel => True
    end.
Proof.
  induction fuel as [|fuel IH]; intros w w' r H.
  { injection H as <- <-. done. }
  rewrite wait_simple_loop_S in H.
  destruct (Qltb (clock E (clock_reads w) - start_time) timeout) eqn:Hc.
  - apply Qltb_lt in Hc.
    destruct (dirs E (dir_reads w)) as [| |l] eqn:Hd.
    + injection H as <- <-. simpl. left. rewrite Hd. auto.
    + injection H as <- <-. simpl. left. rewrite Hd. auto.
    + destruct (shows_partial (Entries l)) eqn:Hp.
      * destruct (time_sleep E 10 _) as [rs w1] eqn:Hs.
        assert (H10 : (0 <= 10)%Q) by (vm_compute; discriminate).
        apply (time_sleep_inv _ _ _ _ _ H10) in Hs
          as (-> & [[-> Hi]|[-> Hi]]).
        -- apply IH in H. simpl in H.
           destruct r as [[b|]|x|]; try done.
           ++ destruct H as (? & ? & ? & ?). repeat split; try done. lia.
           ++ destruct H as [(? & ? & ?)|(? & ? & ?)]; [left|right];
                repeat split; try done; lia.
        -- injection H as <- <-. simpl. right. auto.
      * injection H as <- <-. simpl. rewrite Hd. repeat split; try done.
        -- lia.
        -- by exists l.
  - injection H as <- <-. simpl. by apply Qltb_ge.
Qed.

End SimpleWait.

Section SimpleWaitRuns.

Variable E : env.

(** [k] rounds of the simple loop in which a partial download is listed,
    the timeout has not elapsed and nobody interrupts the sleep: one line
    is printed per round, and the loop goes on from a world with [k] more
    clock readings, looks and sleeps. *)
Lemma wait_simple_loop_busy (start_time timeout : Q) (k : nat) :
  forall (fuel : nat) (w : world),
    (forall j, (j < k)%nat ->
       shows_partial (dirs E (dir_reads w + j)) = true
       /\ interrupt E (sleeps w + j) = false
       /\ (clock E (clock_reads w + j) - start_time < timeout)%Q) ->
    exists es,
      length es = k
      /\ wait_simple_loop E (k + fuel) start_time timeout w
         = wait_simple_loop E fuel start_time timeout
             (World (clock_reads w + k) (dir_reads w + k) (sleeps w + k)
                    (output w ++ es)).
Proof.
  induction k as [|k IH]; intros fuel w Hbusy.
  - exists []. split; [done|]. rewrite app_nil_r, !Nat.add_0_r.
    by destruct w.
  - destruct (Hbusy 0%nat ltac:(lia)) as (Hp & Hi & Hc).
    rewrite Nat.add_0_r in Hp, Hi, Hc. apply Qltb_lt in Hc.
    change (S k + fuel)%nat with (S (k + fuel)).
    rewrite wait_simple_loop_S, Hc.
    destruct (dirs E (dir_reads w)) as [| |l]; [done|done|]. rewrite Hp.
    assert (H10 : (0 <= 10)%Q) by (vm_compute; discriminate).
    rewrite time_sleep_run; [|exact H10|exact Hi].
    match goal with |- context [slept (printed ?e _)] => set (ev := e) end.
    destruct (IH fuel (slept (printed ev (looked (read_clock w)))))
      as (es & Hlen & ->).
    { intros j Hj. specialize (Hbusy (S j) ltac:(lia)). simpl.
      by rewrite <- !Nat.add_succ_r. }
    exists (ev :: es). split; [simpl; by rewrite Hlen|].
    simpl. rewrite <- !Nat.add_succ_r, <- app_assoc. reflexivity.
Qed.

End SimpleWaitRuns.



(** Unlike the detailed method, the simple one enforces the timeout
    while partial downloads remain: after [k] rounds in which a
    [.crdownload] name was listed, if the next check is the first to read
    an elapsed time of at least the timeout, [False] is returned at that
    check, after [k] looks and [k] ten-second sleeps. *)
Theorem simple_wait_times_out (E : env) (timeout : Q) (w : world)
    (k fuel : nat) :
  (forall j, (j < k)%nat ->
     shows_partial (dirs E (dir_reads w + j)) = true
     /\ interrupt E (sleeps w + j) = false
     /\ (clock E (S (clock_reads w) + j) - clock E (clock_reads w)
         < timeout)%Q) ->
  (timeout <= clock E (S (clock_reads w) + k) - clock E (clock_reads w))%Q ->
  (k < fuel)%nat ->
  exists es,
    length es = k
    /\ wait_for_download_completion E fuel timeout false w
       = (Ret false,
          World (S (clock_reads w) + S k) (dir_reads w + k) (sleeps w + k)
                (output w ++ WaitingForCompletion :: es ++ [TimeoutReached])).
Proof.
  intros Hbusy Hat Hk. rewrite wait_simple_run.
  replace fuel with (k + S (fuel - S k))%nat by lia.
  destruct (wait_simple_loop_busy E (clock E (clock_reads w)) timeout k
              (S (fuel - S k))
              (read_clock (printed WaitingForCompletion w)) Hbusy)
    as (es & Hlen & ->).
  exists es. split; [done|].
  rewrite wait_simple_loop_S. cbn [clock_reads read_clock printed].
  apply Qltb_ge in Hat. rewrite Hat. unfold printed, read_clock; simpl.
  rewrite <- !app_assoc. simpl. do 2 f_equal. lia.
Qed.

Lemma simple_wait_times_out_witness :
  (10 <= clock env_stuck (S (clock_reads world0) + 2)
         - clock env_stuck (clock_reads world0))%Q
  /\ exists es,
       length es = 2%nat
       /\ wait_for_download_completion env_stuck 3 10 false world0
          = (Ret false,
             World 4 2 2 ([] ++ WaitingForCompletion :: es
                             ++ [TimeoutReached])).
Proof.
  assert (Hat : (10 <= clock env_stuck (S (clock_reads world0) + 2)
                       - clock env_stuck (clock_reads world0))%Q)
    by (vm_compute; discriminate).
  split; [exact Hat|].
  refine (simple_wait_times_out env_stuck 10 world0 2 3 _ Hat _).
  - intros j Hj. split; [reflexivity|]. split; [reflexivity|].
    destruct j as [|[|j]]; [reflexivity|reflexivity|lia].
  - lia.
Defined.

(** The simple method reports completion at the first look that lists no
    [.crdownload] name, whatever else is or is not in the directory:
    after [k] rounds with a partial download listed, a look without one
    (before the timeout) makes it return [True] at once. *)
Theorem simple_wait_completes (E : env) (timeout : Q) (w : world)
    (k fuel : nat) (l : list dirent) :
  (forall j, (j < k)%nat ->
     shows_partial (dirs E (dir_reads w + j)) = true
     /\ interrupt E (sleeps w + j) = false
     /\ (clock E (S (clock_reads w) + j) - clock E (clock_reads w)
         < timeout)%Q) ->
  (clock E (S (clock_reads w) + k) - clock E (clock_reads w) < timeout)%Q ->
  dirs E (dir_reads w + k) = Entries l ->
  shows_partial (Entries l) = false ->
  (k < fuel)%nat ->
  exists es,
    length es = k
    /\ wait_for_download_completion E fuel timeout false w
       = (Ret true,
          World (S (clock_reads w) + S k) (dir_reads w + S k) (sleeps w + k)
                (output w ++ WaitingForCompletion :: es
                          ++ [DownloadCompleted])).
Proof.
  intros Hbusy Hat Hd Hp Hk. rewrite wait_simple_run.
  replace fuel with (k + S (fuel - S k))%nat by lia.
  destruct (wait_simple_loop_busy E (clock E (clock_reads w)) timeout k
              (S (fuel - S k))
              (read_clock (printed WaitingForCompletion w)) Hbusy)
    as (es & Hlen & ->).
  exists es. split; [done|].
  rewrite wait_simple_loop_S.
  cbn [clock_reads dir_reads read_clock printed].
  apply Qltb_lt in Hat. rewrite Hat, Hd, Hp.
  unfold printed, looked, read_clock; simpl.
  rewrite <- !app_assoc. simpl. do 2 f_equal; lia.
Qed.

Lemma simple_wait_completes_witness :
  (clock env_vanishing (S (clock_reads world0) + 1)
   - clock env_vanishing (clock_reads world0) < 3600)%Q
  /\ dirs env_vanishing (dir_reads world0 + 1) = Entries []
  /\ exists es,
       length es = 1%nat
       /\ wait_for_download_completion env_vanishing 2 3600 false world0
          = (Ret true,
             World 3 2 1 ([] ++ WaitingForCompletion :: es
                             ++ [DownloadCompleted])).
Proof.
  assert (Hat : (clock env_vanishing (S (clock_reads world0) + 1)
                 - clock env_vanishing (clock_reads world0) < 3600)%Q)
    by reflexivity.
  split; [exact Hat|]. split; [reflexivity|].
  refine (simple_wait_completes env_vanishing 3600 world0 1 2 []
            _ Hat eq_refl eq_refl _).
  - intros j Hj. assert (j = 0%nat) as -> by lia.
    split; [reflexivity|]. split; reflexivity.
  - lia.
Defined.

(** The simple method lists the directory without checking that it
    exists: a missing directory at a look before the timeout raises
    [OSError], where [get_download_status] returns the empty status. *)
Theorem simple_wait_needs_directory (E : env) (fuel : nat) (timeout : Q)
    (w : world) :
  (clock E (S (clock_reads w)) - clock E (clock_reads w) < timeout)%Q ->
  dirs E (dir_reads w) = Missing ->
  fst (wait_for_download_completion E (S fuel) timeout false w)
  = Raise OSError
  /\ fst (get_download_status E w) = Ret empty_status.
Proof.
  intros Hc Hd. apply Qltb_lt in Hc. split.
  - rewrite wait_simple_run, wait_simple_loop_S.
    cbn [clock_reads dir_reads read_clock printed]. by rewrite Hc, Hd.
  - by rewrite get_download_status_run, Hd.
Qed.

Lemma simple_wait_needs_directory_witness :
  (clock env_missing (S (clock_reads world0))
   - clock env_missing (clock_reads world0) < 3600)%Q
  /\ dirs env_missing (dir_reads world0) = Missing
  /\ fst (wait_for_download_completion env_missing 1 3600 false world0)
     = Raise OSError.
Proof.
  assert (Hc : (clock env_missing (S (clock_reads world0))
                - clock env_missing (clock_reads world0) < 3600)%Q)
    by reflexivity.
  split; [exact Hc|]. split; [reflexivity|].
  exact (proj1 (simple_wait_needs_directory env_missing 0 3600 world0
                  Hc eq_refl)).
Defined.

(** ** How the monitor and the detailed wait can end *)

Lemma status_of_view_raise (v : dir_view) (x : exn) :
  status_of_view v = Raise x -> x = OSError /\ readable v = false.
Proof.
  destruct v as [| |l]; simpl; [done|by intros [= <-]|].
  intros H. apply scan_raise in H as [-> Hex]. split; [done|].
  destruct (forallb (fun e => negb (unreadable e)) l) eqn:Hall; [|done].
  apply existsb_exists in Hex as (e & Hin & Hu).
  rewrite forallb_forall in Hall. specialize (Hall e Hin).
  by rewrite Hu in Hall.
Qed.

Section Endings.

Variable E : env.

Lemma sleep_then_continue_raise {R S : Type} (secs : Q) (s : S)
    (w w' : world) (x : exn) :
  (0 <= secs)%Q ->
  @sleep_then_continue R S E secs s w = (Raise x, w') ->
  x = KeyboardInterrupt /\ w' = slept w /\ interrupt E (sleeps w) = true.
Proof.
  intros Hs. unfold sleep_then_continue, bind.
  destruct (time_sleep E secs w) as [rs w1] eqn:Hsl.
  apply (time_sleep_inv _ _ _ _ _ Hs) in Hsl as (-> & [[-> Hi]|[-> Hi]]).
  - done.
  - by intros [= <- <-].
Qed.

Lemma monitor_iteration_raise (check_interval : Q)
    (last_sizes : gmap string sample) (w w' : world) (x : exn) :
  (0 <= check_interval)%Q ->
  monitor_iteration E check_interval last_sizes w = (Raise x, w') ->
  dir_reads w' = S (dir_reads w)
  /\ (x = OSError /\ sleeps w' = sleeps w
      /\ readable (dirs E (dir_reads w)) = false
      \/ x = KeyboardInterrupt /\ sleeps w' = S (sleeps w)
         /\ interrupt E (sleeps w) = true).
Proof.
  intros Hci H.
  destruct (status_of_view (dirs E (dir_reads w))) as [st|x0|] eqn:Hst.
  - destruct (decide (active_downloads st <> 0 \/ completed_files st = []))
      as [Hgo|Hstop].
    + destruct (monitor_iteration_goes_on E check_interval last_sizes w st
                  Hst Hgo) as (ls' & w1 & Heq & Hd & Hs & _).
      rewrite Heq in H.
      apply sleep_then_continue_raise in H as (-> & -> & Hi); [|done].
      simpl. split; [done|]. right. rewrite Hs in Hi. by rewrite Hs.
    + assert (Ha : active_downloads st = 0)
        by (destruct (decide (active_downloads st = 0)); tauto).
      rewrite monitor_iteration_run, Hst, Ha in H. simpl in H.
      destruct (completed_files st); [tauto|done].
  - rewrite monitor_iteration_run, Hst in H. injection H as <- <-.
    apply status_of_view_raise in Hst as [-> Hr]. simpl. auto.
  - by apply status_of_view_not_fuel in Hst.
Qed.

Lemma monitor_loop_raise (check_interval : Q) :
  (0 <= check_interval)%Q ->
  forall (fuel : nat) (last_sizes : gmap string sample) (w w' : world)
         (x : exn),
    monitor_loop E fuel check_interval last_sizes w = (Raise x, w') ->
    x = OSError /\ (dir_reads w < dir_reads w')%nat
    /\ readable (dirs E (pred (dir_reads w'))) = false
    \/ x = KeyboardInterrupt /\ (sleeps w < sleeps w')%nat
       /\ interrupt E (pred (sleeps w')) = true.
Proof.
  intros Hci. induction fuel as [|fuel IH]; intros ls w w' x H; [done|].
  rewrite monitor_loop_S in H.
  destruct (monitor_iteration E check_interval ls w)
    as [[[r|ls']|x0|] w1] eqn:Hit; try done.
  - apply monitor_iteration_inv in Hit as (Hd & st & _ & _ & Hs & _).
    apply IH in H as [(-> & ? & ?)|(-> & ? & ?)]; [left|right];
      repeat split; try done; lia.
  - injection H as <- <-.
    apply monitor_iteration_raise in Hit
      as (Hd & [(-> & Hs & Hr)|(-> & Hs & Hi)]); [| |done].
    + left. rewrite Hd. simpl. repeat split; try done. lia.
    + right. rewrite Hs. simpl. repeat split; try done. lia.
Qed.

(** What is known when the detailed loop stops, whichever way. *)
Lemma wait_detailed_loop_inv (start_time timeout : Q) :
  forall (fuel : nat) (w w' : world) (r : res (option bool)),
    wait_detailed_loop E fuel start_time timeout w = (r, w') ->
    match r with
    | Ret (Some b) =>
        b = true
        /\ exists k st,
             (dir_reads w <= k < dir_reads w')%nat
             /\ status_of_view (dirs E k) = Ret st
             /\ active_downloads st = 0
             /\ completed_files st <> []
    | Ret None =>
        (timeout <= clock E (pred (clock_reads w')) - start_time)%Q
    | Raise x =>
        x = OSError /\ (dir_reads w < dir_reads w')%nat
        /\ readable (dirs E (pred (dir_reads w'))) = false
        \/ x = KeyboardInterrupt /\ (sleeps w < sleeps w')%nat
           /\ interrupt E (pred (sleeps w')) = true
    | Fuel => True
    end.
Proof.
  assert (H5 : (0 <= 5)%Q) by (vm_compute; discriminate).
  induction fuel as [|fuel IH]; intros w w' r H.
  { injection H as <- <-. done. }
  rewrite wait_detailed_loop_S in H.
  destruct (Qltb (clock E (clock_reads w) - start_time) timeout) eqn:Hc;
    [|injection H as <- <-; simpl; by apply Qltb_ge].
  destruct (status_of_view (dirs E (dir_reads w))) as [st|x0|] eqn:Hst.
  - destruct ((active_downloads st =? 0)
              && negb (bool_decide (completed_files st = []))) eqn:Hdone.
    + injection H as <- <-. split; [done|].
      apply andb_true_iff in Hdone as [Ha Hne].
      apply Z.eqb_eq in Ha. apply negb_true_iff, bool_decide_eq_false in Hne.
      exists (dir_reads w), st. simpl. repeat split; try done; lia.
    + destruct (0 <? active_downloads st).
      * rewrite monitor_download_progress_run in H.
        destruct (monitor_loop E fuel 5 ∅ _) as [[b|x|] w1] eqn:Hm;
          injection H as <- <-.
        -- apply monitor_loop_return in Hm
             as (_ & k & st' & Hk & Hst' & Ha & Hne).
           split; [done|]. exists k, st'. simpl in Hk.
           repeat split; try done; lia.
        -- apply (monitor_loop_raise 5 H5) in Hm
             as [(-> & ? & ?)|(-> & ? & ?)]; simpl in *; [left|right];
             repeat split; try done; lia.
        -- done.
      * destruct (time_sleep E 5 _) as [rs w1] eqn:Hs.
        apply (time_sleep_inv _ _ _ _ _ H5) in Hs
          as (-> & [[-> Hi]|[-> Hi]]).
        -- apply IH in H. simpl in H.
           destruct r as [[b|]|x|]; try done.
           ++ destruct H as (-> & k & st' & Hk & ?). split; [done|].
              exists k, st'. split; [lia|done].
           ++ destruct H as [(? & ? & ?)|(? & ? & ?)]; [left|right];
                repeat split; try done; lia.
        -- injection H as <- <-. simpl. right. auto.
  - injection H as <- <-. apply status_of_view_raise in Hst as [-> Hr].
    simpl. left. repeat split; try done. lia.
  - by apply status_of_view_not_fuel in Hst.
Qed.

End Endings.







(** ** Completion *)

Lemma shows_completed_status (v : dir_view) (st : status) :
  shows_completed v = true ->
  status_of_view v = Ret st ->
  active_downloads st = 0 /\ completed_files st <> [].
Proof.
  destruct v as [| |l]; [done|done|]. intros Hsc Hst.
  apply andb_true_iff in Hsc as [Hnp Hf]. apply negb_true_iff in Hnp.
  pose proof (status_active_length _ _ Hst) as Hlen.
  apply status_of_entries in Hst as (Hp & Hc & Hr).
  assert (Hnone : forall e, e ∈ l ->
            PyStr.endswith (d_name e) crdownload = false).
  { intros e He.
    destruct (PyStr.endswith (d_name e) crdownload) eqn:Hs; [|done].
    assert (existsb (fun e => PyStr.endswith (d_name e) crdownload) l = true)
      by (apply existsb_exists; exists e; by rewrite <- list_elem_of_In).
    congruence. }
  split.
  - rewrite Hlen, Hp.
    destruct (omap partial_of l) as [|fi fis] eqn:Hfi; [done|].
    assert (Hin : fi ∈ omap partial_of l) by (rewrite Hfi; by left).
    apply list_elem_of_omap in Hin as (e & He & Hpe).
    apply partial_of_Some in Hpe as (Hs & _). rewrite (Hnone e He) in Hs.
    done.
  - apply existsb_exists in Hf as (e & He & Hfile).
    apply list_elem_of_In in He.
    destruct (complete_of_is_Some e (Hnone e He) Hfile
                (entry_readable l e Hr He)) as [ci Hci].
    intros Hnil.
    assert (Hin : ci ∈ completed_files st)
      by (rewrite Hc; apply list_elem_of_omap; by exists e).
    rewrite Hnil in Hin. by apply elem_of_nil in Hin.
Qed.

Lemma monitor_loop_completes (E : env) (check_interval : Q) :
  (0 <= check_interval)%Q ->
  forall (k fuel : nat) (last_sizes : gmap string sample) (w : world),
    (forall j, (j < k)%nat ->
       (shows_partial (dirs E (dir_reads w + j)) = true
        \/ shows_nothing (dirs E (dir_reads w + j)) = true)
       /\ readable (dirs E (dir_reads w + j)) = true
       /\ interrupt E (sleeps w + j) = false) ->
    shows_completed (dirs E (dir_reads w + k)) = true ->
    readable (dirs E (dir_reads w + k)) = true ->
    (k < fuel)%nat ->
    exists w',
      monitor_loop E fuel check_interval last_sizes w = (Ret true, w')
      /\ dir_reads w' = (dir_reads w + S k)%nat
      /\ sleeps w' = (sleeps w + k)%nat.
Proof.
  intros Hci. induction k as [|k IH]; intros fuel ls w Hbusy Hsc Hr Hk;
    (destruct fuel as [|fuel]; [lia|]); rewrite monitor_loop_S.
  - rewrite Nat.add_0_r in Hsc, Hr.
    destruct (readable_view_returns _ Hr) as [st Hst].
    destruct (shows_completed_status _ _ Hsc Hst) as [Ha Hne].
    rewrite monitor_iteration_run, Hst, Ha. simpl.
    destruct (completed_files st) as [|c cs] eqn:Hc; [done|].
    eexists. split; [reflexivity|]. simpl. split; lia.
  - destruct (Hbusy 0%nat ltac:(lia)) as (Hshow & Hr0 & Hi).
    rewrite Nat.add_0_r in Hshow, Hr0, Hi.
    destruct (readable_view_returns _ Hr0) as [st Hst].
    assert (Hgo : active_downloads st <> 0 \/ completed_files st = []).
    { destruct Hshow as [Hp|Hn].
      - left. pose proof (shows_partial_status _ _ Hp Hst). lia.
      - right. rewrite (shows_nothing_status _ Hn) in Hst.
        by injection Hst as <-. }
    destruct (monitor_iteration_goes_on E check_interval ls w st Hst Hgo)
      as (ls' & w1 & -> & Hd & Hs & _).
    rewrite <- Hs in Hi.
    rewrite (sleep_then_continue_ok E check_interval ls' w1 Hci Hi).
    destruct (IH fuel ls' (slept w1)) as (w' & -> & Hd' & Hs').
    + intros j Hj. specialize (Hbusy (S j) ltac:(lia)).
      cbn [dir_reads sleeps slept]. rewrite Hd, Hs.
      replace (S (dir_reads w) + j)%nat with (dir_reads w + S j)%nat by lia.
      by replace (S (sleeps w) + j)%nat with (sleeps w + S j)%nat by lia.
    + cbn [dir_reads slept]. rewrite Hd.
      by replace (S (dir_reads w) + k)%nat with (dir_reads w + S k)%nat
        by lia.
    + cbn [dir_reads slept]. rewrite Hd.
      by replace (S (dir_reads w) + k)%nat with (dir_reads w + S k)%nat
        by lia.
    + lia.
    + exists w'. split; [done|]. simpl in *. split; lia.
Qed.

(** [monitor_download_progress] returns [True] at the first snapshot
    that lists no partial download and at least one regular file: after
    [k] snapshots that showed a partial download or nothing (none
    failing, no sleep interrupted), that snapshot ends the loop, [k + 1]
    snapshots and [k] sleeps after its start. *)
Theorem monitor_returns_at_first_completion (E : env) (check_interval : Q)
    (w : world) (k fuel : nat) :
  (0 <= check_interval)%Q ->
  (forall j, (j < k)%nat ->
     (shows_partial (dirs E (dir_reads w + j)) = true
      \/ shows_nothing (dirs E (dir_reads w + j)) = true)
     /\ readable (dirs E (dir_reads w + j)) = true
     /\ interrupt E (sleeps w + j) = false) ->
  shows_completed (dirs E (dir_reads w + k)) = true ->
  readable (dirs E (dir_reads w + k)) = true ->
  (k < fuel)%nat ->
  exists w',
    monitor_download_progress E fuel check_interval w = (Ret true, w')
    /\ dir_reads w' = (dir_reads w + S k)%nat
    /\ sleeps w' = (sleeps w + k)%nat.
Proof.
  intros Hci Hbusy Hsc Hr Hk. rewrite monitor_download_progress_run.
  exact (monitor_loop_completes E check_interval Hci k fuel ∅
           (printed StartingMonitoring w) Hbusy Hsc Hr Hk).
Qed.

Lemma monitor_returns_at_first_completion_witness :
  (0 <= 5)%Q
  /\ shows_completed (dirs env_finishing (dir_reads world0 + 2)) = true
  /\ readable (dirs env_finishing (dir_reads world0 + 2)) = true
  /\ exists w',
       monitor_download_progress env_finishing 3 5 world0 = (Ret true, w')
       /\ dir_reads w' = 3%nat
       /\ sleeps w' = 2%nat.
Proof.
  assert (H5 : (0 <= 5)%Q) by (vm_compute; discriminate).
  split; [exact H5|]. split; [reflexivity|]. split; [reflexivity|].
  refine (monitor_returns_at_first_completion env_finishing 5 world0 2 3
            H5 _ eq_refl eq_refl _).
  - intros j Hj. destruct j as [|[|j]]; [| |lia];
      (split; [left; reflexivity|split; reflexivity]).
  - lia.
Defined.

(** ** The samples kept in [last_sizes] *)

Section Samples.

Variable E : env.

(** As [report_all_samples], with the clock reading that was stored. *)
Lemma report_all_samples_clock (l : list progress_info) :
  NoDup (map p_name l) ->
  forall ls w ls' w',
    report_all E l ls w = (Ret ls', w') ->
    forall fi, fi ∈ l ->
      exists n, (clock_reads w <= n < clock_reads w')%nat
                /\ ls' !! p_name fi
                   = Some (Sample (p_current_size fi) (clock E n)).
Proof.
  induction l as [|fi0 l IH]; intros Hnd ls w ls' w' H fi Hfi.
  - by apply elem_of_nil in Hfi.
  - simpl in Hnd. apply NoDup_cons in Hnd as [Hnotin Hnd].
    simpl in H. unfold bind at 1 in H. rewrite report_progress_run in H.
    destruct (ls !! p_name fi0) as [last|];
      match type of H with report_all E l ?ls1 ?w1 = _ =>
        destruct (report_all_ret E l ls1 w1)
          as (ls2 & w2 & Heq & _ & _ & Hcr & _);
        rewrite Heq in H; injection H as <- <-;
        apply elem_of_cons in Hfi as [->|Hfi];
        [ rewrite (report_all_other E l _ Hnotin _ _ _ _ Heq),
            lookup_insert_eq;
          eexists; split; [|reflexivity]; simpl in Hcr; lia
        | destruct (IH Hnd _ _ _ _ Heq fi Hfi) as (n & Hn & Hl);
          exists n; split; [simpl in Hn; lia|done] ]
      end.
Qed.

Lemma monitor_iteration_continue_inv (check_interval : Q)
    (last_sizes last_sizes' : gmap string sample) (w w' : world) :
  monitor_iteration E check_interval last_sizes w
  = (Ret (Continue last_sizes'), w') ->
  exists st w1,
    status_of_view (dirs E (dir_reads w)) = Ret st
    /\ report_all E (in_progress_files st) last_sizes
         (printed (if active_downloads st =? 0 then NoActiveDownloadsYet
                   else ActiveDownloads (active_downloads st))
                  (looked w))
       = (Ret last_sizes', w1)
    /\ w' = slept w1.
Proof.
  intros H. rewrite monitor_iteration_run in H.
  destruct (status_of_view (dirs E (dir_reads w))) as [st|x|] eqn:Hst;
    try done.
  pose proof (status_active_length _ _ Hst) as Hlen.
  destruct (active_downloads st =? 0) eqn:Ha.
  - apply Z.eqb_eq in Ha.
    destruct (completed_files st); [|done].
    apply sleep_then_continue_inv in H as [[= <-] ->].
    destruct (in_progress_files st) as [|fi fis] eqn:Hfi;
      [|simpl in Hlen; lia].
    exists st, (printed NoActiveDownloadsYet (looked w)).
    rewrite Hfi, Ha. done.
  - destruct (report_all E (in_progress_files st) last_sizes _)
      as [[ls1|x|] w1] eqn:Hra; try done.
    apply sleep_then_continue_inv in H as [[= <-] ->].
    exists st, w1. by rewrite Ha.
Qed.

End Samples.

(** Over a tick of [monitor_download_progress] that goes on to the next,
    [last_sizes] changes only at the names listed in progress: every
    other name keeps the sample it had (none is ever deleted), and, the
    listed names being distinct, each of them gets a sample made of its
    current size and of a clock value read during the tick. *)
Theorem samples_after_tick (E : env) (check_interval : Q)
    (last_sizes last_sizes' : gmap string sample) (w w' : world) :
  monitor_iteration E check_interval last_sizes w
  = (Ret (Continue last_sizes'), w') ->
  exists st,
    status_of_view (dirs E (dir_reads w)) = Ret st
    /\ (forall name,
          name ∉ map p_name (in_progress_files st) ->
          last_sizes' !! name = last_sizes !! name)
    /\ (NoDup (map p_name (in_progress_files st)) ->
        forall fi, fi ∈ in_progress_files st ->
          exists n,
            (clock_reads w <= n < clock_reads w')%nat
            /\ last_sizes' !! p_name fi
               = Some (Sample (p_current_size fi) (clock E n))).
Proof.
  intros H.
  apply monitor_iteration_continue_inv in H as (st & w1 & Hst & Hra & ->).
  exists st. split; [done|]. split.
  - intros name Hname.
    exact (report_all_other E _ name Hname _ _ _ _ Hra).
  - intros Hnd fi Hfi.
    destruct (report_all_samples_clock E _ Hnd _ _ _ _ Hra fi Hfi)
      as (n & Hn & Hl).
    exists n. split; [simpl in *; lia|done].
Qed.

Lemma samples_after_tick_witness :
  monitor_iteration env_stuck 5 ∅ world0
  = (Ret (Continue {[ "scene.zip" := Sample 1000 0 ]}),
     World 1 1 1 [ActiveDownloads 1; StartingLine "scene.zip" (Qmake 0 100)])
  /\ ({[ "scene.zip" := Sample 1000 0 ]} : gmap string sample)
       !! "before_download.png"
     = (∅ : gmap string sample) !! "before_download.png"
  /\ exists n,
       (0 <= n < 1)%nat
       /\ ({[ "scene.zip" := Sample 1000 0 ]} : gmap string sample)
            !! "scene.zip"
          = Some (Sample 1000 (clock env_stuck n)).
Proof.
  assert (Hrun : monitor_iteration env_stuck 5 ∅ world0
                 = (Ret (Continue {[ "scene.zip" := Sample 1000 0 ]}),
                    World 1 1 1 [ActiveDownloads 1;
                                 StartingLine "scene.zip" (Qmake 0 100)]))
    by reflexivity.
  split; [exact Hrun|].
  destruct (samples_after_tick env_stuck 5 ∅ _ world0 _ Hrun)
    as (st & Hst & Hother & Hlisted).
  injection Hst as <-. split.
  - apply Hother. simpl. intros Hin.
    apply list_elem_of_singleton in Hin. discriminate Hin.
  - apply (Hlisted ltac:(apply NoDup_singleton)
             (ProgressInfo "scene.zip" "scene.zip.crdownload" 1000
                           (Qmake 0 100))).
    apply list_elem_of_singleton. reflexivity.
Defined.

(** ** Steps of [download_file] *)

Section Quiet.

Variable X : externals.
Variable E : env.

Lemma quiet_weaken {A} (a b a' b' : nat) (m : D A) :
  (a <= a')%nat -> (b <= b')%nat -> quiet a b m -> quiet a' b' m.
Proof.
  intros Ha Hb Hm s r s' H.
  destruct (Hm s r s' H) as (? & ? & ? & ? & ? & ?).
  repeat split; try done; lia.
Qed.

Lemma quiet_dret {A} (x : A) : quiet 0 0 (dret x).
Proof. intros s r s' [= <- <-]. repeat split; try done; lia. Qed.

Lemma quiet_fail {A} (f : failure) : quiet 0 0 (@fail A f).
Proof. intros s r s' [= <- <-]. repeat split; try done; lia. Qed.

Lemma quiet_say (e : dl_event) : quiet 0 0 (say e).
Proof. intros s r s' [= <- <-]. repeat split; try done; simpl; lia. Qed.

Lemma quiet_call (answer : option failure) : quiet 0 0 (call answer).
Proof.
  intros s r s'. unfold call.
  destruct answer; intros [= <- <-]; repeat split; try done; lia.
Qed.

Lemma quiet_get_driver : quiet 0 0 get_driver.
Proof. intros s r s' [= <- <-]. repeat split; try done; lia. Qed.

Lemma quiet_set_driver : quiet 0 0 set_driver.
Proof. intros s r s' [= <- <-]. repeat split; try done; simpl; lia. Qed.

Lemma quiet_dbind {A B} (a1 b1 a2 b2 : nat) (m : D A) (k : A -> D B) :
  quiet a1 b1 m -> (forall x, quiet a2 b2 (k x)) ->
  quiet (a1 + a2) (b1 + b2) (dbind m k).
Proof.
  intros Hm Hk s r s'. unfold dbind.
  destruct (m s) as [[x|f|] s1] eqn:H1;
    destruct (Hm _ _ _ H1) as (Hr & Hd & Hc & Ho & Hs & Hl).
  - intros H2. destruct (Hk x _ _ _ H2) as (? & ? & ? & ? & ? & ?).
    repeat split; try done; try lia; try congruence. auto.
  - intros [= <- <-]. repeat split; try done; lia.
  - done.
Qed.

Lemma quiet_when (a b : nat) (c : bool) (m : D unit) :
  quiet a b m -> quiet a b (when c m).
Proof.
  intros Hm. destruct c; [done|].
  apply (quiet_weaken 0 0); [lia|lia|apply quiet_dret].
Qed.

Lemma quiet_try_except {A} (a1 b1 a2 b2 : nat) (m : D A)
    (handles : failure -> bool) (handler : failure -> D A) :
  quiet a1 b1 m -> (forall f, quiet a2 b2 (handler f)) ->
  quiet (a1 + a2) (b1 + b2) (try_except m handles handler).
Proof.
  intros Hm Hh s r s'. unfold try_except.
  destruct (m s) as [[x|f|] s1] eqn:H1;
    destruct (Hm _ _ _ H1) as (Hr & Hd & Hc & Ho & Hs & Hl).
  - intros [= <- <-]. repeat split; try done; lia.
  - destruct (handles f).
    + intros H2. destruct (Hh f _ _ _ H2) as (? & ? & ? & ? & ? & ?).
      repeat split; try done; try lia; try congruence. auto.
    + intros [= <- <-]. repeat split; try done; lia.
  - done.
Qed.

Lemma quiet_sleep (secs : Q) : quiet 1 0 (in_world (time_sleep E secs)).
Proof.
  intros s r s'. unfold in_world, time_sleep.
  destruct (Qltb secs 0); [|destruct (interrupt E (sleeps (s_world s)))];
    intros [= <- <-]; repeat split; try done; simpl; lia.
Qed.

Lemma quiet_listed_names : quiet 0 1 (listed_names E).
Proof.
  intros s r s'. unfold listed_names, dbind, in_world, look. simpl.
  destruct (dirs E (dir_reads (s_world s))); intros [= <- <-];
    repeat split; try done; simpl; lia.
Qed.

Lemma quiet_poll (initial_files : gset string) (rounds : nat) :
  quiet rounds rounds (poll_for_start E rounds initial_files).
Proof.
  induction rounds as [|n IH]; simpl; [apply quiet_dret|].
  apply (quiet_weaken (1 + (0 + n)) (0 + (1 + n))); [lia|lia|].
  apply (quiet_dbind 1 0 (0 + n) (1 + n)); [apply quiet_sleep|]. intros _.
  apply (quiet_dbind 0 1 n n); [apply quiet_listed_names|].
  intros current.
  destruct (negb (bool_decide (current ∖ initial_files = ∅))
            || negb (bool_decide
                       (filter (fun f => PyStr.endswith f crdownload = true)
                               current = ∅))); [|exact IH].
  apply (quiet_weaken 0 0); [lia|lia|].
  apply (quiet_dbind 0 0 0 0); [apply quiet_when, quiet_say|]. intros _.
  apply (quiet_dbind 0 0 0 0); [apply quiet_when, quiet_say|]. intros _.
  apply quiet_dret.
Qed.

Lemma quiet_ask_browser : quiet 0 0 (ask_browser X).
Proof.
  unfold ask_browser. destruct (execute_script X) as [f|v];
    [apply quiet_dret|].
  destruct (truthy v); [|apply quiet_dret].
  destruct v; [|apply quiet_dret].
  apply (quiet_dbind 0 0 0 0); [apply quiet_say|]. intros _.
  apply quiet_dret.
Qed.

Lemma quiet_download_failed (wait_timeout : Z) (e : failure) :
  quiet 0 0 (download_failed wait_timeout e).
Proof.
  unfold download_failed.
  destruct e as [[]|[]];
    (apply (quiet_dbind 0 0 0 0); [apply quiet_say|]; intros _;
     apply quiet_dret).
Qed.

Lemma quiet_start_download (download_dir url xpath : string) :
  quiet 10 11 (start_download X E download_dir url xpath).
Proof.
  unfold start_download.
  repeat (apply (quiet_dbind 0 0 10 11);
          [first [apply quiet_say|apply quiet_call]|]; intros _).
  apply (quiet_dbind 0 1 10 10); [apply quiet_listed_names|].
  intros initial_files.
  repeat (apply (quiet_dbind 0 0 10 10);
          [first [apply quiet_say|apply quiet_call]|]; intros _).
  apply (quiet_dbind 10 10 0 0); [apply quiet_poll|]. intros [b|].
  - apply quiet_dret.
  - apply (quiet_dbind 0 0 0 0); [apply quiet_ask_browser|]. intros [b|].
    + apply quiet_dret.
    + apply (quiet_dbind 0 0 0 0); [apply quiet_say|]. intros _.
      apply quiet_dret.
Qed.

Lemma quiet_setup_driver (download_dir : string) (headless : bool) :
  quiet 0 0 (setup_driver X download_dir headless).
Proof.
  unfold setup_driver.
  apply (quiet_try_except 0 0 0 0).
  - apply (quiet_dbind 0 0 0 0); [apply quiet_call|]. intros _.
    apply (quiet_dbind 0 0 0 0); [apply quiet_set_driver|]. intros _.
    apply quiet_say.
  - intros f. apply (quiet_dbind 0 0 0 0); [apply quiet_say|]. intros _.
    apply quiet_fail.
Qed.

Lemma quiet_download_file (download_dir : string) (headless : bool)
    (url xpath : string) (wait_timeout : Z) :
  quiet 10 11
    (download_file X E download_dir headless url xpath wait_timeout).
Proof.
  unfold download_file.
  apply (quiet_dbind 0 0 10 11); [apply quiet_get_driver|]. intros d.
  apply (quiet_dbind 0 0 10 11);
    [apply quiet_when, quiet_setup_driver|]. intros _.
  apply (quiet_try_except 10 11 0 0);
    [apply quiet_start_download|apply quiet_download_failed].
Qed.

Lemma quiet_close : quiet 0 0 (close X).
Proof.
  unfold close.
  apply (quiet_dbind 0 0 0 0); [apply quiet_get_driver|]. intros d.
  apply quiet_when.
  apply (quiet_dbind 0 0 0 0); [apply quiet_call|]. intros _.
  apply quiet_say.
Qed.

End Quiet.

(** ** The polling loop of [download_file] *)

Section Polling.

Variable E : env.

Lemma poll_for_start_S (rounds : nat) (initial_files : gset string)
    (s : session) :
  poll_for_start E (S rounds) initial_files s =
  let w1 := slept (s_world s) in
  if interrupt E (sleeps (s_world s)) then
    (Failed (Python KeyboardInterrupt), in_the_world w1 s)
  else
    match dirs E (dir_reads (s_world s)) with
    | Unlistable => (Failed (Python OSError), in_the_world (looked w1) s)
    | v =>
        if start_detected initial_files v then
          (Done (Some true),
           logged (detection_report initial_files v)
                  (in_the_world (looked w1) s))
        else
          poll_for_start E rounds initial_files (in_the_world (looked w1) s)
    end.
Proof.
  cbn [poll_for_start]. unfold dbind at 1, in_world at 1, time_sleep.
  change (Qltb 1 0) with false. cbn iota.
  destruct (interrupt E (sleeps (s_world s))); [reflexivity|].
  cbn zeta. unfold dbind at 1, listed_names, dbind at 1, in_world at 1, look.
  cbn [s_world dir_reads slept].
  assert (Hgen : forall (current : gset string) (s1 : session),
            (if negb (bool_decide (current ∖ initial_files = ∅))
                || negb (bool_decide
                           (filter
                              (fun f => PyStr.endswith f crdownload = true)
                              current = ∅))
             then
               dbind (when (negb (bool_decide
                                    (filter
                                       (fun f =>
                                          PyStr.endswith f crdownload = true)
                                       current = ∅)))
                           (say (PartialFilesDetected
                                   (filter
                                      (fun f =>
                                         PyStr.endswith f crdownload = true)
                                      current))))
                 (fun _ =>
                    dbind (when (negb (bool_decide
                                         (current ∖ initial_files = ∅)))
                                (say (NewFilesDetected
                                        (current ∖ initial_files))))
                      (fun _ => dret (Some true)))
             else poll_for_start E rounds initial_files) s1
            = if negb (bool_decide (current ∖ initial_files = ∅))
                 || negb (bool_decide
                            (filter
                               (fun f => PyStr.endswith f crdownload = true)
                               current = ∅))
              then
                (Done (Some true),
                 logged
                   ((if bool_decide
                          (filter
                             (fun f => PyStr.endswith f crdownload = true)
                             current = ∅)
                     then [] else
                       [PartialFilesDetected
                          (filter
                             (fun f => PyStr.endswith f crdownload = true)
                             current)])
                    ++ (if bool_decide (current ∖ initial_files = ∅)
                        then [] else
                          [NewFilesDetected (current ∖ initial_files)]))
                   s1)
              else poll_for_start E rounds initial_files s1).
  { intros current s1.
    destruct (bool_decide (current ∖ initial_files = ∅)),
      (bool_decide (filter _ current = ∅)); simpl; try reflexivity;
      unfold dbind, say, dret, logged; simpl;
      rewrite <- ?app_assoc, ?app_nil_r; reflexivity. }
  destruct (dirs E (dir_reads (s_world s))) as [| |l]; cbn iota.
  - unfold dret at 1. cbn iota beta. apply Hgen.
  - reflexivity.
  - unfold dret at 1. cbn iota beta. apply Hgen.
Qed.

End Polling.

Section PollingRuns.

Variable E : env.

(** Rounds in which nothing is detected, the sleep is not interrupted and
    the directory can be listed. *)
Lemma poll_for_start_idle (initial_files : gset string) (k : nat) :
  forall (rounds : nat) (s : session),
    (forall j, (j < k)%nat ->
       interrupt E (sleeps (s_world s) + j) = false
       /\ dirs E (dir_reads (s_world s) + j) <> Unlistable
       /\ start_detected initial_files
            (dirs E (dir_reads (s_world s) + j)) = false) ->
    poll_for_start E (k + rounds) initial_files s
    = poll_for_start E rounds initial_files
        (in_the_world
           (World (clock_reads (s_world s)) (dir_reads (s_world s) + k)
                  (sleeps (s_world s) + k) (output (s_world s))) s).
Proof.
  induction k as [|k IH]; intros rounds s Hidle.
  - rewrite !Nat.add_0_r. by destruct s as [[] ? ?].
  - destruct (Hidle 0%nat ltac:(lia)) as (Hi & Hu & Hd).
    rewrite Nat.add_0_r in Hi, Hu, Hd.
    change (S k + rounds)%nat with (S (k + rounds)).
    rewrite poll_for_start_S. cbn zeta. rewrite Hi.
    assert (Hrest : poll_for_start E (k + rounds) initial_files
                      (in_the_world (looked (slept (s_world s))) s)
                    = poll_for_start E rounds initial_files
                        (in_the_world
                           (World (clock_reads (s_world s))
                                  (dir_reads (s_world s) + S k)
                                  (sleeps (s_world s) + S k)
                                  (output (s_world s))) s)).
    { rewrite IH.
      - unfold in_the_world; simpl. do 2 f_equal. f_equal; lia.
      - intros j Hj. specialize (Hidle (S j) ltac:(lia)).
        cbn [in_the_world s_world looked slept dir_reads sleeps].
        replace (S (sleeps (s_world s)) + j)%nat
          with (sleeps (s_world s) + S j)%nat by lia.
        by replace (S (dir_reads (s_world s)) + j)%nat
          with (dir_reads (s_world s) + S j)%nat by lia. }
    destruct (dirs E (dir_reads (s_world s))) as [| |l] eqn:Hv; [|done|];
      by rewrite Hd.
Qed.

(** What is known when the polling loop stops, whichever way. *)
Lemma poll_for_start_inv (initial_files : gset string) :
  forall (rounds : nat) (s s' : session) (r : outcome (option bool)),
    poll_for_start E rounds initial_files s = (r, s') ->
    match r with
    | Done (Some b) =>
        b = true
        /\ exists j,
             (j < rounds)%nat
             /\ sleeps (s_world s') = (sleeps (s_world s) + S j)%nat
             /\ start_detected initial_files
                  (dirs E (dir_reads (s_world s) + j)) = true
    | Done None =>
        sleeps (s_world s') = (sleeps (s_world s) + rounds)%nat
        /\ forall j, (j < rounds)%nat ->
             start_detected initial_files
               (dirs E (dir_reads (s_world s) + j)) = false
    | Failed f =>
        f = Python OSError
        /\ (dir_reads (s_world s) < dir_reads (s_world s'))%nat
        /\ dirs E (pred (dir_reads (s_world s'))) = Unlistable
        \/ f = Python KeyboardInterrupt
           /\ (sleeps (s_world s) < sleeps (s_world s'))%nat
           /\ interrupt E (pred (sleeps (s_world s'))) = true
    | Running => False
    end.
Proof.
  induction rounds as [|n IH]; intros s s' r H.
  { injection H as <- <-. split; [lia|]. intros j Hj. lia. }
  rewrite poll_for_start_S in H. cbn zeta in H.
  destruct (interrupt E (sleeps (s_world s))) eqn:Hi.
  { injection H as <- <-. right. simpl. repeat split; try done. lia. }
  assert (Hstep : forall v,
            dirs E (dir_reads (s_world s)) = v -> v <> Unlistable ->
            (if start_detected initial_files v
             then (Done (Some true),
                   logged (detection_report initial_files v)
                          (in_the_world (looked (slept (s_world s))) s))
             else poll_for_start E n initial_files
                    (in_the_world (looked (slept (s_world s))) s))
            = (r, s') ->
            match r with
            | Done (Some b) =>
                b = true
                /\ exists j,
                     (j < S n)%nat
                     /\ sleeps (s_world s') = (sleeps (s_world s) + S j)%nat
                     /\ start_detected initial_files
                          (dirs E (dir_reads (s_world s) + j)) = true
            | Done None =>
                sleeps (s_world s') = (sleeps (s_world s) + S n)%nat
                /\ forall j, (j < S n)%nat ->
                     start_detected initial_files
                       (dirs E (dir_reads (s_world s) + j)) = false
            | Failed f =>
                f = Python OSError
                /\ (dir_reads (s_world s) < dir_reads (s_world s'))%nat
                /\ dirs E (pred (dir_reads (s_world s'))) = Unlistable
                \/ f = Python KeyboardInterrupt
                   /\ (sleeps (s_world s) < sleeps (s_world s'))%nat
                   /\ interrupt E (pred (sleeps (s_world s'))) = true
            | Running => False
            end).
  { intros v Hv Hnu Hrun.
    destruct (start_detected initial_files v) eqn:Hd.
    - injection Hrun as <- <-. split; [done|]. exists 0%nat.
      rewrite Nat.add_0_r, Hv. simpl. repeat split; try done; lia.
    - apply IH in Hrun. simpl in Hrun.
      destruct r as [[b|]|f|]; try done.
      + destruct Hrun as (-> & j & Hj & Hs & Hdj). split; [done|].
        exists (S j). split; [lia|]. split; [lia|].
        replace (dir_reads (s_world s) + S j)%nat
          with (S (dir_reads (s_world s)) + j)%nat by lia.
        exact Hdj.
      + destruct Hrun as (Hs & Hall). split; [lia|].
        intros j Hj. destruct j as [|j].
        * by rewrite Nat.add_0_r, Hv.
        * replace (dir_reads (s_world s) + S j)%nat
            with (S (dir_reads (s_world s)) + j)%nat by lia.
          apply Hall. lia.
      + destruct Hrun as [(? & ? & ?)|(? & ? & ?)]; [left|right];
          repeat split; try done; lia. }
  destruct (dirs E (dir_reads (s_world s))) as [| |l] eqn:Hv.
  - by apply (Hstep Missing).
  - injection H as <- <-. left. simpl. rewrite Hv.
    repeat split; try done. lia.
  - by apply (Hstep (Entries l)).
Qed.

End PollingRuns.

(** ** [download_file], step by step *)

Section DownloadFile.

Variable X : externals.
Variable E : env.
Variable download_dir : string.
Variable headless : bool.
Variable url xpath : string.

Lemma ask_browser_run (s : session) :
  ask_browser X s =
  match execute_script X with
  | inr (Sized (S n)) =>
      (Done (Some true), logged [BrowserReportsDownloads (S n)] s)
  | _ => (Done None, s)
  end.
Proof.
  unfold ask_browser.
  destruct (execute_script X) as [f|[[|n]|[]]]; reflexivity.
Qed.

Lemma start_download_prelude_fails (f : failure) (s : session) :
  prelude_failure X download_dir url xpath = Some f ->
  exists es,
    start_download X E download_dir url xpath s = (Failed f, logged es s).
Proof.
  unfold prelude_failure, start_download. cbn zeta.
  unfold dbind, say, call, logged; simpl.
  destruct (driver_get X url) as [f1|].
  { intros [= ->]. eexists. reflexivity. }
  destruct (body_present X) as [f2|].
  { intros [= ->]. eexists. reflexivity. }
  destruct (save_screenshot X _) as [f3|].
  { intros [= ->]. eexists. reflexivity. }
  intros ->. simpl. rewrite <- !app_assoc. eexists. reflexivity.
Qed.

Lemma start_download_run (s : session) :
  prelude_failure X download_dir url xpath = None ->
  let before_click :=
    in_the_world (looked (s_world s))
      (logged [NavigatingTo url;
               ScreenshotSaved (path_join download_dir "before_download.png");
               LookingForButton xpath; ButtonFoundClicking] s) in
  start_download X E download_dir url xpath s =
  match dirs E (dir_reads (s_world s)) with
  | Unlistable => (Failed (Python OSError), before_click)
  | v =>
      match button_click X with
      | Some f => (Failed f, before_click)
      | None =>
          match poll_for_start E 10 (names_of_view v)
                  (logged [CheckingForInitiation] before_click) with
          | (Done (Some b), s2) => (Done b, s2)
          | (Done None, s2) =>
              match execute_script X with
              | inr (Sized (S n)) =>
                  (Done true, logged [BrowserReportsDownloads (S n)] s2)
              | _ => (Done false, logged [NoDownloadActivity] s2)
              end
          | (Failed f, s2) => (Failed f, s2)
          | (Running, s2) => (Running, s2)
          end
      end
  end.
Proof.
  intros Hp before_click. subst before_click.
  assert (H1 : driver_get X url = None)
    by (unfold prelude_failure in Hp; by destruct (driver_get X url)).
  assert (H2 : body_present X = None)
    by (unfold prelude_failure in Hp; rewrite H1 in Hp;
        by destruct (body_present X)).
  assert (H3 : save_screenshot X
                 (path_join download_dir "before_download.png") = None)
    by (unfold prelude_failure in Hp; rewrite H1, H2 in Hp;
        by destruct (save_screenshot X _)).
  assert (H4 : button_clickable X xpath = None)
    by (unfold prelude_failure in Hp; by rewrite H1, H2, H3 in Hp).
  unfold start_download. cbn zeta.
  assert (Htail : forall (initial_files : gset string) (s1 : session),
            dbind (poll_for_start E 10 initial_files)
              (fun started =>
                 match started with
                 | Some b => dret b
                 | None =>
                     dbind (ask_browser X)
                       (fun reported =>
                          match reported with
                          | Some b => dret b
                          | None =>
                              dbind (say NoDownloadActivity)
                                (fun _ => dret false)
                          end)
                 end) s1
            = match poll_for_start E 10 initial_files s1 with
              | (Done (Some b), s2) => (Done b, s2)
              | (Done None, s2) =>
                  match execute_script X with
                  | inr (Sized (S n)) =>
                      (Done true, logged [BrowserReportsDownloads (S n)] s2)
                  | _ => (Done false, logged [NoDownloadActivity] s2)
                  end
              | (Failed f, s2) => (Failed f, s2)
              | (Running, s2) => (Running, s2)
              end).
  { intros initial_files s1. unfold dbind at 1.
    destruct (poll_for_start E 10 initial_files s1) as [[[b|]|f|] s2];
      try reflexivity.
    unfold dbind at 1. rewrite ask_browser_run.
    destruct (execute_script X) as [f|[[|n]|[]]]; reflexivity. }
  unfold dbind at 1, say at 1. unfold dbind at 1, call at 1. rewrite H1.
  unfold dbind at 1, call at 1. rewrite H2.
  unfold dbind at 1, call at 1. rewrite H3.
  unfold dbind at 1, say at 1. unfold dbind at 1, say at 1.
  unfold dbind at 1, call at 1. rewrite H4.
  unfold dbind at 1, say at 1.
  unfold dbind at 1, listed_names, dbind at 1, in_world at 1, look.
  cbn [s_world s_driver s_log dir_reads].
  assert (Hclick : forall (initial_files : gset string) (s0 : session),
            dbind (call (button_click X))
              (fun _ =>
                 dbind (say CheckingForInitiation)
                   (fun _ =>
                      dbind (poll_for_start E 10 initial_files)
                        (fun started =>
                           match started with
                           | Some b => dret b
                           | None =>
                               dbind (ask_browser X)
                                 (fun reported =>
                                    match reported with
                                    | Some b => dret b
                                    | None =>
                                        dbind (say NoDownloadActivity)
                                          (fun _ => dret false)
                                    end)
                           end))) s0
            = match button_click X with
              | Some f => (Failed f, s0)
              | None =>
                  match poll_for_start E 10 initial_files
                          (logged [CheckingForInitiation] s0) with
                  | (Done (Some b), s2) => (Done b, s2)
                  | (Done None, s2) =>
                      match execute_script X with
                      | inr (Sized (S n)) =>
                          (Done true,
                           logged [BrowserReportsDownloads (S n)] s2)
                      | _ => (Done false, logged [NoDownloadActivity] s2)
                      end
                  | (Failed f, s2) => (Failed f, s2)
                  | (Running, s2) => (Running, s2)
                  end
              end).
  { intros initial_files s0. unfold dbind at 1, call at 1.
    destruct (button_click X) as [f|]; [reflexivity|].
    unfold dbind at 1, say at 1. apply Htail. }
  match goal with |- context [Session ?w ?d ?l] =>
    replace (Session w d l)
      with (in_the_world (looked (s_world s))
              (logged [NavigatingTo url;
                       ScreenshotSaved
                         (path_join download_dir "before_download.png");
                       LookingForButton xpath; ButtonFoundClicking] s))
      by (unfold in_the_world, logged; cbn [s_world s_driver s_log];
          by rewrite <- !app_assoc)
  end.
  destruct (dirs E (dir_reads (s_world s))) as [| |l]; cbn iota.
  - unfold dret at 1. cbn iota beta. apply Hclick.
  - reflexivity.
  - unfold dret at 1. cbn iota beta. apply Hclick.
Qed.

Lemma download_file_run (wait_timeout : Z) (s : session) :
  s_driver s = true ->
  download_file X E download_dir headless url xpath wait_timeout s =
  match start_download X E download_dir url xpath s with
  | (Failed f, s1) =>
      if is_Exception f
      then (Done false, logged [failure_line wait_timeout f] s1)
      else (Failed f, s1)
  | r => r
  end.
Proof.
  intros Hd. unfold download_file, dbind at 1, get_driver. rewrite Hd.
  cbn [negb when]. unfold dbind at 1, dret at 1, try_except.
  destruct (start_download X E download_dir url xpath s)
    as [[b|f|] s1]; try reflexivity.
  destruct (is_Exception f); [|reflexivity].
  destruct f as [[]|[]]; reflexivity.
Qed.

End DownloadFile.

(** ** What [download_file] returns *)


Lemma shows_partial_detected (initial_files : gset string) (v : dir_view) :
  shows_partial v = true -> start_detected initial_files v = true.
Proof.
  destruct v as [| |l]; [done|done|]. simpl. intros Hex.
  apply existsb_exists in Hex as (e & Hin & Hs).
  unfold start_detected. apply orb_true_iff. right.
  apply negb_true_iff, bool_decide_eq_false. intros Hempty.
  assert (Hel : d_name e
                ∈ filter (fun f => PyStr.endswith f crdownload = true)
                         (names_of_view (Entries l))).
  { apply elem_of_filter. split; [done|]. simpl.
    apply elem_of_list_to_set, list_elem_of_fmap.
    exists e. split; [done|]. by apply list_elem_of_In. }
  rewrite Hempty in Hel. by apply not_elem_of_empty in Hel.
Qed.

Section DownloadFileResults.

Variable X : externals.
Variable E : env.
Variable download_dir : string.
Variable headless : bool.
Variable url xpath : string.
Variable wait_timeout : Z.

Lemma download_file_unset (s : session) :
  s_driver s = false ->
  download_file X E download_dir headless url xpath wait_timeout s =
  match start_chrome X (build_options download_dir headless) with
  | None =>
      download_file X E download_dir headless url xpath wait_timeout
        (Session (s_world s) true
                 (s_log s ++ [ChromeInitialized download_dir]))
  | Some f =>
      (Failed f, if is_Exception f then logged [ChromeFailed f] s else s)
  end.
Proof.
  intros Hd. unfold download_file at 1, dbind at 1, get_driver. rewrite Hd.
  cbn [negb when]. unfold dbind at 1, setup_driver, try_except.
  unfold dbind at 1, call at 1.
  destruct (start_chrome X (build_options download_dir headless)) as [f|].
  - destruct (is_Exception f); reflexivity.
  - reflexivity.
Qed.

(** The world in which [download_file] polls does not depend on whether
    the driver had to be set up first. *)
Lemma download_file_inv (s s' : session) (r : outcome bool) :
  download_file X E download_dir headless url xpath wait_timeout s = (r, s') ->
  (exists f, r = Failed f
             /\ s_driver s = false
             /\ start_chrome X (build_options download_dir headless) = Some f)
  \/ exists s0,
       s_world s0 = s_world s /\ s_driver s0 = true
       /\ download_file X E download_dir headless url xpath wait_timeout s0
          = (r, s')
       /\ s_driver s' = true.
Proof.
  intros H. destruct (s_driver s) eqn:Hd.
  - right. exists s. repeat split; try done.
    by apply (quiet_download_file X E) in H as (_ & Hdr & _); auto.
  - rewrite download_file_unset in H by done.
    destruct (start_chrome X (build_options download_dir headless)) as [f|].
    + injection H as <- <-. left. by exists f.
    + right.
      exists (Session (s_world s) true
                      (s_log s ++ [ChromeInitialized download_dir])).
      split; [done|]. split; [done|]. split; [exact H|].
      by apply (quiet_download_file X E) in H as (_ & Hdr & _); auto.
Qed.

End DownloadFileResults.



(** [download_file] always ends, after at most ten one-second sleeps and
    at most eleven looks at the directory; it never reads the clock and
    prints no line of the monitor. *)
Theorem download_file_polling_is_bounded (X : externals) (E : env)
    (download_dir : string) (headless : bool) (url xpath : string)
    (wait_timeout : Z) (s s' : session) (r : outcome bool) :
  download_file X E download_dir headless url xpath wait_timeout s = (r, s') ->
  r <> Running
  /\ clock_reads (s_world s') = clock_reads (s_world s)
  /\ output (s_world s') = output (s_world s)
  /\ (sleeps (s_world s) <= sleeps (s_world s')
      <= sleeps (s_world s) + 10)%nat
  /\ (dir_reads (s_world s) <= dir_reads (s_world s')
      <= dir_reads (s_world s) + 11)%nat.
Proof.
  intros H.
  by apply (quiet_download_file X E) in H as (? & _ & ? & ? & ? & ?).
Qed.

Lemma download_file_polling_is_bounded_witness :
  download_file browser_ok env_empty DOWNLOAD_DIR true DOWNLOAD_URL
    DOWNLOAD_BUTTON_XPATH 60 session1
  = (Done false,
     Session (World 0 11 10 []) true
       [NavigatingTo DOWNLOAD_URL;
        ScreenshotSaved (path_join DOWNLOAD_DIR "before_download.png");
        LookingForButton DOWNLOAD_BUTTON_XPATH; ButtonFoundClicking;
        CheckingForInitiation; NoDownloadActivity])
  /\ (0 <= 10 <= 0 + 10)%nat.
Proof.
  assert (H : download_file browser_ok env_empty DOWNLOAD_DIR true
                DOWNLOAD_URL DOWNLOAD_BUTTON_XPATH 60 session1
              = (Done false,
                 Session (World 0 11 10 []) true
                   [NavigatingTo DOWNLOAD_URL;
                    ScreenshotSaved
                      (path_join DOWNLOAD_DIR "before_download.png");
                    LookingForButton DOWNLOAD_BUTTON_XPATH;
                    ButtonFoundClicking; CheckingForInitiation;
                    NoDownloadActivity]))
    by (vm_compute; reflexivity).
  split; [exact H|].
  exact (proj1 (proj2 (proj2 (proj2
           (download_file_polling_is_bounded _ _ _ _ _ _ _ _ _ _ H))))).
Defined.

(** [download_file] returns [True] only for one of two reasons: a look
    of the polling loop showed a name that was not listed before the
    click or a [.crdownload] name, or all ten looks showed neither and
    the browser script returned a non-empty value with a length. *)
Theorem download_file_true_means_detected (X : externals) (E : env)
    (download_dir : string) (headless : bool) (url xpath : string)
    (wait_timeout : Z) (s s' : session) :
  download_file X E download_dir headless url xpath wait_timeout s
  = (Done true, s') ->
  let d := dir_reads (s_world s) in
  let initial_files := names_of_view (dirs E d) in
  (exists j,
     (j < 10)%nat
     /\ sleeps (s_world s') = (sleeps (s_world s) + S j)%nat
     /\ start_detected initial_files (dirs E (S d + j)) = true)
  \/ (exists n,
        execute_script X = inr (Sized (S n))
        /\ sleeps (s_world s') = (sleeps (s_world s) + 10)%nat
        /\ forall j, (j < 10)%nat ->
             start_detected initial_files (dirs E (S d + j)) = false).
Proof.
  intros H d initial_files. subst d initial_files.
  apply download_file_inv in H
    as [(f0 & [=] & _)|(s0 & Hw & Hd0 & H & _)].
  rewrite <- Hw. rewrite download_file_run in H by done.
  destruct (start_download X E download_dir url xpath s0)
    as [[b|f|] s1] eqn:Hsd; [|by destruct (is_Exception f)|done].
  injection H as -> ->. rename Hsd into H.
  destruct (prelude_failure X download_dir url xpath) as [f|] eqn:Hp.
  { destruct (start_download_prelude_fails X E _ _ _ f s0 Hp) as [es Hes].
    by rewrite Hes in H. }
  rewrite start_download_run in H by done. cbn zeta in H.
  assert (Hpoll : forall v,
            match poll_for_start E 10 (names_of_view v)
                    (logged [CheckingForInitiation]
                       (in_the_world (looked (s_world s0))
                          (logged [NavigatingTo url;
                                   ScreenshotSaved
                                     (path_join download_dir
                                                "before_download.png");
                                   LookingForButton xpath;
                                   ButtonFoundClicking] s0))) with
            | (Done (Some b), s2) => (Done b, s2)
            | (Done None, s2) =>
                match execute_script X with
                | inr (Sized (S n)) =>
                    (Done true, logged [BrowserReportsDownloads (S n)] s2)
                | _ => (Done false, logged [NoDownloadActivity] s2)
                end
            | (Failed f, s2) => (Failed f, s2)
            | (Running, s2) => (Running, s2)
            end = (Done true, s') ->
            (exists j,
               (j < 10)%nat
               /\ sleeps (s_world s') = (sleeps (s_world s0) + S j)%nat
               /\ start_detected (names_of_view v)
                    (dirs E (S (dir_reads (s_world s0)) + j)) = true)
            \/ (exists n,
                  execute_script X = inr (Sized (S n))
                  /\ sleeps (s_world s') = (sleeps (s_world s0) + 10)%nat
                  /\ forall j, (j < 10)%nat ->
                       start_detected (names_of_view v)
                         (dirs E (S (dir_reads (s_world s0)) + j)) = false)).
  { intros v Hrun.
    destruct (poll_for_start E 10 (names_of_view v) _) as [rp sp] eqn:Hpl.
    apply poll_for_start_inv in Hpl. simpl in Hpl.
    destruct rp as [[b|]|f|]; try done.
    - injection Hrun as -> <-. destruct Hpl as (_ & j & Hj & Hs & Hdet).
      left. by exists j.
    - destruct Hpl as (Hs & Hnone). right.
      destruct (execute_script X) as [f|[[|n]|[]]]; try done.
      injection Hrun as <-. by exists n. }
  destruct (dirs E (dir_reads (s_world s0))) as [| |l] eqn:Hv;
    [|done|]; (destruct (button_click X) as [f|]; [done|]);
    by apply Hpoll.
Qed.

Lemma download_file_true_means_detected_witness :
  download_file browser_ok env_starting DOWNLOAD_DIR true DOWNLOAD_URL
    DOWNLOAD_BUTTON_XPATH 60 session1
  = (Done true,
     Session (World 0 4 3 []) true
       [NavigatingTo DOWNLOAD_URL;
        ScreenshotSaved (path_join DOWNLOAD_DIR "before_download.png");
        LookingForButton DOWNLOAD_BUTTON_XPATH; ButtonFoundClicking;
        CheckingForInitiation;
        PartialFilesDetected {[ "scene.zip.crdownload" ]};
        NewFilesDetected {[ "scene.zip.crdownload" ]}])
  /\ ((exists j,
         (j < 10)%nat
         /\ 3%nat = (0 + S j)%nat
         /\ start_detected (names_of_view (dirs env_starting 0))
              (dirs env_starting (1 + j)) = true)
      \/ (exists n,
            execute_script browser_ok = inr (Sized (S n))
            /\ 3%nat = (0 + 10)%nat
            /\ forall j, (j < 10)%nat ->
                 start_detected (names_of_view (dirs env_starting 0))
                   (dirs env_starting (1 + j)) = false)).
Proof.
  assert (H : download_file browser_ok env_starting DOWNLOAD_DIR true
                DOWNLOAD_URL DOWNLOAD_BUTTON_XPATH 60 session1
              = (Done true,
                 Session (World 0 4 3 []) true
                   [NavigatingTo DOWNLOAD_URL;
                    ScreenshotSaved
                      (path_join DOWNLOAD_DIR "before_download.png");
                    LookingForButton DOWNLOAD_BUTTON_XPATH;
                    ButtonFoundClicking; CheckingForInitiation;
                    PartialFilesDetected {[ "scene.zip.crdownload" ]};
                    NewFilesDetected {[ "scene.zip.crdownload" ]}]))
    by (vm_compute; reflexivity).
  split; [exact H|].
  exact (download_file_true_means_detected _ _ _ _ _ _ _ _ _ H).
Defined.

Lemma start_detected_no_names (initial_files : gset string) (v : dir_view) :
  names_of_view v = ∅ -> start_detected initial_files v = false.
Proof.
  intros Hn. unfold start_detected. rewrite Hn.
  assert (H1 : (∅ : gset string) ∖ initial_files = ∅)
    by (apply set_eq; intros x; rewrite elem_of_difference, elem_of_empty;
        tauto).
  assert (H2 : filter (fun f => PyStr.endswith f crdownload = true)
                      (∅ : gset string) = ∅)
    by (apply set_eq; intros x; rewrite elem_of_filter, elem_of_empty;
        tauto).
  by rewrite H1, H2, !bool_decide_eq_true_2.
Qed.

Section DownloadFileRuns.

Variable X : externals.
Variable E : env.
Variable download_dir : string.
Variable headless : bool.
Variable url xpath : string.
Variable wait_timeout : Z.

(** With the driver set up, every browser step succeeding and the
    directory listable before the click, [download_file] is its polling
    loop followed, if that gives up, by the question to the browser. *)
Lemma download_file_polls (s : session) :
  s_driver s = true ->
  prelude_failure X download_dir url xpath = None ->
  button_click X = None ->
  dirs E (dir_reads (s_world s)) <> Unlistable ->
  download_file X E download_dir headless url xpath wait_timeout s =
  match poll_for_start E 10
          (names_of_view (dirs E (dir_reads (s_world s))))
          (in_the_world (looked (s_world s))
             (logged (polling_lines download_dir url xpath) s)) with
  | (Done (Some b), s2) => (Done b, s2)
  | (Done None, s2) =>
      match execute_script X with
      | inr (Sized (S n)) =>
          (Done true, logged [BrowserReportsDownloads (S n)] s2)
      | _ => (Done false, logged [NoDownloadActivity] s2)
      end
  | (Failed f, s2) =>
      if is_Exception f
      then (Done false, logged [failure_line wait_timeout f] s2)
      else (Failed f, s2)
  | (Running, s2) => (Running, s2)
  end.
Proof.
  intros Hd Hp Hc Hv.
  rewrite download_file_run, start_download_run by done. cbn zeta.
  rewrite Hc.
  replace (logged [CheckingForInitiation]
             (in_the_world (looked (s_world s))
                (logged [NavigatingTo url;
                         ScreenshotSaved
                           (path_join download_dir "before_download.png");
                         LookingForButton xpath; ButtonFoundClicking] s)))
    with (in_the_world (looked (s_world s))
            (logged (polling_lines download_dir url xpath) s))
    by (unfold in_the_world, logged, polling_lines; simpl;
        by rewrite <- app_assoc).
  destruct (dirs E (dir_reads (s_world s))) as [| |l]; [|done|];
    (destruct (poll_for_start E 10 _ _) as [[[b|]|f|] s2]; try done;
     by destruct (execute_script X) as [f|[[|n]|[]]]).
Qed.

End DownloadFileRuns.

(** The polling loop up to its first detection. *)
Lemma download_file_first_detection (X : externals) (E : env)
    (download_dir : string) (headless : bool) (url xpath : string)
    (wait_timeout : Z) (s : session) (k : nat) :
  s_driver s = true ->
  prelude_failure X download_dir url xpath = None ->
  button_click X = None ->
  dirs E (dir_reads (s_world s)) <> Unlistable ->
  (k < 10)%nat ->
  (forall j, (j <= k)%nat ->
     interrupt E (sleeps (s_world s) + j) = false) ->
  (forall j, (j < k)%nat ->
     dirs E (S (dir_reads (s_world s)) + j) <> Unlistable
     /\ start_detected (names_of_view (dirs E (dir_reads (s_world s))))
          (dirs E (S (dir_reads (s_world s)) + j)) = false) ->
  start_detected (names_of_view (dirs E (dir_reads (s_world s))))
    (dirs E (S (dir_reads (s_world s)) + k)) = true ->
  download_file X E download_dir headless url xpath wait_timeout s
  = (Done true,
     logged (polling_lines download_dir url xpath
             ++ detection_report
                  (names_of_view (dirs E (dir_reads (s_world s))))
                  (dirs E (S (dir_reads (s_world s)) + k)))
       (in_the_world
          (World (clock_reads (s_world s))
                 (S (dir_reads (s_world s)) + S k)
                 (sleeps (s_world s) + S k) (output (s_world s))) s)).
Proof.
  intros Hd Hp Hc Hv Hk Hint Hidle Hdet.
  rewrite download_file_polls by done.
  replace 10%nat with (k + S (9 - k))%nat by lia.
  rewrite poll_for_start_idle.
  2:{ intros j Hj. destruct (Hidle j Hj) as [Hu Hn].
      cbn [in_the_world logged s_world looked dir_reads sleeps].
      repeat split; try done. apply Hint. lia. }
  rewrite poll_for_start_S. cbn zeta.
  cbn [in_the_world logged s_world s_driver s_log looked slept dir_reads
       sleeps clock_reads output].
  rewrite (Hint k) by lia.
  destruct (dirs E (S (dir_reads (s_world s)) + k)) as [| |l] eqn:Hvk;
    [|by rewrite start_detected_no_names in Hdet|];
    rewrite Hdet; unfold logged, in_the_world;
    cbn [s_world s_driver s_log looked slept dir_reads sleeps clock_reads
         output];
    rewrite <- app_assoc; do 2 f_equal; unfold looked, slept; simpl;
    f_equal; lia.
Qed.

(** The polling loop of [download_file] returns [True] at the first look
    that shows a name not listed before the click or a [.crdownload]
    name: if the [k] looks before it (fewer than ten) showed neither,
    [True] is returned after [k + 1] one-second sleeps. *)
Theorem download_file_detects_start (X : externals) (E : env)
    (download_dir : string) (headless : bool) (url xpath : string)
    (wait_timeout : Z) (s : session) (k : nat) :
  s_driver s = true ->
  prelude_failure X download_dir url xpath = None ->
  button_click X = None ->
  dirs E (dir_reads (s_world s)) <> Unlistable ->
  (k < 10)%nat ->
  (forall j, (j <= k)%nat ->
     interrupt E (sleeps (s_world s) + j) = false) ->
  (forall j, (j < k)%nat ->
     dirs E (S (dir_reads (s_world s)) + j) <> Unlistable
     /\ start_detected (names_of_view (dirs E (dir_reads (s_world s))))
          (dirs E (S (dir_reads (s_world s)) + j)) = false) ->
  start_detected (names_of_view (dirs E (dir_reads (s_world s))))
    (dirs E (S (dir_reads (s_world s)) + k)) = true ->
  download_file X E download_dir headless url xpath wait_timeout s
  = (Done true,
     logged (polling_lines download_dir url xpath
             ++ detection_report
                  (names_of_view (dirs E (dir_reads (s_world s))))
                  (dirs E (S (dir_reads (s_world s)) + k)))
       (in_the_world
          (World (clock_reads (s_world s))
                 (S (dir_reads (s_world s)) + S k)
                 (sleeps (s_world s) + S k) (output (s_world s))) s)).
Proof.
  apply download_file_first_detection.
Qed.

Lemma download_file_detects_start_witness :
  prelude_failure browser_ok DOWNLOAD_DIR DOWNLOAD_URL DOWNLOAD_BUTTON_XPATH
  = None
  /\ start_detected (names_of_view (dirs env_starting 0))
       (dirs env_starting 3) = true
  /\ fst (download_file browser_ok env_starting DOWNLOAD_DIR true
            DOWNLOAD_URL DOWNLOAD_BUTTON_XPATH 60 session1) = Done true
  /\ sleeps (s_world (snd (download_file browser_ok env_starting
                             DOWNLOAD_DIR true DOWNLOAD_URL
                             DOWNLOAD_BUTTON_XPATH 60 session1))) = 3%nat.
Proof.
  assert (Hdet : start_detected (names_of_view (dirs env_starting 0))
                   (dirs env_starting 3) = true) by (vm_compute; reflexivity).
  split; [reflexivity|]. split; [exact Hdet|].
  rewrite (download_file_detects_start browser_ok env_starting DOWNLOAD_DIR
             true DOWNLOAD_URL DOWNLOAD_BUTTON_XPATH 60 session1 2).
  - split; reflexivity.
  - reflexivity.
  - reflexivity.
  - reflexivity.
  - discriminate.
  - lia.
  - intros j Hj. reflexivity.
  - intros j Hj. destruct j as [|[|j]]; [| |lia];
      (split; [discriminate|vm_compute; reflexivity]).
  - exact Hdet.
Defined.

(** A [.crdownload] name listed at the first look after the click makes
    [download_file] report that the download has started, whether or not
    that file was already there before the click: a partial file left
    over from an earlier run is taken for the start of this one. *)
Theorem leftover_partial_counts_as_start (X : externals) (E : env)
    (download_dir : string) (headless : bool) (url xpath : string)
    (wait_timeout : Z) (s : session) :
  s_driver s = true ->
  prelude_failure X download_dir url xpath = None ->
  button_click X = None ->
  dirs E (dir_reads (s_world s)) <> Unlistable ->
  interrupt E (sleeps (s_world s)) = false ->
  shows_partial (dirs E (S (dir_reads (s_world s)))) = true ->
  exists s',
    download_file X E download_dir headless url xpath wait_timeout s
    = (Done true, s')
    /\ sleeps (s_world s') = S (sleeps (s_world s))
    /\ dir_reads (s_world s') = S (S (dir_reads (s_world s))).
Proof.
  intros Hd Hp Hc Hv Hi Hsp.
  assert (Hint : forall j, (j <= 0)%nat ->
            interrupt E (sleeps (s_world s) + j) = false).
  { intros j Hj. assert (j = 0%nat) as -> by lia. by rewrite Nat.add_0_r. }
  assert (Hidle : forall j, (j < 0)%nat ->
            dirs E (S (dir_reads (s_world s)) + j) <> Unlistable
            /\ start_detected
                 (names_of_view (dirs E (dir_reads (s_world s))))
                 (dirs E (S (dir_reads (s_world s)) + j)) = false)
    by (intros j Hj; lia).
  assert (Hdet : start_detected
                   (names_of_view (dirs E (dir_reads (s_world s))))
                   (dirs E (S (dir_reads (s_world s)) + 0)) = true)
    by (rewrite Nat.add_0_r; by apply shows_partial_detected).
  eexists. split.
  - exact (download_file_first_detection X E download_dir headless url
             xpath wait_timeout s 0 Hd Hp Hc Hv ltac:(lia) Hint Hidle Hdet).
  - simpl. split; lia.
Qed.

Lemma leftover_partial_counts_as_start_witness :
  dirs env_leftover 1 = dirs env_leftover 0
  /\ shows_partial (dirs env_leftover 1) = true
  /\ exists s',
       download_file browser_ok env_leftover DOWNLOAD_DIR true DOWNLOAD_URL
         DOWNLOAD_BUTTON_XPATH 60 session1 = (Done true, s')
       /\ sleeps (s_world s') = 1%nat
       /\ dir_reads (s_world s') = 2%nat.
Proof.
  split; [reflexivity|]. split; [reflexivity|].
  refine (leftover_partial_counts_as_start browser_ok env_leftover
            DOWNLOAD_DIR true DOWNLOAD_URL DOWNLOAD_BUTTON_XPATH 60 session1
            eq_refl eq_refl eq_refl _ eq_refl eq_refl).
  discriminate.
Defined.

(** When ten looks in a row show no new name and no [.crdownload] name,
    [download_file] asks the browser, inside a bare [except]: it returns
    [True] only if the script returns a non-empty value with a length,
    and [False] - after its warning - in every other case, a failure of
    the script included. *)
Theorem download_file_gives_up (X : externals) (E : env)
    (download_dir : string) (headless : bool) (url xpath : string)
    (wait_timeout : Z) (s : session) :
  s_driver s = true ->
  prelude_failure X download_dir url xpath = None ->
  button_click X = None ->
  dirs E (dir_reads (s_world s)) <> Unlistable ->
  (forall j, (j < 10)%nat ->
     interrupt E (sleeps (s_world s) + j) = false
     /\ dirs E (S (dir_reads (s_world s)) + j) <> Unlistable
     /\ start_detected (names_of_view (dirs E (dir_reads (s_world s))))
          (dirs E (S (dir_reads (s_world s)) + j)) = false) ->
  download_file X E download_dir headless url xpath wait_timeout s
  = (match execute_script X with
     | inr (Sized (S n)) => Done true
     | _ => Done false
     end,
     logged (polling_lines download_dir url xpath
             ++ [match execute_script X with
                 | inr (Sized (S n)) => BrowserReportsDownloads (S n)
                 | _ => NoDownloadActivity
                 end])
       (in_the_world
          (World (clock_reads (s_world s)) (dir_reads (s_world s) + 11)
                 (sleeps (s_world s) + 10) (output (s_world s))) s)).
Proof.
  intros Hd Hp Hc Hv Hidle.
  rewrite download_file_polls by done.
  change 10%nat with (10 + 0)%nat at 1.
  rewrite poll_for_start_idle.
  2:{ intros j Hj. destruct (Hidle j Hj) as (Hi & Hu & Hn).
      cbn [in_the_world logged s_world looked dir_reads sleeps].
      by repeat split. }
  cbn [poll_for_start]. unfold dret.
  unfold logged, in_the_world;
    cbn [s_world s_driver s_log looked dir_reads sleeps clock_reads output].
  destruct (execute_script X) as [f|[[|n]|[]]];
    rewrite <- app_assoc; do 2 f_equal; f_equal; lia.
Qed.

Lemma download_file_gives_up_witness :
  prelude_failure browser_ok DOWNLOAD_DIR DOWNLOAD_URL DOWNLOAD_BUTTON_XPATH
  = None
  /\ fst (download_file browser_ok env_screenshot DOWNLOAD_DIR true
            DOWNLOAD_URL DOWNLOAD_BUTTON_XPATH 60 session1) = Done false
  /\ sleeps (s_world (snd (download_file browser_ok env_screenshot
                             DOWNLOAD_DIR true DOWNLOAD_URL
                             DOWNLOAD_BUTTON_XPATH 60 session1))) = 10%nat.
Proof.
  split; [reflexivity|].
  rewrite (download_file_gives_up browser_ok env_screenshot DOWNLOAD_DIR
             true DOWNLOAD_URL DOWNLOAD_BUTTON_XPATH 60 session1).
  - split; reflexivity.
  - reflexivity.
  - reflexivity.
  - reflexivity.
  - discriminate.
  - intros j Hj. split; [reflexivity|]. split; [discriminate|].
    vm_compute. reflexivity.
Defined.

(** When a browser step before the click fails with an [Exception] - the
    page does not load, the screenshot cannot be saved, the button does
    not become clickable - [download_file] returns [False] without
    clicking, sleeping or looking at the directory; the last line printed
    is the one of the matching [except] clause. *)
Theorem download_file_stops_before_click (X : externals) (E : env)
    (download_dir : string) (headless : bool) (url xpath : string)
    (wait_timeout : Z) (s : session) (f : failure) :
  s_driver s = true ->
  prelude_failure X download_dir url xpath = Some f ->
  is_Exception f = true ->
  exists es,
    download_file X E download_dir headless url xpath wait_timeout s
    = (Done false, logged (es ++ [failure_line wait_timeout f]) s).
Proof.
  intros Hd Hp He. rewrite download_file_run by done.
  destruct (start_download_prelude_fails X E download_dir url xpath f s Hp)
    as [es ->].
  rewrite He. exists es. unfold logged; simpl. by rewrite <- app_assoc.
Qed.

Lemma download_file_stops_before_click_witness :
  prelude_failure browser_no_button DOWNLOAD_DIR DOWNLOAD_URL
    DOWNLOAD_BUTTON_XPATH = Some (Selenium TimeoutException)
  /\ exists es,
       download_file browser_no_button env_starting DOWNLOAD_DIR true
         DOWNLOAD_URL DOWNLOAD_BUTTON_XPATH 60 session1
       = (Done false, logged (es ++ [ButtonTimeout 60]) session1).
Proof.
  split; [reflexivity|].
  exact (download_file_stops_before_click browser_no_button env_starting
           DOWNLOAD_DIR true DOWNLOAD_URL DOWNLOAD_BUTTON_XPATH 60 session1
           (Selenium TimeoutException) eq_refl eq_refl eq_refl).
Defined.

(** ** [main] *)

Section Main.

Variable X : externals.
Variable E : env.

Lemma close_run (s : session) :
  close X s =
  if s_driver s then
    match driver_quit X with
    | None => (Done tt, logged [BrowserClosed] s)
    | Some f => (Failed f, s)
    end
  else (Done tt, s).
Proof.
  unfold close, dbind at 1, get_driver.
  destruct (s_driver s); [|reflexivity]. cbn [when].
  unfold dbind, call. by destruct (driver_quit X).
Qed.

(** [main] once the download directory exists, in terms of what
    [download_file] does. *)
Lemma main_run (fuel : nat) (s : session) :
  makedirs X DOWNLOAD_DIR = None ->
  main X E fuel s =
  match download_file X E DOWNLOAD_DIR true DOWNLOAD_URL
          DOWNLOAD_BUTTON_XPATH 60 s with
  | (Done true, s1) =>
      match wait_for_download_completion E fuel 7200 true (s_world s1) with
      | (Ret _, w') => close X (in_the_world w' s1)
      | (Raise e, w') =>
          close X (logged [main_line (Failed (Python e))]
                          (in_the_world w' s1))
      | (Fuel, w') => (Running, in_the_world w' s1)
      end
  | (Running, s1) => (Running, s1)
  | (r, s1) => close X (logged [main_line r] s1)
  end.
Proof.
  intros Hm. unfold main, dbind at 1, init, call. rewrite Hm.
  unfold try_finally, try_except, dbind at 1.
  destruct (download_file X E DOWNLOAD_DIR true DOWNLOAD_URL
              DOWNLOAD_BUTTON_XPATH 60 s) as [[[|]|f|] s1].
  - unfold dbind at 1, in_world.
    destruct (wait_for_download_completion E fuel 7200 true (s_world s1))
      as [[b|e|] w']; cbn [main_line].
    + unfold dret, in_the_world. by destruct (close X _) as [[[]|?|] ?].
    + unfold say, logged, in_the_world; cbn [s_world s_driver s_log].
      destruct e; by destruct (close X _) as [[[]|?|] ?].
    + reflexivity.
  - unfold say, logged; cbn [main_line].
    by destruct (close X _) as [[[]|?|] ?].
  - unfold say, logged.
    destruct f as [[]|[]]; cbn [main_line];
      by destruct (close X _) as [[[]|?|] ?].
  - reflexivity.
Qed.

End Main.



(** [main] runs the monitor only after [download_file] returned [True].
    Otherwise it prints one line - that the download could not be
    initiated, that the user interrupted, or the unexpected error - and
    closes the browser, without reading the clock or taking any snapshot
    beyond those of [download_file]. *)
Theorem main_monitors_only_after_start (X : externals) (E : env)
    (fuel : nat) (s s1 : session) (r1 : outcome bool) :
  makedirs X DOWNLOAD_DIR = None ->
  download_file X E DOWNLOAD_DIR true DOWNLOAD_URL DOWNLOAD_BUTTON_XPATH 60 s
  = (r1, s1) ->
  r1 <> Done true ->
  main X E fuel s = close X (logged [main_line r1] s1)
  /\ s_world (snd (main X E fuel s)) = s_world s1.
Proof.
  intros Hm Hdl Hr.
  assert (Hmain : main X E fuel s = close X (logged [main_line r1] s1)).
  { rewrite main_run, Hdl by done.
    destruct r1 as [[|]|f|]; try done.
    by apply (quiet_download_file X E) in Hdl as (? & _). }
  split; [exact Hmain|]. rewrite Hmain, close_run.
  destruct (s_driver (logged [main_line r1] s1)); [|done].
  by destruct (driver_quit X).
Qed.

Lemma main_monitors_only_after_start_witness :
  makedirs browser_no_button DOWNLOAD_DIR = None
  /\ fst (download_file browser_no_button env_starting DOWNLOAD_DIR true
            DOWNLOAD_URL DOWNLOAD_BUTTON_XPATH 60 session0) = Done false
  /\ s_world (snd (main browser_no_button env_starting 5 session0))
     = world0.
Proof.
  assert (Hdl : download_file browser_no_button env_starting DOWNLOAD_DIR
                  true DOWNLOAD_URL DOWNLOAD_BUTTON_XPATH 60 session0
                = (Done false,
                   snd (download_file browser_no_button env_starting
                          DOWNLOAD_DIR true DOWNLOAD_URL
                          DOWNLOAD_BUTTON_XPATH 60 session0)))
    by (vm_compute; reflexivity).
  split; [reflexivity|]. split; [vm_compute; reflexivity|].
  rewrite (proj2 (main_monitors_only_after_start browser_no_button
                    env_starting 5 session0 _ _ eq_refl Hdl
                    ltac:(discriminate))).
  vm_compute. reflexivity.
Defined.

(** After a start, [main] runs the detailed wait with a timeout of two
    hours and ignores what it returns: completion, timeout and a Ctrl-C
    that the wait caught all lead straight to closing the browser,
    without any line of [main]'s own.  An exception that leaves the wait
    gets the line [main] prints for it - its interruption message for
    [KeyboardInterrupt], the unexpected error otherwise - and then the
    browser is closed.  While the wait is still running, [main] has not
    closed the browser. *)
Theorem main_after_start (X : externals) (E : env) (fuel : nat)
    (s s1 : session) :
  makedirs X DOWNLOAD_DIR = None ->
  download_file X E DOWNLOAD_DIR true DOWNLOAD_URL DOWNLOAD_BUTTON_XPATH 60 s
  = (Done true, s1) ->
  main X E fuel s =
  match wait_for_download_completion E fuel 7200 true (s_world s1) with
  | (Ret _, w') => close X (in_the_world w' s1)
  | (Raise KeyboardInterrupt, w') =>
      close X (logged [InterruptedInMain] (in_the_world w' s1))
  | (Raise e, w') =>
      close X (logged [UnexpectedError (Python e)] (in_the_world w' s1))
  | (Fuel, w') => (Running, in_the_world w' s1)
  end.
Proof.
  intros Hm Hdl. rewrite main_run, Hdl by done.
  destruct (wait_for_download_completion E fuel 7200 true (s_world s1))
    as [[b|e|] w']; try reflexivity.
  by destruct e.
Qed.

Lemma main_after_start_witness :
  makedirs browser_ok DOWNLOAD_DIR = None
  /\ fst (download_file browser_ok env_leftover DOWNLOAD_DIR true
            DOWNLOAD_URL DOWNLOAD_BUTTON_XPATH 60 session0) = Done true
  /\ fst (main browser_ok env_leftover 3 session0) = Running.
Proof.
  assert (Hdl : download_file browser_ok env_leftover DOWNLOAD_DIR true
                  DOWNLOAD_URL DOWNLOAD_BUTTON_XPATH 60 session0
                = (Done true,
                   snd (download_file browser_ok env_leftover DOWNLOAD_DIR
                          true DOWNLOAD_URL DOWNLOAD_BUTTON_XPATH 60
                          session0)))
    by (vm_compute; reflexivity).
  split; [reflexivity|]. split; [vm_compute; reflexivity|].
  rewrite (main_after_start browser_ok env_leftover 3 session0 _
             eq_refl Hdl).
  vm_compute. reflexivity.
Defined.

(** ** Configuration values, whatever they are *)

(** No call of the wait ends with the [ValueError] that [time.sleep]
    keeps for a negative length: its two sleeps have constant lengths. *)
Lemma wait_never_ValueError (E : env) (fuel : nat) (timeout : Q)
    (detailed_monitoring : bool) (w : world) :
  fst (wait_for_download_completion E fuel timeout detailed_monitoring w)
  <> Raise ValueError.
Proof.
  destruct detailed_monitoring.
  - rewrite wait_detailed_run.
    destruct (wait_detailed_loop E fuel _ timeout _) as [rl wl] eqn:Hl.
    apply wait_detailed_loop_inv in Hl.
    destruct rl as [[b|]|x|]; try done.
    by destruct Hl as [(-> & _)|(-> & _)].
  - rewrite wait_simple_run.
    destruct (wait_simple_loop E fuel _ timeout _) as [rl wl] eqn:Hl.
    apply wait_simple_loop_inv in Hl.
    destruct rl as [[b|]|x|]; try done.
    by destruct Hl as [(-> & _)|(-> & _)].
Qed.

(** Claim C7, amended.  Nothing is validated.  With a timeout that is not
    positive, on a clock that does not run backwards between the start
    and the first check, [wait_for_download_completion] takes no
    snapshot, does not sleep, prints that the timeout was reached and
    returns [False].  With a negative check interval,
    [monitor_download_progress] takes its first snapshot and, when that
    snapshot shows a partial download or no file, fails with the
    [ValueError] of [time.sleep].  No timeout whatever makes the wait
    raise [ValueError]; and a timeout below the five seconds of the poll
    interval is treated like any other: when the first check reads an
    elapsed time below it and the snapshot shows nothing, the wait sleeps
    its five seconds - past the timeout - and returns [False] at the
    second check, after one snapshot and one sleep. *)
Theorem configuration_is_not_validated (E : env) (fuel : nat) (w : world) :
  (forall (timeout : Q) (detailed_monitoring : bool),
     (timeout <= 0)%Q ->
     (clock E (clock_reads w) <= clock E (S (clock_reads w)))%Q ->
     wait_for_download_completion E (S fuel) timeout detailed_monitoring w
     = (Ret false,
        printed TimeoutReached
          (read_clock (read_clock
             (printed (if detailed_monitoring then UsingDetailedMonitoring
                       else WaitingForCompletion) w)))))
  /\ (forall (check_interval : Q),
        (check_interval < 0)%Q ->
        readable (dirs E (dir_reads w)) = true ->
        shows_partial (dirs E (dir_reads w)) = true
        \/ shows_nothing (dirs E (dir_reads w)) = true ->
        let r := monitor_download_progress E (S fuel) check_interval w in
        fst r = Raise ValueError
        /\ dir_reads (snd r) = S (dir_reads w)
        /\ sleeps (snd r) = sleeps w)
  /\ (forall (timeout : Q) (detailed_monitoring : bool) (fuel' : nat),
        fst (wait_for_download_completion E fuel' timeout
               detailed_monitoring w)
        <> Raise ValueError)
  /\ (forall (timeout : Q),
        (timeout < 5)%Q ->
        (clock E (clock_reads w) <= clock E (S (clock_reads w)))%Q ->
        (clock E (S (clock_reads w)) - clock E (clock_reads w) < timeout)%Q ->
        (5 <= clock E (S (S (clock_reads w)))
              - clock E (S (clock_reads w)))%Q ->
        shows_nothing (dirs E (dir_reads w)) = true ->
        interrupt E (sleeps w) = false ->
        wait_for_download_completion E (S (S fuel)) timeout true w
        = (Ret false,
           World (S (S (S (clock_reads w)))) (S (dir_reads w))
                 (S (sleeps w))
                 (output w ++ [UsingDetailedMonitoring; TimeoutReached]))).
Proof.
  split; [|split; [|split]].
  - intros timeout detailed Ht Hc.
    assert (Hcond : Qltb (clock E (S (clock_reads w))
                          - clock E (clock_reads w)) timeout = false).
    { apply Qltb_ge. lra. }
    destruct detailed.
    + rewrite wait_detailed_run, wait_detailed_loop_S.
      change (clock_reads (read_clock (printed UsingDetailedMonitoring w)))
        with (S (clock_reads w)).
      by rewrite Hcond.
    + rewrite wait_simple_run. cbn [wait_simple_loop].
      unfold bind at 1. unfold time_time at 1.
      change (clock_reads (read_clock (printed WaitingForCompletion w)))
        with (S (clock_reads w)).
      by rewrite Hcond.
  - intros ci Hci Hr Hshow r. subst r.
    destruct (readable_view_returns _ Hr) as [st Hst].
    assert (Hgo : active_downloads st <> 0 \/ completed_files st = []).
    { destruct Hshow as [Hp|Hn].
      - left. pose proof (shows_partial_status _ _ Hp Hst). lia.
      - right. rewrite (shows_nothing_status _ Hn) in Hst.
        by injection Hst as <-. }
    rewrite monitor_download_progress_run, monitor_loop_S.
    destruct (monitor_iteration_goes_on E ci ∅
                (printed StartingMonitoring w) st Hst Hgo)
      as (ls' & w1 & -> & Hd & Hs & _).
    rewrite sleep_then_continue_negative by done. simpl in *. done.
  - intros timeout detailed fuel'. apply wait_never_ValueError.
  - intros timeout Ht Hmono Hfirst Hslept Hn Hi.
    rewrite wait_detailed_run.
    change (S (S fuel)) with (1 + S fuel)%nat.
    rewrite wait_detailed_loop_rounds.
    2:{ intros j Hj. assert (j = 0%nat) as -> by lia.
        cbn [clock_reads dir_reads sleeps read_clock printed].
        rewrite !Nat.add_0_r. done. }
    rewrite wait_detailed_loop_S.
    cbn [clock_reads dir_reads sleeps output read_clock printed].
    replace (S (clock_reads w) + 1)%nat with (S (S (clock_reads w)))
      by lia.
    assert (Hcond : Qltb (clock E (S (S (clock_reads w)))
                          - clock E (clock_reads w)) timeout = false).
    { apply Qltb_ge. lra. }
    rewrite Hcond. unfold printed, read_clock; simpl.
    rewrite <- app_assoc. simpl. f_equal. f_equal; lia.
Qed.

Lemma configuration_is_not_validated_witness :
  ((0 <= 0)%Q
   /\ (clock env_empty (clock_reads world0)
       <= clock env_empty (S (clock_reads world0)))%Q
   /\ wait_for_download_completion env_empty 1 0 true world0
      = (Ret false,
         printed TimeoutReached
           (read_clock (read_clock
              (printed UsingDetailedMonitoring world0)))))
  /\ ((-1 < 0)%Q
      /\ readable (dirs env_empty (dir_reads world0)) = true
      /\ shows_nothing (dirs env_empty (dir_reads world0)) = true
      /\ fst (monitor_download_progress env_empty 1 (-1) world0)
         = Raise ValueError)
  /\ ((3 < 5)%Q
      /\ (clock env_empty 1 - clock env_empty 0 < 3)%Q
      /\ (5 <= clock env_empty 2 - clock env_empty 1)%Q
      /\ wait_for_download_completion env_empty 2 3 true world0
         = (Ret false,
            World 3 1 1 [UsingDetailedMonitoring; TimeoutReached])).
Proof.
  assert (H1 : (0 <= 0)%Q) by (vm_compute; discriminate).
  assert (H2 : (clock env_empty (clock_reads world0)
                <= clock env_empty (S (clock_reads world0)))%Q)
    by (vm_compute; discriminate).
  assert (H3 : (-1 < 0)%Q) by reflexivity.
  assert (H4 : (3 < 5)%Q) by reflexivity.
  assert (H5 : (clock env_empty (S (clock_reads world0))
                - clock env_empty (clock_reads world0) < 3)%Q)
    by reflexivity.
  assert (H6 : (5 <= clock env_empty (S (S (clock_reads world0)))
                     - clock env_empty (S (clock_reads world0)))%Q)
    by (vm_compute; discriminate).
  split; [|split].
  - split; [exact H1|]. split; [exact H2|].
    exact (proj1 (configuration_is_not_validated env_empty 0 world0)
             0%Q true H1 H2).
  - split; [exact H3|]. split; [reflexivity|]. split; [reflexivity|].
    exact (proj1 (proj1 (proj2 (configuration_is_not_validated env_empty 0
                                  world0))
                    (-1)%Q H3 eq_refl (or_intror eq_refl))).
  - split; [exact H4|]. split; [exact H5|]. split; [exact H6|].
    exact (proj2 (proj2 (proj2 (configuration_is_not_validated env_empty 0
                                  world0)))
             3%Q H4 H2 H5 H6 eq_refl eq_refl).
Defined.
